(** * Fitness tracker: workout sessions and exercises

    A shallow embedding of [src/db/tables.ts]: the two Astro DB tables
    ([WorkoutSessions], [WorkoutExercises]) and the seven server actions
    built over them, followed by the properties the specification states
    about them.

    Modelling decisions, in one place:
    - a table is the list of its rows, in storage order; a query without
      [ORDER BY] returns the rows it selects in that order;
    - an [async] handler is a computation in a state-and-exception monad over
      the database; an exception leaves the database as it was when it was
      thrown (the source opens no transaction);
    - [new Date()], [randomUUID()] and the [Date] constructor used by
      [z.coerce.date()] belong to the JavaScript runtime and are read from a
      [Runtime] record; an action reads the clock and the generator at most
      once;
    - [undefined] in an object and SQL [NULL] in a row are both [None];
    - a number that passed [.int()] is carried as a [Z], and
      [(page - 1) * pageSize] is computed in [Z] (on doubles the product is
      exact below 2^53 and at least 2^53 otherwise, past any table);
    - [primaryKey: true] is enforced by the engine on insert and modelled;
      the foreign key from [sessionId] is not modelled: on insert and update
      the handlers check the target session themselves (see [referential]
      and [actions_keep_consistency]), and a theorem that says a session was
      deleted assumes [unreferenced_by_others];
    - the query layer is the driver where the driver succeeds. What the real
      driver refuses or alters (a number that is not finite, an integer
      beyond 2^53 - 1 in a row it reads, text with U+0000, an offset that
      is not a 64-bit integer) is delimited by [readable], [storable_create],
      [storable_update], [storable_exercise] and [safe_integer]; a theorem
      that says a statement succeeded or that a row was read back assumes
      them, or takes the fulfilled call as its hypothesis;
    - the database keeps a journal of the statements it was sent (ghost
      state: it lets a theorem speak about which statements ran, and in
      which order). *)

From stdpp Require Import base option list strings gmap.
From Stdlib Require Import ZArith QArith.

Close Scope Q_scope.
Open Scope string_scope.
Open Scope list_scope.
Open Scope Z_scope.

(** ** JavaScript values *)

(** A [Date] that is not "Invalid Date": its time value, milliseconds since
    the epoch. *)
Definition Date := Z.

(** A JavaScript number. Finite doubles are rationals; the schemas below only
    compare a number with a constant or ask whether it is an integer, and
    both are exact on doubles. *)
Inductive JsNum :=
| Finite (q : Q)
| Infinity
| NegInfinity
| NaN.

(** What a field of a request body can hold. [VOther] stands for arrays and
    nested objects: no schema of this program accepts one. *)
Inductive JsValue :=
| VUndefined
| VNull
| VBool (b : bool)
| VNum (n : JsNum)
| VStr (s : string)
| VOther.

(** The request body handed to an action. *)
Inductive RawInput :=
| RObject (fields : gmap string JsValue)
| RNotObject (v : JsValue).

(** Reading a property: a missing key reads as [undefined]. *)
Definition prop (o : gmap string JsValue) (k : string) : JsValue :=
  default VUndefined (o !! k).

(** The parts of the runtime the actions consult: the clock behind
    [new Date()], the generator behind [randomUUID()], and [new Date(v)]
    ([None] for an invalid date). *)
Record Runtime := {
  now : Date;
  randomUUID : string;
  newDate : JsValue -> option Date;
}.

(** ** Tables *)

Module WorkoutSessions.

Record row := {
  id : string;
  userId : string;
  title : option string;
  workoutDate : Date;
  startTime : option Date;
  endTime : option Date;
  workoutType : option string;
  notes : option string;
  totalDurationMinutes : option Z;
  totalCalories : option Z;
  createdAt : Date;
  updatedAt : Date;
}.

(** [Partial<typeof WorkoutSessions.$inferInsert>]: every column may be
    absent ([None]); a present nullable column carries its new value. *)
Module Partial.
Record t := {
  id : option string;
  userId : option string;
  title : option (option string);
  workoutDate : option Date;
  startTime : option (option Date);
  endTime : option (option Date);
  workoutType : option (option string);
  notes : option (option string);
  totalDurationMinutes : option (option Z);
  totalCalories : option (option Z);
  createdAt : option Date;
  updatedAt : option Date;
}.
End Partial.

(** [UPDATE ... SET]: the columns present in the partial row are
    overwritten, the others keep their value. *)
Definition set (p : Partial.t) (r : row) : row := {|
  id := default (id r) (Partial.id p);
  userId := default (userId r) (Partial.userId p);
  title := default (title r) (Partial.title p);
  workoutDate := default (workoutDate r) (Partial.workoutDate p);
  startTime := default (startTime r) (Partial.startTime p);
  endTime := default (endTime r) (Partial.endTime p);
  workoutType := default (workoutType r) (Partial.workoutType p);
  notes := default (notes r) (Partial.notes p);
  totalDurationMinutes :=
    default (totalDurationMinutes r) (Partial.totalDurationMinutes p);
  totalCalories := default (totalCalories r) (Partial.totalCalories p);
  createdAt := default (createdAt r) (Partial.createdAt p);
  updatedAt := default (updatedAt r) (Partial.updatedAt p);
|}.

End WorkoutSessions.

Module WorkoutExercises.

Record row := {
  id : string;
  sessionId : string;
  userId : string;
  name : string;
  category : option string;
  sets : option Z;
  repsPerSet : option Z;
  weightPerRep : option JsNum;
  distanceKm : option JsNum;
  durationMinutes : option JsNum;
  caloriesBurned : option JsNum;
  notes : option string;
  createdAt : Date;
}.

Module Partial.
Record t := {
  id : option string;
  sessionId : option string;
  userId : option string;
  name : option string;
  category : option (option string);
  sets : option (option Z);
  repsPerSet : option (option Z);
  weightPerRep : option (option JsNum);
  distanceKm : option (option JsNum);
  durationMinutes : option (option JsNum);
  caloriesBurned : option (option JsNum);
  notes : option (option string);
  createdAt : option Date;
}.
End Partial.

Definition set (p : Partial.t) (r : row) : row := {|
  id := default (id r) (Partial.id p);
  sessionId := default (sessionId r) (Partial.sessionId p);
  userId := default (userId r) (Partial.userId p);
  name := default (name r) (Partial.name p);
  category := default (category r) (Partial.category p);
  sets := default (sets r) (Partial.sets p);
  repsPerSet := default (repsPerSet r) (Partial.repsPerSet p);
  weightPerRep := default (weightPerRep r) (Partial.weightPerRep p);
  distanceKm := default (distanceKm r) (Partial.distanceKm p);
  durationMinutes := default (durationMinutes r) (Partial.durationMinutes p);
  caloriesBurned := default (caloriesBurned r) (Partial.caloriesBurned p);
  notes := default (notes r) (Partial.notes p);
  createdAt := default (createdAt r) (Partial.createdAt p);
|}.

End WorkoutExercises.

(** ** The query layer ([astro:db]) *)

(** A [where] clause over rows of type [R]: [eq(column, value)] on a text
    column (the column is its projection), and [and(a, b)]. Kept as syntax so
    that the journal records the clause that was sent. *)
Module Sql.
Inductive Where (R : Type) :=
| eq (column : R -> string) (value : string)
| and (a b : Where R).
Arguments eq {R} column value.
Arguments and {R} a b.
End Sql.

(** The rows a clause selects; deciding it is what the engine runs. *)
Fixpoint holds {R : Type} (w : Sql.Where R) (r : R) : Prop :=
  match w with
  | Sql.eq column value => column r = value
  | Sql.and a b => holds a r ∧ holds b r
  end.

Fixpoint holds_dec {R : Type} (w : Sql.Where R) (r : R) : Decision (holds w r) :=
  match w with
  | Sql.eq column value => decide (column r = value)
  | Sql.and a b => and_dec (holds_dec a r) (holds_dec b r)
  end.
#[export] Existing Instance holds_dec.

(** The statements the program sends. *)
Inductive Stmt :=
| SelectSessions (w : Sql.Where WorkoutSessions.row) (limit_offset : option (Z * Z))
| SelectExercises (w : Sql.Where WorkoutExercises.row)
| InsertSession (r : WorkoutSessions.row)
| InsertExercise (r : WorkoutExercises.row)
| UpdateSessions (p : WorkoutSessions.Partial.t) (w : Sql.Where WorkoutSessions.row)
| UpdateExercises (p : WorkoutExercises.Partial.t) (w : Sql.Where WorkoutExercises.row)
| DeleteSessions (w : Sql.Where WorkoutSessions.row)
| DeleteExercises (w : Sql.Where WorkoutExercises.row).

Record Db := {
  sessions : list WorkoutSessions.row;
  exercises : list WorkoutExercises.row;
  journal : list Stmt;
}.

(** ** Asynchronous computations over the database *)

(** The codes the handlers raise. *)
Inductive ErrorCode := UNAUTHORIZED | NOT_FOUND.

(** What an action can throw: an [ActionError] raised by a handler, the
    framework's rejection of a body that fails the input schema
    ([ActionInputError]), and the database's rejection of an insert that
    repeats a primary key. *)
Inductive Thrown :=
| ActionError (code : ErrorCode) (message : string)
| ActionInputError
| ConstraintError.

Inductive Settled (A : Type) :=
| Fulfilled (a : A)
| Rejected (e : Thrown).
Arguments Fulfilled {A} a.
Arguments Rejected {A} e.

Definition Async (A : Type) : Type := Db -> Db * Settled A.

Definition resolve {A} (a : A) : Async A := fun d => (d, Fulfilled a).

Definition throw {A} (e : Thrown) : Async A := fun d => (d, Rejected e).

(** [await m] followed by [k]: a rejection skips the continuation and keeps
    the database as [m] left it. *)
Definition await {A B} (m : Async A) (k : A -> Async B) : Async B :=
  fun d =>
    match m d with
    | (d', Fulfilled a) => k a d'
    | (d', Rejected e) => (d', Rejected e)
    end.

#[export] Instance Async_ret : MRet Async := @resolve.
#[export] Instance Async_bind : MBind Async := fun A B k m => await m k.

(** ** Statements *)

Definition sent (s : Stmt) (d : Db) : Db :=
  {| sessions := sessions d; exercises := exercises d; journal := journal d ++ [s] |}.

Definition with_sessions (l : list WorkoutSessions.row) (d : Db) : Db :=
  {| sessions := l; exercises := exercises d; journal := journal d |}.

Definition with_exercises (l : list WorkoutExercises.row) (d : Db) : Db :=
  {| sessions := sessions d; exercises := l; journal := journal d |}.

(** [.limit(n).offset(k)], for an offset the engine takes (see
    [safe_integer]) *)
Definition window {R} (limit_offset : option (Z * Z)) (l : list R) : list R :=
  match limit_offset with
  | None => l
  | Some (n, k) => take (Z.to_nat n) (drop (Z.to_nat k) l)
  end.

Definition selected {R} (w : Sql.Where R) (l : list R) : list R :=
  filter (holds w) l.

Definition updated {R P} (set : P -> R -> R) (p : P) (w : Sql.Where R) (l : list R) : list R :=
  (fun r => if decide (holds w r) then set p r else r) <$> l.

Definition deleted {R} (w : Sql.Where R) (l : list R) : list R :=
  filter (fun r => ¬ holds w r) l.

(** Whether a table already has a row with primary key [k]. *)
Definition has_key {R} (key : R -> string) (k : string) (l : list R) : bool :=
  bool_decide (k ∈ key <$> l).

(** The statements below are the driver on rows it can read and values it
    can bind; see [readable] and the predicates next to it for what the real
    driver refuses. *)
Module db.

(** [db.select().from(WorkoutSessions).where(w)], optionally with
    [.limit(n).offset(k)]; the rows as they are stored, which is what the
    driver hands back for a [readable_session]. *)
Definition select_sessions (w : Sql.Where WorkoutSessions.row)
    (limit_offset : option (Z * Z)) : Async (list WorkoutSessions.row) :=
  fun d =>
    (sent (SelectSessions w limit_offset) d,
     Fulfilled (window limit_offset (selected w (sessions d)))).

(** [db.select().from(WorkoutExercises).where(w)]; the rows as they are
    stored, which is what the driver hands back for a
    [readable_exercise]. *)
Definition select_exercises (w : Sql.Where WorkoutExercises.row)
    : Async (list WorkoutExercises.row) :=
  fun d =>
    (sent (SelectExercises w) d, Fulfilled (selected w (exercises d))).

(** [db.insert(WorkoutSessions).values(r)]; [id] is the primary key. *)
Definition insert_session (r : WorkoutSessions.row) : Async unit :=
  fun d =>
    let d := sent (InsertSession r) d in
    if has_key WorkoutSessions.id (WorkoutSessions.id r) (sessions d)
    then (d, Rejected ConstraintError)
    else (with_sessions (sessions d ++ [r]) d, Fulfilled tt).

(** [db.insert(WorkoutExercises).values(r)]; [id] is the primary key. The
    numbers of [r] are finite (see [storable_exercise]) and its [sessionId]
    names a stored session, which the handler has checked. *)
Definition insert_exercise (r : WorkoutExercises.row) : Async unit :=
  fun d =>
    let d := sent (InsertExercise r) d in
    if has_key WorkoutExercises.id (WorkoutExercises.id r) (exercises d)
    then (d, Rejected ConstraintError)
    else (with_exercises (exercises d ++ [r]) d, Fulfilled tt).

(** [db.update(WorkoutSessions).set(p).where(w)] *)
Definition update_sessions (p : WorkoutSessions.Partial.t)
    (w : Sql.Where WorkoutSessions.row) : Async unit :=
  fun d =>
    let d := sent (UpdateSessions p w) d in
    (with_sessions (updated WorkoutSessions.set p w (sessions d)) d, Fulfilled tt).

(** [db.update(WorkoutExercises).set(p).where(w)]; the numbers of [p] are
    finite (see [storable_exercise]). *)
Definition update_exercises (p : WorkoutExercises.Partial.t)
    (w : Sql.Where WorkoutExercises.row) : Async unit :=
  fun d =>
    let d := sent (UpdateExercises p w) d in
    (with_exercises (updated WorkoutExercises.set p w (exercises d)) d, Fulfilled tt).

(** [db.delete(WorkoutSessions).where(w)]; no exercise that stays references
    a deleted session (see [unreferenced_by_others]). *)
Definition delete_sessions (w : Sql.Where WorkoutSessions.row) : Async unit :=
  fun d =>
    let d := sent (DeleteSessions w) d in
    (with_sessions (deleted w (sessions d)) d, Fulfilled tt).

(** [db.delete(WorkoutExercises).where(w)] *)
Definition delete_exercises (w : Sql.Where WorkoutExercises.row) : Async unit :=
  fun d =>
    let d := sent (DeleteExercises w) d in
    (with_exercises (deleted w (exercises d)) d, Fulfilled tt).

End db.

(** ** The caller *)

Record User := { user_id : string }.

Record Locals := { user : option User }.

Record ActionAPIContext := { locals : option Locals }.

Definition requireUser (context : ActionAPIContext) : Async User :=
  match locals context ≫= user with
  | None => throw (ActionError UNAUTHORIZED "You must be signed in to perform this action.")
  | Some user => resolve user
  end.

Definition getSessionForUser (sessionId userId : string) : Async WorkoutSessions.row :=
  rows ← db.select_sessions
    (Sql.and (Sql.eq WorkoutSessions.id sessionId) (Sql.eq WorkoutSessions.userId userId))
    None;
  match head rows with
  | None => throw (ActionError NOT_FOUND "Workout session not found.")
  | Some session => resolve session
  end.

(** ** Input schemas ([astro:schema], i.e. zod) *)

(** Comparison with zero, for [.positive()] and [.nonnegative()]. *)
Class Signed (A : Type) := { gt0 : A -> bool; ge0 : A -> bool }.

#[export] Instance Signed_Z : Signed Z :=
  {| gt0 := fun n => 0 <? n; ge0 := fun n => 0 <=? n |}.

#[export] Instance Signed_JsNum : Signed JsNum := {|
  gt0 := fun n =>
    match n with Finite q => 0 <? Qnum q | Infinity => true | _ => false end;
  ge0 := fun n =>
    match n with Finite q => 0 <=? Qnum q | Infinity => true | _ => false end;
|}.

Module z.

(** A schema parses a value or reports an issue ([None]). *)
Definition Schema (A : Type) : Type := JsValue -> option A.

(** A check added to a schema: the parsed value must pass [ok]. *)
Definition check {A} (ok : A -> bool) (s : Schema A) : Schema A :=
  fun v => a ← s v; if ok a then Some a else None.

Definition string : Schema String.string :=
  fun v => match v with VStr s => Some s | _ => None end.

(** [.min(n)] on a string. Only [.min(1)] occurs: the string is not empty,
    whatever unit its length is counted in. *)
Definition min (n : nat) : Schema String.string -> Schema String.string :=
  check (fun s => (n <=? String.length s)%nat).

(** [z.number()] rejects [NaN] and accepts the infinities. *)
Definition number : Schema JsNum :=
  fun v => match v with VNum NaN => None | VNum n => Some n | _ => None end.

(** [.int()]: [Number.isInteger]; an accepted number is carried as a [Z]. *)
Definition int (s : Schema JsNum) : Schema Z :=
  fun v =>
    n ← s v;
    match n with
    | Finite q =>
        if Qnum q mod Z.pos (Qden q) =? 0 then Some (Qnum q / Z.pos (Qden q)) else None
    | _ => None
    end.

Definition positive {A} `{Signed A} : Schema A -> Schema A := check gt0.

Definition nonnegative {A} `{Signed A} : Schema A -> Schema A := check ge0.

(** [.max(n)] on a number *)
Definition max (n : Z) : Schema Z -> Schema Z := check (fun k => k <=? n).

Definition optional {A} (s : Schema A) : Schema (option A) :=
  fun v => match v with VUndefined => Some None | _ => Some <$> s v end.

(** [.default(d)]: [undefined] is replaced by [d] before the inner parse. *)
Definition default {A} (d : JsValue) (s : Schema A) : Schema A :=
  fun v => match v with VUndefined => s d | _ => s v end.

(** [z.coerce.date()]: [new Date(v)], rejected when invalid. *)
Definition coerce_date (rt : Runtime) : Schema Date := newDate rt.

(** [z.object({...})]: the body must be an object; [shape] reads the
    declared keys and every other key is dropped. *)
Definition object {I} (shape : gmap String.string JsValue -> option I) (raw : RawInput)
    : option I :=
  match raw with
  | RObject o => shape o
  | RNotObject _ => None
  end.

End z.

(** ** Parsed inputs *)

Module CreateInput.
Record t := {
  title : option string;
  workoutDate : option Date;
  startTime : option Date;
  endTime : option Date;
  workoutType : option string;
  notes : option string;
  totalDurationMinutes : option Z;
  totalCalories : option Z;
}.
End CreateInput.

Module UpdateInput.
Record t := {
  id : string;
  title : option string;
  workoutDate : option Date;
  startTime : option Date;
  endTime : option Date;
  workoutType : option string;
  notes : option string;
  totalDurationMinutes : option Z;
  totalCalories : option Z;
}.
End UpdateInput.

Module IdInput.
Record t := { id : string }.
End IdInput.

Module ListInput.
Record t := { page : Z; pageSize : Z }.
End ListInput.

Module ExerciseInput.
Record t := {
  id : option string;
  sessionId : string;
  name : string;
  category : option string;
  sets : option Z;
  repsPerSet : option Z;
  weightPerRep : option JsNum;
  distanceKm : option JsNum;
  durationMinutes : option JsNum;
  caloriesBurned : option JsNum;
  notes : option string;
}.
End ExerciseInput.

(** ** Results *)

(** [{ success, data }]. A [data] object with one property ([{ session }],
    [{ exercise }], [{ id }]) is carried as the value of that property; a
    property read from a destructured query result may be [undefined]. *)
Record Envelope (A : Type) := { success : bool; data : A }.
Arguments success {A} e.
Arguments data {A} e.

Module Page.
Record t := {
  items : list WorkoutSessions.row;
  total : Z;
  page : Z;
  pageSize : Z;
}.
End Page.

Module SessionWithExercises.
Record t := {
  session : WorkoutSessions.row;
  exercises : list WorkoutExercises.row;
}.
End SessionWithExercises.

(** ** Actions *)

(** [defineAction({ input, handler })]: the framework parses the body with
    [input] and calls [handler] on the parsed value; a body that fails the
    schema is rejected without the handler being called. *)
Definition defineAction {I O}
    (input : Runtime -> RawInput -> option I)
    (handler : I -> ActionAPIContext -> Runtime -> Async O)
    : RawInput -> ActionAPIContext -> Runtime -> Async O :=
  fun raw context rt =>
    match input rt raw with
    | None => throw ActionInputError
    | Some i => handler i context rt
    end.

(** JavaScript truthiness of an optional string: [undefined] and the empty
    string are falsy. *)
Definition truthy (s : option string) : option string :=
  match s with
  | Some "" => None
  | other => other
  end.

Module server.

(** *** createWorkoutSession *)

Definition createWorkoutSession_input (rt : Runtime) : RawInput -> option CreateInput.t :=
  z.object (fun o =>
    title ← z.optional (z.min 1 z.string) (prop o "title");
    workoutDate ← z.optional (z.coerce_date rt) (prop o "workoutDate");
    startTime ← z.optional (z.coerce_date rt) (prop o "startTime");
    endTime ← z.optional (z.coerce_date rt) (prop o "endTime");
    workoutType ← z.optional (z.min 1 z.string) (prop o "workoutType");
    notes ← z.optional z.string (prop o "notes");
    totalDurationMinutes ←
      z.optional (z.positive (z.int z.number)) (prop o "totalDurationMinutes");
    totalCalories ← z.optional (z.nonnegative (z.int z.number)) (prop o "totalCalories");
    Some {|
      CreateInput.title := title;
      CreateInput.workoutDate := workoutDate;
      CreateInput.startTime := startTime;
      CreateInput.endTime := endTime;
      CreateInput.workoutType := workoutType;
      CreateInput.notes := notes;
      CreateInput.totalDurationMinutes := totalDurationMinutes;
      CreateInput.totalCalories := totalCalories;
    |}).

Definition createWorkoutSession_handler (input : CreateInput.t)
    (context : ActionAPIContext) (rt : Runtime) : Async (Envelope WorkoutSessions.row) :=
  user ← requireUser context;
  let now := now rt in
  let session := {|
    WorkoutSessions.id := randomUUID rt;
    WorkoutSessions.userId := user_id user;
    WorkoutSessions.title := CreateInput.title input;
    WorkoutSessions.workoutDate := default now (CreateInput.workoutDate input);
    WorkoutSessions.startTime := CreateInput.startTime input;
    WorkoutSessions.endTime := CreateInput.endTime input;
    WorkoutSessions.workoutType := CreateInput.workoutType input;
    WorkoutSessions.notes := CreateInput.notes input;
    WorkoutSessions.totalDurationMinutes := CreateInput.totalDurationMinutes input;
    WorkoutSessions.totalCalories := CreateInput.totalCalories input;
    WorkoutSessions.createdAt := now;
    WorkoutSessions.updatedAt := now;
  |} in
  _ ← db.insert_session session;
  mret {| success := true; data := session |}.

Definition createWorkoutSession :=
  defineAction createWorkoutSession_input createWorkoutSession_handler.

(** *** updateWorkoutSession *)

Definition updateWorkoutSession_input (rt : Runtime) : RawInput -> option UpdateInput.t :=
  z.object (fun o =>
    id ← z.string (prop o "id");
    title ← z.optional (z.min 1 z.string) (prop o "title");
    workoutDate ← z.optional (z.coerce_date rt) (prop o "workoutDate");
    startTime ← z.optional (z.coerce_date rt) (prop o "startTime");
    endTime ← z.optional (z.coerce_date rt) (prop o "endTime");
    workoutType ← z.optional (z.min 1 z.string) (prop o "workoutType");
    notes ← z.optional z.string (prop o "notes");
    totalDurationMinutes ←
      z.optional (z.positive (z.int z.number)) (prop o "totalDurationMinutes");
    totalCalories ← z.optional (z.nonnegative (z.int z.number)) (prop o "totalCalories");
    Some {|
      UpdateInput.id := id;
      UpdateInput.title := title;
      UpdateInput.workoutDate := workoutDate;
      UpdateInput.startTime := startTime;
      UpdateInput.endTime := endTime;
      UpdateInput.workoutType := workoutType;
      UpdateInput.notes := notes;
      UpdateInput.totalDurationMinutes := totalDurationMinutes;
      UpdateInput.totalCalories := totalCalories;
    |}).

(** The [updateData] object once every [if (input.f !== undefined)] has run:
    [updatedAt] is always present, a column is present exactly when the
    input has it, and [id], [userId] and [createdAt] are never assigned. *)
Definition updateWorkoutSession_updateData (input : UpdateInput.t) (rt : Runtime)
    : WorkoutSessions.Partial.t := {|
  WorkoutSessions.Partial.id := None;
  WorkoutSessions.Partial.userId := None;
  WorkoutSessions.Partial.title := Some <$> UpdateInput.title input;
  WorkoutSessions.Partial.workoutDate := UpdateInput.workoutDate input;
  WorkoutSessions.Partial.startTime := Some <$> UpdateInput.startTime input;
  WorkoutSessions.Partial.endTime := Some <$> UpdateInput.endTime input;
  WorkoutSessions.Partial.workoutType := Some <$> UpdateInput.workoutType input;
  WorkoutSessions.Partial.notes := Some <$> UpdateInput.notes input;
  WorkoutSessions.Partial.totalDurationMinutes :=
    Some <$> UpdateInput.totalDurationMinutes input;
  WorkoutSessions.Partial.totalCalories := Some <$> UpdateInput.totalCalories input;
  WorkoutSessions.Partial.createdAt := None;
  WorkoutSessions.Partial.updatedAt := Some (now rt);
|}.

Definition updateWorkoutSession_handler (input : UpdateInput.t)
    (context : ActionAPIContext) (rt : Runtime)
    : Async (Envelope (option WorkoutSessions.row)) :=
  user ← requireUser context;
  _ ← getSessionForUser (UpdateInput.id input) (user_id user);
  let updateData := updateWorkoutSession_updateData input rt in
  _ ← db.update_sessions updateData
        (Sql.and (Sql.eq WorkoutSessions.id (UpdateInput.id input))
                 (Sql.eq WorkoutSessions.userId (user_id user)));
  rows ← db.select_sessions
        (Sql.and (Sql.eq WorkoutSessions.id (UpdateInput.id input))
                 (Sql.eq WorkoutSessions.userId (user_id user)))
        None;
  mret {| success := true; data := head rows |}.

Definition updateWorkoutSession :=
  defineAction updateWorkoutSession_input updateWorkoutSession_handler.

(** *** deleteWorkoutSession *)

Definition id_input (_ : Runtime) : RawInput -> option IdInput.t :=
  z.object (fun o =>
    id ← z.string (prop o "id");
    Some {| IdInput.id := id |}).

Definition deleteWorkoutSession_handler (input : IdInput.t)
    (context : ActionAPIContext) (rt : Runtime) : Async (Envelope string) :=
  user ← requireUser context;
  _ ← getSessionForUser (IdInput.id input) (user_id user);
  _ ← db.delete_exercises
        (Sql.and (Sql.eq WorkoutExercises.sessionId (IdInput.id input))
                 (Sql.eq WorkoutExercises.userId (user_id user)));
  _ ← db.delete_sessions
        (Sql.and (Sql.eq WorkoutSessions.id (IdInput.id input))
                 (Sql.eq WorkoutSessions.userId (user_id user)));
  mret {| success := true; data := IdInput.id input |}.

Definition deleteWorkoutSession := defineAction id_input deleteWorkoutSession_handler.

(** *** listMyWorkoutSessions *)

Definition listMyWorkoutSessions_input (_ : Runtime) : RawInput -> option ListInput.t :=
  z.object (fun o =>
    page ←
      z.default (VNum (Finite (inject_Z 1))) (z.positive (z.int z.number)) (prop o "page");
    pageSize ←
      z.default (VNum (Finite (inject_Z 20)))
        (z.max 100 (z.positive (z.int z.number))) (prop o "pageSize");
    Some {| ListInput.page := page; ListInput.pageSize := pageSize |}).

Definition listMyWorkoutSessions_handler (input : ListInput.t)
    (context : ActionAPIContext) (rt : Runtime) : Async (Envelope Page.t) :=
  user ← requireUser context;
  let offset := (ListInput.page input - 1) * ListInput.pageSize input in
  sessions ← db.select_sessions
    (Sql.eq WorkoutSessions.userId (user_id user))
    (Some (ListInput.pageSize input, offset));
  mret {|
  success := true;
    data := {|
      Page.items := sessions;
      Page.total := Z.of_nat (length sessions);
      Page.page := ListInput.page input;
      Page.pageSize := ListInput.pageSize input;
    |};
|}.

Definition listMyWorkoutSessions :=
  defineAction listMyWorkoutSessions_input listMyWorkoutSessions_handler.

(** *** getWorkoutSessionWithExercises *)

Definition getWorkoutSessionWithExercises_handler (input : IdInput.t)
    (context : ActionAPIContext) (rt : Runtime) : Async (Envelope SessionWithExercises.t) :=
  user ← requireUser context;
  session ← getSessionForUser (IdInput.id input) (user_id user);
  exercises ← db.select_exercises
    (Sql.and (Sql.eq WorkoutExercises.sessionId (IdInput.id input))
             (Sql.eq WorkoutExercises.userId (user_id user)));
  mret {|
  success := true;
    data := {|
      SessionWithExercises.session := session;
      SessionWithExercises.exercises := exercises;
    |};
|}.

Definition getWorkoutSessionWithExercises :=
  defineAction id_input getWorkoutSessionWithExercises_handler.

(** *** upsertWorkoutExercise *)

Definition upsertWorkoutExercise_input (_ : Runtime) : RawInput -> option ExerciseInput.t :=
  z.object (fun o =>
    id ← z.optional z.string (prop o "id");
    sessionId ← z.string (prop o "sessionId");
    name ← z.min 1 z.string (prop o "name");
    category ← z.optional z.string (prop o "category");
    sets ← z.optional (z.positive (z.int z.number)) (prop o "sets");
    repsPerSet ← z.optional (z.positive (z.int z.number)) (prop o "repsPerSet");
    weightPerRep ← z.optional (z.positive z.number) (prop o "weightPerRep");
    distanceKm ← z.optional (z.positive z.number) (prop o "distanceKm");
    durationMinutes ← z.optional (z.positive z.number) (prop o "durationMinutes");
    caloriesBurned ← z.optional (z.nonnegative z.number) (prop o "caloriesBurned");
    notes ← z.optional z.string (prop o "notes");
    Some {|
      ExerciseInput.id := id;
      ExerciseInput.sessionId := sessionId;
      ExerciseInput.name := name;
      ExerciseInput.category := category;
      ExerciseInput.sets := sets;
      ExerciseInput.repsPerSet := repsPerSet;
      ExerciseInput.weightPerRep := weightPerRep;
      ExerciseInput.distanceKm := distanceKm;
      ExerciseInput.durationMinutes := durationMinutes;
      ExerciseInput.caloriesBurned := caloriesBurned;
      ExerciseInput.notes := notes;
    |}).

(** The [updateData] object of the update branch: [sessionId] and [name]
    are always present, an optional column exactly when the input has it,
    and [id], [userId] and [createdAt] are never assigned. *)
Definition upsertWorkoutExercise_updateData (input : ExerciseInput.t)
    : WorkoutExercises.Partial.t := {|
  WorkoutExercises.Partial.id := None;
  WorkoutExercises.Partial.sessionId := Some (ExerciseInput.sessionId input);
  WorkoutExercises.Partial.userId := None;
  WorkoutExercises.Partial.name := Some (ExerciseInput.name input);
  WorkoutExercises.Partial.category := Some <$> ExerciseInput.category input;
  WorkoutExercises.Partial.sets := Some <$> ExerciseInput.sets input;
  WorkoutExercises.Partial.repsPerSet := Some <$> ExerciseInput.repsPerSet input;
  WorkoutExercises.Partial.weightPerRep := Some <$> ExerciseInput.weightPerRep input;
  WorkoutExercises.Partial.distanceKm := Some <$> ExerciseInput.distanceKm input;
  WorkoutExercises.Partial.durationMinutes := Some <$> ExerciseInput.durationMinutes input;
  WorkoutExercises.Partial.caloriesBurned := Some <$> ExerciseInput.caloriesBurned input;
  WorkoutExercises.Partial.notes := Some <$> ExerciseInput.notes input;
  WorkoutExercises.Partial.createdAt := None;
|}.

Definition upsertWorkoutExercise_handler (input : ExerciseInput.t)
    (context : ActionAPIContext) (rt : Runtime)
    : Async (Envelope (option WorkoutExercises.row)) :=
  user ← requireUser context;
  _ ← getSessionForUser (ExerciseInput.sessionId input) (user_id user);
  match truthy (ExerciseInput.id input) with
  | Some id =>
      found ← db.select_exercises
        (Sql.and (Sql.eq WorkoutExercises.id id)
                 (Sql.eq WorkoutExercises.userId (user_id user)));
      match head found with
      | None => throw (ActionError NOT_FOUND "Workout exercise not found.")
      | Some existing =>
          let updateData := upsertWorkoutExercise_updateData input in
          _ ← db.update_exercises updateData
                (Sql.and (Sql.eq WorkoutExercises.id id)
                         (Sql.eq WorkoutExercises.userId (user_id user)));
          rows ← db.select_exercises
                (Sql.and (Sql.eq WorkoutExercises.id id)
                         (Sql.eq WorkoutExercises.userId (user_id user)));
          mret {| success := true; data := head rows |}
      end
  | None =>
      let exercise := {|
        WorkoutExercises.id := randomUUID rt;
        WorkoutExercises.sessionId := ExerciseInput.sessionId input;
        WorkoutExercises.userId := user_id user;
        WorkoutExercises.name := ExerciseInput.name input;
        WorkoutExercises.category := ExerciseInput.category input;
        WorkoutExercises.sets := ExerciseInput.sets input;
        WorkoutExercises.repsPerSet := ExerciseInput.repsPerSet input;
        WorkoutExercises.weightPerRep := ExerciseInput.weightPerRep input;
        WorkoutExercises.distanceKm := ExerciseInput.distanceKm input;
        WorkoutExercises.durationMinutes := ExerciseInput.durationMinutes input;
        WorkoutExercises.caloriesBurned := ExerciseInput.caloriesBurned input;
        WorkoutExercises.notes := ExerciseInput.notes input;
        WorkoutExercises.createdAt := now rt;
      |} in
      _ ← db.insert_exercise exercise;
      mret {| success := true; data := Some exercise |}
  end.

Definition upsertWorkoutExercise :=
  defineAction upsertWorkoutExercise_input upsertWorkoutExercise_handler.

(** *** deleteWorkoutExercise *)

Definition deleteWorkoutExercise_handler (input : IdInput.t)
    (context : ActionAPIContext) (rt : Runtime) : Async (Envelope string) :=
  user ← requireUser context;
  found ← db.select_exercises
    (Sql.and (Sql.eq WorkoutExercises.id (IdInput.id input))
             (Sql.eq WorkoutExercises.userId (user_id user)));
  match head found with
  | None => throw (ActionError NOT_FOUND "Workout exercise not found.")
  | Some exercise =>
      _ ← db.delete_exercises
            (Sql.and (Sql.eq WorkoutExercises.id (IdInput.id input))
                     (Sql.eq WorkoutExercises.userId (user_id user)));
      mret {| success := true; data := IdInput.id input |}
  end.

Definition deleteWorkoutExercise := defineAction id_input deleteWorkoutExercise_handler.

End server.

(** * Specification vocabulary *)

(** The caller as the action sees it once the identity provider has resolved
    it. *)
Definition signed_in (u : User) : ActionAPIContext :=
  {| locals := Some {| user := Some u |} |}.

(** The caller [u] has a session with identifier [i]. *)
Definition owns_session (d : Db) (u i : string) : Prop :=
  ∃ s, s ∈ sessions d ∧ WorkoutSessions.id s = i ∧ WorkoutSessions.userId s = u.

(** The caller [u] has an exercise with identifier [i]. *)
Definition owns_exercise (d : Db) (u i : string) : Prop :=
  ∃ e, e ∈ exercises d ∧ WorkoutExercises.id e = i ∧ WorkoutExercises.userId e = u.

(** What [primaryKey: true] on the two [id] columns makes the engine
    maintain. *)
Definition primary_keys (d : Db) : Prop :=
  NoDup (WorkoutSessions.id <$> sessions d) ∧
  NoDup (WorkoutExercises.id <$> exercises d).

(** Every exercise is under a session of its own owner: the invariant the
    foreign key and the ownership checks are there for. *)
Definition referential (d : Db) : Prop :=
  ∀ e, e ∈ exercises d →
    owns_session d (WorkoutExercises.userId e) (WorkoutExercises.sessionId e).

Definition consistent (d : Db) : Prop := primary_keys d ∧ referential d.

(** How an action left the tables when it was rejected: as it found them. *)
Definition untouched_if_rejected {A} (d : Db) (r : Db * Settled A) : Prop :=
  ∀ e, r.2 = Rejected e → sessions r.1 = sessions d ∧ exercises r.1 = exercises d.

(** What the database holds for everybody but [u]: their sessions and their
    exercises, in storage order. *)
Definition of_others (d : Db) (u : string)
    : list WorkoutSessions.row * list WorkoutExercises.row :=
  (filter (fun s => WorkoutSessions.userId s ≠ u) (sessions d),
   filter (fun e => WorkoutExercises.userId e ≠ u) (exercises d)).

(** The columns nothing should rewrite once a row exists. *)
Definition session_identity (s : WorkoutSessions.row) : string * string * Date :=
  (WorkoutSessions.id s, WorkoutSessions.userId s, WorkoutSessions.createdAt s).

Definition exercise_identity (e : WorkoutExercises.row) : string * string * Date :=
  (WorkoutExercises.id e, WorkoutExercises.userId e, WorkoutExercises.createdAt e).

(** The constraints the schemas put on the values of a row. *)
Definition is_positive (n : JsNum) : Prop :=
  match n with
  | Finite q => (0 < q)%Q
  | Infinity => True
  | _ => False
  end.

Definition is_nonnegative (n : JsNum) : Prop :=
  match n with
  | Finite q => (0 <= q)%Q
  | Infinity => True
  | _ => False
  end.

Definition valid_session (s : WorkoutSessions.row) : Prop :=
  WorkoutSessions.title s ≠ Some "" ∧
  WorkoutSessions.workoutType s ≠ Some "" ∧
  (∀ n, WorkoutSessions.totalDurationMinutes s = Some n → 0 < n) ∧
  (∀ n, WorkoutSessions.totalCalories s = Some n → 0 ≤ n).

Definition valid_exercise (e : WorkoutExercises.row) : Prop :=
  WorkoutExercises.name e ≠ "" ∧
  (∀ n, WorkoutExercises.sets e = Some n → 0 < n) ∧
  (∀ n, WorkoutExercises.repsPerSet e = Some n → 0 < n) ∧
  (∀ x, WorkoutExercises.weightPerRep e = Some x → is_positive x) ∧
  (∀ x, WorkoutExercises.distanceKm e = Some x → is_positive x) ∧
  (∀ x, WorkoutExercises.durationMinutes e = Some x → is_positive x) ∧
  (∀ x, WorkoutExercises.caloriesBurned e = Some x → is_nonnegative x).

Definition validated (d : Db) : Prop :=
  Forall valid_session (sessions d) ∧ Forall valid_exercise (exercises d).

(** ** What the database driver carries

    The query layer above is the driver where the driver succeeds. The real
    one refuses more: it throws [RangeError] when asked to bind a number that
    is not finite and when a row it reads holds an integer beyond
    [Number.MAX_SAFE_INTEGER]; it hands text back cut at the first U+0000;
    the engine refuses an [OFFSET] that is not a 64-bit integer and, the
    foreign key of [sessionId] being enforced, the deletion of a session
    that an exercise still references. The predicates below delimit the
    values, rows and states on which none of this happens; a theorem that
    says a statement succeeded, or that a row was read back, assumes
    them. *)

(** [Number.MAX_SAFE_INTEGER] *)
Definition MAX_SAFE_INTEGER : Z := 2 ^ 53 - 1.

Definition safe_integer (n : Z) : Prop :=
  - MAX_SAFE_INTEGER ≤ n ≤ MAX_SAFE_INTEGER.

(** A finite number within the safe range, integral or not. *)
Definition safe_number (x : JsNum) : Prop :=
  match x with
  | Finite q =>
      (inject_Z (- MAX_SAFE_INTEGER) <= q)%Q ∧ (q <= inject_Z MAX_SAFE_INTEGER)%Q
  | _ => False
  end.

(** Text without U+0000. *)
Definition plain_text (s : string) : Prop :=
  Ascii.zero ∉ String.list_ascii_of_string s.

(** A constraint on a nullable column or an optional field. *)
Definition when_present {A} (P : A → Prop) (o : option A) : Prop :=
  match o with
  | Some a => P a
  | None => True
  end.

(** A session row the driver reads back as it is stored. *)
Definition readable_session (s : WorkoutSessions.row) : Prop :=
  plain_text (WorkoutSessions.id s) ∧
  plain_text (WorkoutSessions.userId s) ∧
  when_present plain_text (WorkoutSessions.title s) ∧
  when_present plain_text (WorkoutSessions.workoutType s) ∧
  when_present plain_text (WorkoutSessions.notes s) ∧
  when_present safe_integer (WorkoutSessions.totalDurationMinutes s) ∧
  when_present safe_integer (WorkoutSessions.totalCalories s).

(** An exercise row the driver reads back as it is stored. *)
Definition readable_exercise (e : WorkoutExercises.row) : Prop :=
  plain_text (WorkoutExercises.id e) ∧
  plain_text (WorkoutExercises.sessionId e) ∧
  plain_text (WorkoutExercises.userId e) ∧
  plain_text (WorkoutExercises.name e) ∧
  when_present plain_text (WorkoutExercises.category e) ∧
  when_present safe_integer (WorkoutExercises.sets e) ∧
  when_present safe_integer (WorkoutExercises.repsPerSet e) ∧
  when_present safe_number (WorkoutExercises.weightPerRep e) ∧
  when_present safe_number (WorkoutExercises.distanceKm e) ∧
  when_present safe_number (WorkoutExercises.durationMinutes e) ∧
  when_present safe_number (WorkoutExercises.caloriesBurned e) ∧
  when_present plain_text (WorkoutExercises.notes e).

(** Every stored row can be read. The actions do not maintain this: the
    schemas accept integers beyond the safe range, infinite numbers and text
    with U+0000. *)
Definition readable (d : Db) : Prop :=
  Forall readable_session (sessions d) ∧ Forall readable_exercise (exercises d).

(** Fields the driver binds and later reads back as they were supplied. *)
Definition storable_create (input : CreateInput.t) : Prop :=
  when_present plain_text (CreateInput.title input) ∧
  when_present plain_text (CreateInput.workoutType input) ∧
  when_present plain_text (CreateInput.notes input) ∧
  when_present safe_integer (CreateInput.totalDurationMinutes input) ∧
  when_present safe_integer (CreateInput.totalCalories input).

Definition storable_update (input : UpdateInput.t) : Prop :=
  when_present plain_text (UpdateInput.title input) ∧
  when_present plain_text (UpdateInput.workoutType input) ∧
  when_present plain_text (UpdateInput.notes input) ∧
  when_present safe_integer (UpdateInput.totalDurationMinutes input) ∧
  when_present safe_integer (UpdateInput.totalCalories input).

Definition storable_exercise (input : ExerciseInput.t) : Prop :=
  plain_text (ExerciseInput.name input) ∧
  when_present plain_text (ExerciseInput.category input) ∧
  when_present safe_integer (ExerciseInput.sets input) ∧
  when_present safe_integer (ExerciseInput.repsPerSet input) ∧
  when_present safe_number (ExerciseInput.weightPerRep input) ∧
  when_present safe_number (ExerciseInput.distanceKm input) ∧
  when_present safe_number (ExerciseInput.durationMinutes input) ∧
  when_present safe_number (ExerciseInput.caloriesBurned input) ∧
  when_present plain_text (ExerciseInput.notes input).

(** No exercise of another user is under the session [i] of [u]: once the
    caller's exercises under it are deleted the foreign key lets the session
    go. A consistent database is so. *)
Definition unreferenced_by_others (d : Db) (u i : string) : Prop :=
  ∀ e, e ∈ exercises d → WorkoutExercises.sessionId e = i → WorkoutExercises.userId e = u.

#[export] Instance safe_integer_dec n : Decision (safe_integer n).
Proof. unfold safe_integer. apply _. Defined.

#[export] Instance safe_number_dec x : Decision (safe_number x).
Proof. destruct x; simpl; unfold Qle; apply _. Defined.

#[export] Instance plain_text_dec s : Decision (plain_text s).
Proof. unfold plain_text. apply _. Defined.

#[export] Instance when_present_dec {A} (P : A → Prop) `{∀ a, Decision (P a)} o :
  Decision (when_present P o).
Proof. destruct o; simpl; apply _. Defined.

#[export] Instance readable_session_dec s : Decision (readable_session s).
Proof. unfold readable_session. apply _. Defined.

#[export] Instance readable_exercise_dec e : Decision (readable_exercise e).
Proof. unfold readable_exercise. apply _. Defined.

#[export] Instance readable_dec d : Decision (readable d).
Proof. unfold readable. apply _. Defined.

#[export] Instance storable_create_dec input : Decision (storable_create input).
Proof. unfold storable_create. apply _. Defined.

#[export] Instance storable_update_dec input : Decision (storable_update input).
Proof. unfold storable_update. apply _. Defined.

#[export] Instance storable_exercise_dec input : Decision (storable_exercise input).
Proof. unfold storable_exercise. apply _. Defined.

#[export] Instance unreferenced_by_others_dec d u i : Decision (unreferenced_by_others d u i).
Proof.
  refine (cast_if (decide (Forall
    (fun e => WorkoutExercises.sessionId e = i → WorkoutExercises.userId e = u)
    (exercises d))));
    unfold unreferenced_by_others; by rewrite Forall_forall in *.
Defined.

(** The sessions of a caller, in storage order. *)
Definition sessions_of (d : Db) (u : string) : list WorkoutSessions.row :=
  filter (fun s => WorkoutSessions.userId s = u) (sessions d).

(** A nullable column after a partial update: the supplied value if there
    is one, the stored value otherwise. *)
Definition or_keep {A} (supplied stored : option A) : option A :=
  match supplied with
  | Some v => Some v
  | None => stored
  end.

(** An update request that names a session and supplies no field. *)
Definition no_fields (i : string) : UpdateInput.t := {|
  UpdateInput.id := i;
  UpdateInput.title := None;
  UpdateInput.workoutDate := None;
  UpdateInput.startTime := None;
  UpdateInput.endTime := None;
  UpdateInput.workoutType := None;
  UpdateInput.notes := None;
  UpdateInput.totalDurationMinutes := None;
  UpdateInput.totalCalories := None;
|}.

#[export] Instance owns_session_dec d u i : Decision (owns_session d u i).
Proof.
  refine (cast_if (decide (Exists
    (fun s => WorkoutSessions.id s = i ∧ WorkoutSessions.userId s = u) (sessions d))));
    unfold owns_session; by rewrite <- Exists_exists.
Defined.

#[export] Instance owns_exercise_dec d u i : Decision (owns_exercise d u i).
Proof.
  refine (cast_if (decide (Exists
    (fun e => WorkoutExercises.id e = i ∧ WorkoutExercises.userId e = u) (exercises d))));
    unfold owns_exercise; by rewrite <- Exists_exists.
Defined.

(** ** A small database to run the actions on *)

Module Sample.

Definition alice : User := {| user_id := "alice" |}.
Definition bob : User := {| user_id := "bob" |}.

(** A runtime whose [Date] constructor understands integral time values. *)
Definition rt : Runtime := {|
  now := 1700000000000;
  randomUUID := "9b2d7c1e-0000-4000-8000-000000000001";
  newDate := fun v =>
    match v with
    | VNum (Finite q) =>
        if Qnum q mod Z.pos (Qden q) =? 0 then Some (Qnum q / Z.pos (Qden q)) else None
    | _ => None
    end;
|}.

Definition session (i u : string) (t : string) (at_ : Date) : WorkoutSessions.row := {|
  WorkoutSessions.id := i;
  WorkoutSessions.userId := u;
  WorkoutSessions.title := Some t;
  WorkoutSessions.workoutDate := at_;
  WorkoutSessions.startTime := None;
  WorkoutSessions.endTime := None;
  WorkoutSessions.workoutType := Some "strength";
  WorkoutSessions.notes := None;
  WorkoutSessions.totalDurationMinutes := Some 45;
  WorkoutSessions.totalCalories := None;
  WorkoutSessions.createdAt := at_;
  WorkoutSessions.updatedAt := at_;
|}.

Definition exercise (i s u : string) (n : string) : WorkoutExercises.row := {|
  WorkoutExercises.id := i;
  WorkoutExercises.sessionId := s;
  WorkoutExercises.userId := u;
  WorkoutExercises.name := n;
  WorkoutExercises.category := None;
  WorkoutExercises.sets := Some 3;
  WorkoutExercises.repsPerSet := Some 8;
  WorkoutExercises.weightPerRep := Some (Finite (inject_Z 60));
  WorkoutExercises.distanceKm := None;
  WorkoutExercises.durationMinutes := None;
  WorkoutExercises.caloriesBurned := None;
  WorkoutExercises.notes := None;
  WorkoutExercises.createdAt := 1600000000000;
|}.

(** Alice has three sessions and Bob one; Alice has exercises under two of
    hers, Bob under his. *)
Definition gym : Db := {|
  sessions := [
    session "s1" "alice" "Push Day" 1600000000000;
    session "s2" "bob" "Morning Run" 1600000100000;
    session "s3" "alice" "Pull Day" 1600000200000;
    session "s4" "alice" "Leg Day" 1600000300000
  ];
  exercises := [
    exercise "e1" "s1" "alice" "Bench Press";
    exercise "e2" "s2" "bob" "Running";
    exercise "e3" "s3" "alice" "Barbell Row";
    exercise "e4" "s1" "alice" "Overhead Press"
  ];
  journal := [];
|}.

Definition body (fields : list (string * JsValue)) : RawInput :=
  RObject (list_to_map fields).

(** The same runtime at a later time, about to generate [uuid]. *)
Definition rt_at (t : Date) (uuid : string) : Runtime :=
  {| now := t; randomUUID := uuid; newDate := newDate rt |}.

Definition empty : Db := {| sessions := []; exercises := []; journal := [] |}.

(** The walk-through of the specification: create a session, add an
    exercise to it, delete the session, ask for it again. Each step runs on
    the database the previous one left. *)
Definition walk_through :=
  let '(d1, created) :=
    server.createWorkoutSession (body [("title", VStr "Push Day")])
      (signed_in alice) (rt_at 100 "id-1") empty in
  let '(d2, added) :=
    server.upsertWorkoutExercise
      (body [("sessionId", VStr "id-1"); ("name", VStr "Bench Press");
             ("sets", VNum (Finite (inject_Z 3)));
             ("repsPerSet", VNum (Finite (inject_Z 8)));
             ("weightPerRep", VNum (Finite (inject_Z 60)))])
      (signed_in alice) (rt_at 200 "id-2") d1 in
  let '(d3, deleted) :=
    server.deleteWorkoutSession (body [("id", VStr "id-1")])
      (signed_in alice) (rt_at 300 "id-3") d2 in
  let '(d4, asked) :=
    server.getWorkoutSessionWithExercises (body [("id", VStr "id-1")])
      (signed_in alice) (rt_at 400 "id-4") d3 in
  (created, added, deleted, asked, exercises d2, exercises d4).

End Sample.

(** * The query layer *)

Lemma selected_nil {R} (w : Sql.Where R) (l : list R) :
  (∀ r, r ∈ l → ¬ holds w r) → selected w l = [].
Proof.
  intros Hno. induction l as [|x l IH]; [done|].
  unfold selected in *. rewrite filter_cons.
  destruct (decide (holds w x)) as [Hx|_].
  - exfalso. apply (Hno x); [left | done].
  - apply IH. intros r Hr. apply Hno. by right.
Qed.

Lemma head_selected_Some {R} (w : Sql.Where R) (l : list R) (r : R) :
  head (selected w l) = Some r → r ∈ l ∧ holds w r.
Proof.
  intros Hh. apply head_Some_elem_of in Hh.
  apply list_elem_of_filter in Hh. tauto.
Qed.

Lemma head_selected_is_Some {R} (w : Sql.Where R) (l : list R) (r : R) :
  r ∈ l → holds w r → is_Some (head (selected w l)).
Proof.
  intros Hin Hr.
  assert (r ∈ selected w l) as Hsel by (apply list_elem_of_filter; done).
  destruct (selected w l); [by apply elem_of_nil in Hsel | by eexists].
Qed.

Lemma deleted_elem_of {R} (w : Sql.Where R) (l : list R) (r : R) :
  r ∈ deleted w l ↔ r ∈ l ∧ ¬ holds w r.
Proof. unfold deleted. rewrite list_elem_of_filter. tauto. Qed.

(** Rows addressed by primary key and owner, as every lookup of the program
    addresses them. *)
Section ByKeyAndOwner.
Context {R P : Type} (key owner : R -> string) (set : P -> R -> R).

(** Under the primary key, the row stored at [k] is the only one with its
    key. *)
Lemma key_unique (l : list R) (k j : nat) (s r : R) :
  NoDup (key <$> l) → l !! k = Some s → l !! j = Some r → key r = key s → j = k.
Proof.
  intros Hnd Hk Hj Heq.
  eapply NoDup_lookup; [exact Hnd| |].
  - rewrite list_lookup_fmap, Hj. simpl. by rewrite Heq.
  - by rewrite list_lookup_fmap, Hk.
Qed.

Lemma selected_unique (l : list R) (k : nat) (s : R) :
  NoDup (key <$> l) → l !! k = Some s →
  selected (Sql.and (Sql.eq key (key s)) (Sql.eq owner (owner s))) l = [s].
Proof.
  revert k. induction l as [|x l IH]; intros k Hnd Hk; [done|].
  rewrite fmap_cons in Hnd. apply NoDup_cons in Hnd as [Hx Hnd].
  unfold selected in *. rewrite filter_cons.
  destruct k as [|k]; simpl in Hk.
  - injection Hk as ->.
    rewrite decide_True by (by split).
    f_equal. apply selected_nil. intros r Hr [Hkey _]. simpl in Hkey.
    apply Hx. rewrite <- Hkey. by apply list_elem_of_fmap_2.
  - rewrite decide_False; [by eapply IH|].
    intros [Hkey _]. simpl in Hkey. apply Hx. rewrite Hkey.
    apply list_elem_of_fmap_2. by eapply list_elem_of_lookup_2.
Qed.

Lemma updated_unique (p : P) (l : list R) (k : nat) (s : R) :
  NoDup (key <$> l) → l !! k = Some s →
  updated set p (Sql.and (Sql.eq key (key s)) (Sql.eq owner (owner s))) l =
    <[k := set p s]> l.
Proof.
  intros Hnd Hk. apply list_eq. intros j.
  unfold updated. rewrite list_lookup_fmap.
  destruct (decide (j = k)) as [->|Hne].
  - rewrite list_lookup_insert_eq by (by eapply lookup_lt_Some).
    rewrite Hk. simpl. by rewrite decide_True by (by split).
  - rewrite list_lookup_insert_ne by done.
    destruct (l !! j) as [r|] eqn:Hj; [simpl|done].
    rewrite decide_False; [done|].
    intros [Hkey _]. simpl in Hkey. apply Hne. by eapply key_unique.
Qed.

End ByKeyAndOwner.

(** The primary-key check of an insert. *)
Lemma has_key_fresh {R} (key : R -> string) k (l : list R) :
  k ∉ key <$> l → has_key key k l = false.
Proof. intros Hk. unfold has_key. by apply bool_decide_eq_false_2. Qed.

Lemma has_key_taken {R} (key : R -> string) k (l : list R) :
  k ∈ key <$> l → has_key key k l = true.
Proof. intros Hk. unfold has_key. by apply bool_decide_eq_true_2. Qed.

(** * Running an action *)

Lemma defineAction_accepted {I O} (input : Runtime -> RawInput -> option I)
    (handler : I -> ActionAPIContext -> Runtime -> Async O) raw context rt i :
  input rt raw = Some i →
  defineAction input handler raw context rt = handler i context rt.
Proof. intros Hin. unfold defineAction. by rewrite Hin. Qed.

Lemma defineAction_rejected {I O} (input : Runtime -> RawInput -> option I)
    (handler : I -> ActionAPIContext -> Runtime -> Async O) raw context rt d :
  input rt raw = None →
  defineAction input handler raw context rt d = (d, Rejected ActionInputError).
Proof. intros Hin. unfold defineAction. by rewrite Hin. Qed.

Lemma await_fulfilled {A B} (m : Async A) (k : A -> Async B) d d' a :
  m d = (d', Fulfilled a) → (m ≫= k) d = k a d'.
Proof. intros Hm. unfold mbind, Async_bind, await. by rewrite Hm. Qed.

Lemma await_rejected {A B} (m : Async A) (k : A -> Async B) d d' e :
  m d = (d', Rejected e) → (m ≫= k) d = (d', Rejected e).
Proof. intros Hm. unfold mbind, Async_bind, await. by rewrite Hm. Qed.

Lemma requireUser_signed_in u d : requireUser (signed_in u) d = (d, Fulfilled u).
Proof. done. Qed.

Lemma requireUser_anonymous context d :
  locals context ≫= user = None →
  requireUser context d =
    (d, Rejected (ActionError UNAUTHORIZED "You must be signed in to perform this action.")).
Proof. intros Hno. unfold requireUser. by rewrite Hno. Qed.

Lemma getSessionForUser_missing d u i :
  ¬ owns_session d u i →
  getSessionForUser i u d =
    (sent (SelectSessions
             (Sql.and (Sql.eq WorkoutSessions.id i) (Sql.eq WorkoutSessions.userId u)) None) d,
     Rejected (ActionError NOT_FOUND "Workout session not found.")).
Proof.
  intros Hno. unfold getSessionForUser, mbind, Async_bind, await, db.select_sessions.
  simpl. rewrite selected_nil; [done|].
  intros s Hs [Hi Hu]. apply Hno. by exists s.
Qed.

Lemma getSessionForUser_found d u i :
  owns_session d u i →
  ∃ s, getSessionForUser i u d =
    (sent (SelectSessions
             (Sql.and (Sql.eq WorkoutSessions.id i) (Sql.eq WorkoutSessions.userId u)) None) d,
     Fulfilled s) ∧
    s ∈ sessions d ∧ WorkoutSessions.id s = i ∧ WorkoutSessions.userId s = u.
Proof.
  intros (s & Hs & Hi & Hu).
  unfold getSessionForUser, mbind, Async_bind, await, db.select_sessions. simpl.
  destruct (head_selected_is_Some
    (Sql.and (Sql.eq WorkoutSessions.id i) (Sql.eq WorkoutSessions.userId u))
    (sessions d) s Hs) as [s0 Hs0]; [by split|].
  rewrite Hs0. exists s0. split; [done|].
  apply head_selected_Some in Hs0 as [? [? ?]]. done.
Qed.

(** * Invariants *)

Lemma NoDup_deleted {R} (key : R -> string) (w : Sql.Where R) (l : list R) :
  NoDup (key <$> l) → NoDup (key <$> deleted w l).
Proof.
  intros Hnd. eapply sublist_NoDup; [exact Hnd|].
  apply fmap_sublist. unfold deleted. apply sublist_filter.
Qed.

Lemma NoDup_updated {R P} (key : R -> string) (set : P -> R -> R) p (w : Sql.Where R) l :
  (∀ r, key (set p r) = key r) → NoDup (key <$> l) → NoDup (key <$> updated set p w l).
Proof.
  intros Hkey Hnd. unfold updated. rewrite <- list_fmap_compose.
  erewrite list_fmap_ext; [exact Hnd|].
  intros j r _. simpl. destruct (decide (holds w r)); [apply Hkey | done].
Qed.

Lemma NoDup_inserted {R} (key : R -> string) (r : R) (l : list R) :
  has_key key (key r) l = false → NoDup (key <$> l) → NoDup (key <$> (l ++ [r])).
Proof.
  intros Hfresh Hnd. apply bool_decide_eq_false_1 in Hfresh.
  rewrite fmap_app. apply NoDup_app. split; [done|]. split.
  - intros k Hk Hk'. apply list_elem_of_singleton in Hk'. by subst.
  - apply NoDup_singleton.
Qed.

Lemma consistent_same_tables d d' :
  sessions d' = sessions d → exercises d' = exercises d → consistent d → consistent d'.
Proof.
  unfold consistent, primary_keys, referential, owns_session.
  intros -> ->. done.
Qed.

Lemma consistent_insert_session d d' r :
  has_key WorkoutSessions.id (WorkoutSessions.id r) (sessions d) = false →
  sessions d' = sessions d ++ [r] → exercises d' = exercises d →
  consistent d → consistent d'.
Proof.
  unfold consistent, primary_keys, referential, owns_session.
  intros Hfresh -> -> [[Hs He] Href]. repeat split; [|done|].
  - by apply NoDup_inserted.
  - intros e Hin. destruct (Href e Hin) as (s & Hs' & Hids).
    exists s. split; [|done]. apply elem_of_app. by left.
Qed.

Lemma consistent_update_sessions d d' p w :
  WorkoutSessions.Partial.id p = None → WorkoutSessions.Partial.userId p = None →
  sessions d' = updated WorkoutSessions.set p w (sessions d) →
  exercises d' = exercises d →
  consistent d → consistent d'.
Proof.
  unfold consistent, primary_keys, referential, owns_session.
  intros Hid Hu -> -> [[Hs He] Href].
  assert (∀ r, WorkoutSessions.id (WorkoutSessions.set p r) = WorkoutSessions.id r) as Hkey
    by (intros r; simpl; by rewrite Hid).
  assert (∀ r, WorkoutSessions.userId (WorkoutSessions.set p r) = WorkoutSessions.userId r)
    as Hown by (intros r; simpl; by rewrite Hu).
  repeat split; [|done|].
  - by apply NoDup_updated.
  - intros e Hin. destruct (Href e Hin) as (s & Hs' & Hi & Ho).
    exists (if decide (holds w s) then WorkoutSessions.set p s else s). split.
    + unfold updated. apply list_elem_of_fmap. by exists s.
    + destruct (decide (holds w s)); [by rewrite Hkey, Hown | done].
Qed.

Lemma consistent_delete_session d d' i u :
  exercises d' =
    deleted (Sql.and (Sql.eq WorkoutExercises.sessionId i) (Sql.eq WorkoutExercises.userId u))
      (exercises d) →
  sessions d' =
    deleted (Sql.and (Sql.eq WorkoutSessions.id i) (Sql.eq WorkoutSessions.userId u))
      (sessions d) →
  consistent d → consistent d'.
Proof.
  unfold consistent, primary_keys, referential, owns_session.
  intros -> -> [[Hs He] Href]. repeat split; [by apply NoDup_deleted..|].
  intros e Hin. apply deleted_elem_of in Hin as [Hin Hkeep].
  destruct (Href e Hin) as (s & Hs' & Hi & Ho).
  exists s. split; [|done]. apply deleted_elem_of. split; [done|].
  intros [Hsi Hsu]. simpl in *. apply Hkeep. split; congruence.
Qed.

Lemma consistent_insert_exercise d d' e :
  has_key WorkoutExercises.id (WorkoutExercises.id e) (exercises d) = false →
  owns_session d (WorkoutExercises.userId e) (WorkoutExercises.sessionId e) →
  exercises d' = exercises d ++ [e] → sessions d' = sessions d →
  consistent d → consistent d'.
Proof.
  unfold consistent, primary_keys, referential, owns_session.
  intros Hfresh Hown -> -> [[Hs He] Href]. repeat split; [done| |].
  - by apply NoDup_inserted.
  - intros e0 Hin. apply elem_of_app in Hin as [Hin|Hin]; [by apply Href|].
    apply list_elem_of_singleton in Hin. by subst.
Qed.

Lemma consistent_update_exercises d d' input i u :
  owns_session d u (ExerciseInput.sessionId input) →
  exercises d' =
    updated WorkoutExercises.set (server.upsertWorkoutExercise_updateData input)
      (Sql.and (Sql.eq WorkoutExercises.id i) (Sql.eq WorkoutExercises.userId u))
      (exercises d) →
  sessions d' = sessions d →
  consistent d → consistent d'.
Proof.
  unfold consistent, primary_keys, referential.
  intros Hown -> Hsame [[Hs He] Href].
  assert (∀ u' i', owns_session d' u' i' ↔ owns_session d u' i') as Howns
    by (intros; unfold owns_session; by rewrite Hsame).
  rewrite Hsame. repeat split; [done| |].
  - by apply NoDup_updated.
  - intros e' Hin. apply Howns. unfold updated in Hin.
    apply list_elem_of_fmap in Hin as (e & -> & Hin).
    destruct (decide _) as [[_ Hu]|_]; [|by apply Href].
    simpl in *. by rewrite Hu.
Qed.

Lemma consistent_delete_exercises d d' w :
  exercises d' = deleted w (exercises d) → sessions d' = sessions d →
  consistent d → consistent d'.
Proof.
  unfold consistent, primary_keys, referential, owns_session.
  intros -> -> [[Hs He] Href]. repeat split; [done| |].
  - by apply NoDup_deleted.
  - intros e Hin. apply deleted_elem_of in Hin as [Hin _]. by apply Href.
Qed.

(** Entering an action: the body may be refused, the caller may be missing;
    in both cases the database is the one the action started from. *)
Ltac enter_action action schema handler :=
  unfold action, defineAction;
  destruct (schema _ _) as [input|]; [|done];
  unfold handler, requireUser;
  destruct (locals _ ≫= user) as [caller|]; [|done];
  unfold mbind at 1, Async_bind at 1, await at 1, resolve; simpl.

Ltac lookup_session :=
  unfold getSessionForUser, db.select_sessions;
  unfold mbind, Async_bind, await, resolve, throw, window; simpl;
  match goal with
  | |- context [head (selected ?w ?l)] =>
      let Hfound := fresh "Hfound" in
      destruct (head (selected w l)) as [session|] eqn:Hfound; simpl;
      [apply head_selected_Some in Hfound as (? & ? & ?) | by eapply consistent_same_tables]
  end.

(** X19. Every action takes a consistent database (ids unique in each
    table, every exercise under a session of its own owner) to a consistent
    database, however it settles. *)
Theorem actions_keep_consistency raw context rt d :
  consistent d →
  consistent (server.createWorkoutSession raw context rt d).1 ∧
  consistent (server.updateWorkoutSession raw context rt d).1 ∧
  consistent (server.deleteWorkoutSession raw context rt d).1 ∧
  consistent (server.listMyWorkoutSessions raw context rt d).1 ∧
  consistent (server.getWorkoutSessionWithExercises raw context rt d).1 ∧
  consistent (server.upsertWorkoutExercise raw context rt d).1 ∧
  consistent (server.deleteWorkoutExercise raw context rt d).1.
Proof.
  intros Hd. split; [|split; [|split; [|split; [|split; [|split]]]]].
  - enter_action server.createWorkoutSession server.createWorkoutSession_input
      server.createWorkoutSession_handler.
    unfold mbind, Async_bind, await, db.insert_session. cbv beta zeta.
    destruct (has_key _ _ _) eqn:Hkey; simpl; [done|].
    by eapply (consistent_insert_session d).
  - enter_action server.updateWorkoutSession server.updateWorkoutSession_input
      server.updateWorkoutSession_handler.
    lookup_session.
    by eapply (consistent_update_sessions d _
      (server.updateWorkoutSession_updateData input rt)).
  - enter_action server.deleteWorkoutSession server.id_input
      server.deleteWorkoutSession_handler.
    lookup_session.
    by eapply (consistent_delete_session d).
  - enter_action server.listMyWorkoutSessions server.listMyWorkoutSessions_input
      server.listMyWorkoutSessions_handler.
    done.
  - enter_action server.getWorkoutSessionWithExercises server.id_input
      server.getWorkoutSessionWithExercises_handler.
    lookup_session. by eapply consistent_same_tables.
  - enter_action server.upsertWorkoutExercise server.upsertWorkoutExercise_input
      server.upsertWorkoutExercise_handler.
    lookup_session.
    assert (owns_session d (user_id caller) (ExerciseInput.sessionId input)) as Hown
      by (by exists session).
    destruct (truthy (ExerciseInput.id input)) as [i|].
    + unfold db.select_exercises, db.update_exercises.
      unfold mbind, Async_bind, await, resolve, throw; simpl.
      destruct (head (selected _ _)); simpl; [|by eapply consistent_same_tables].
      by eapply (consistent_update_exercises d).
    + unfold mbind, Async_bind, await, db.insert_exercise. cbv beta zeta.
      destruct (has_key _ _ _) eqn:Hkey; simpl; [by eapply consistent_same_tables|].
      by eapply (consistent_insert_exercise d).
  - enter_action server.deleteWorkoutExercise server.id_input
      server.deleteWorkoutExercise_handler.
    unfold db.select_exercises, db.delete_exercises.
    unfold mbind, Async_bind, await, resolve, throw; simpl.
    destruct (head (selected _ _)); simpl; [|by eapply consistent_same_tables].
    by eapply (consistent_delete_exercises d).
Qed.

(** X20. An action that is rejected has changed no table: every [throw] of
    a handler comes before its first write, and a refused insert writes
    nothing. *)
Theorem rejection_leaves_tables raw context rt d :
  untouched_if_rejected d (server.createWorkoutSession raw context rt d) ∧
  untouched_if_rejected d (server.updateWorkoutSession raw context rt d) ∧
  untouched_if_rejected d (server.deleteWorkoutSession raw context rt d) ∧
  untouched_if_rejected d (server.listMyWorkoutSessions raw context rt d) ∧
  untouched_if_rejected d (server.getWorkoutSessionWithExercises raw context rt d) ∧
  untouched_if_rejected d (server.upsertWorkoutExercise raw context rt d) ∧
  untouched_if_rejected d (server.deleteWorkoutExercise raw context rt d).
Proof.
  unfold untouched_if_rejected.
  split; [|split; [|split; [|split; [|split; [|split]]]]].
  - enter_action server.createWorkoutSession server.createWorkoutSession_input
      server.createWorkoutSession_handler.
    unfold mbind, Async_bind, await, db.insert_session. cbv beta zeta.
    by destruct (has_key _ _ _).
  - enter_action server.updateWorkoutSession server.updateWorkoutSession_input
      server.updateWorkoutSession_handler.
    unfold getSessionForUser, db.select_sessions.
    unfold mbind, Async_bind, await, resolve, throw, window; simpl.
    by destruct (head (selected _ _)).
  - enter_action server.deleteWorkoutSession server.id_input
      server.deleteWorkoutSession_handler.
    unfold getSessionForUser, db.select_sessions.
    unfold mbind, Async_bind, await, resolve, throw, window; simpl.
    by destruct (head (selected _ _)).
  - enter_action server.listMyWorkoutSessions server.listMyWorkoutSessions_input
      server.listMyWorkoutSessions_handler.
    done.
  - enter_action server.getWorkoutSessionWithExercises server.id_input
      server.getWorkoutSessionWithExercises_handler.
    unfold getSessionForUser, db.select_sessions.
    unfold mbind, Async_bind, await, resolve, throw, window; simpl.
    by destruct (head (selected _ _)).
  - enter_action server.upsertWorkoutExercise server.upsertWorkoutExercise_input
      server.upsertWorkoutExercise_handler.
    unfold getSessionForUser, db.select_sessions.
    unfold mbind, Async_bind, await, resolve, throw, window; simpl.
    destruct (head (selected _ _)); simpl; [|done].
    destruct (truthy (ExerciseInput.id input)) as [i|].
    + unfold db.select_exercises. simpl. by destruct (head (selected _ _)).
    + unfold db.insert_exercise. cbv beta zeta. by destruct (has_key _ _ _).
  - enter_action server.deleteWorkoutExercise server.id_input
      server.deleteWorkoutExercise_handler.
    unfold db.select_exercises.
    unfold mbind, Async_bind, await, resolve, throw; simpl.
    by destruct (head (selected _ _)).
Qed.

(** * Properties of the actions *)

(** ** Creating a session *)

(** [z.object] drops the keys the schema does not declare: a body that
    carries [userId] parses as the body without it. *)
Lemma createWorkoutSession_input_ignores_userId rt o v :
  server.createWorkoutSession_input rt (RObject (<["userId" := v]> o)) =
  server.createWorkoutSession_input rt (RObject o).
Proof.
  unfold server.createWorkoutSession_input, z.object, prop.
  by rewrite !lookup_insert_ne.
Qed.

(** C2. For a signed-in caller and a body the schema accepts,
    [createWorkoutSession] returns and stores a session whose [userId] is
    the caller's id, whose [id] is the generated one, whose [createdAt] and
    [updatedAt] are the current time and whose [workoutDate] is the
    supplied date, or the current time when none is supplied. A [userId] in
    the body changes nothing. The generated id is assumed not to be in use,
    as the generator promises. *)
Theorem createWorkoutSession_owner_and_timestamps raw input u rt d :
  server.createWorkoutSession_input rt raw = Some input →
  randomUUID rt ∉ WorkoutSessions.id <$> sessions d →
  ∃ d' session,
    server.createWorkoutSession raw (signed_in u) rt d =
      (d', Fulfilled {| success := true; data := session |}) ∧
    WorkoutSessions.userId session = user_id u ∧
    WorkoutSessions.id session = randomUUID rt ∧
    WorkoutSessions.createdAt session = now rt ∧
    WorkoutSessions.updatedAt session = now rt ∧
    WorkoutSessions.workoutDate session =
      match CreateInput.workoutDate input with
      | Some date => date
      | None => now rt
      end ∧
    WorkoutSessions.title session = CreateInput.title input ∧
    WorkoutSessions.startTime session = CreateInput.startTime input ∧
    WorkoutSessions.endTime session = CreateInput.endTime input ∧
    WorkoutSessions.workoutType session = CreateInput.workoutType input ∧
    WorkoutSessions.notes session = CreateInput.notes input ∧
    WorkoutSessions.totalDurationMinutes session = CreateInput.totalDurationMinutes input ∧
    WorkoutSessions.totalCalories session = CreateInput.totalCalories input ∧
    sessions d' = sessions d ++ [session] ∧
    exercises d' = exercises d ∧
    (∀ o v, raw = RObject o →
       server.createWorkoutSession (RObject (<["userId" := v]> o)) (signed_in u) rt d =
       server.createWorkoutSession raw (signed_in u) rt d).
Proof.
  intros Hin Hfresh. eexists. eexists. split.
  { unfold server.createWorkoutSession.
    rewrite (defineAction_accepted _ _ _ _ _ _ Hin).
    unfold server.createWorkoutSession_handler.
    rewrite (await_fulfilled _ _ _ _ _ (requireUser_signed_in u d)).
    unfold mbind, Async_bind, await, db.insert_session. simpl.
    rewrite has_key_fresh by done. reflexivity. }
  simpl. repeat split.
  intros o v ->. unfold server.createWorkoutSession, defineAction.
  by rewrite createWorkoutSession_input_ignores_userId.
Qed.

Lemma createWorkoutSession_owner_and_timestamps_witness :
  ∃ d',
    server.createWorkoutSession
      (Sample.body [("title", VStr "Push Day"); ("userId", VStr "bob")])
      (signed_in Sample.alice) Sample.rt Sample.gym =
      (d', Fulfilled {|
         success := true;
         data := {|
           WorkoutSessions.id := "9b2d7c1e-0000-4000-8000-000000000001";
           WorkoutSessions.userId := "alice";
           WorkoutSessions.title := Some "Push Day";
           WorkoutSessions.workoutDate := 1700000000000;
           WorkoutSessions.startTime := None;
           WorkoutSessions.endTime := None;
           WorkoutSessions.workoutType := None;
           WorkoutSessions.notes := None;
           WorkoutSessions.totalDurationMinutes := None;
           WorkoutSessions.totalCalories := None;
           WorkoutSessions.createdAt := 1700000000000;
           WorkoutSessions.updatedAt := 1700000000000;
         |} |}).
Proof.
  destruct (createWorkoutSession_owner_and_timestamps
    (Sample.body [("title", VStr "Push Day"); ("userId", VStr "bob")])
    {| CreateInput.title := Some "Push Day"; CreateInput.workoutDate := None;
       CreateInput.startTime := None; CreateInput.endTime := None;
       CreateInput.workoutType := None; CreateInput.notes := None;
       CreateInput.totalDurationMinutes := None; CreateInput.totalCalories := None |}
    Sample.alice Sample.rt Sample.gym)
    as (d' & session & Hrun & Hu & Hi & Hc & Hup & Hw & Ht & Hs & He & Hty & Hn & Hdur & Hcal & _).
  - vm_compute. reflexivity.
  - apply (bool_decide_unpack _). vm_compute. exact I.
  - exists d'. rewrite Hrun. do 3 f_equal.
    destruct session. simpl in *. by subst.
Defined.

(** ** Updating a session *)

(** C4. If the caller has no session with the requested id, whether no row
    has that id or the row belongs to someone else, [updateWorkoutSession]
    is rejected with NOT_FOUND; both tables are as they were, and the only
    statement sent is the lookup. *)
Theorem updateWorkoutSession_not_found raw input u rt d :
  server.updateWorkoutSession_input rt raw = Some input →
  ¬ owns_session d (user_id u) (UpdateInput.id input) →
  ∃ d',
    server.updateWorkoutSession raw (signed_in u) rt d =
      (d', Rejected (ActionError NOT_FOUND "Workout session not found.")) ∧
    sessions d' = sessions d ∧
    exercises d' = exercises d ∧
    journal d' = journal d ++
      [SelectSessions
         (Sql.and (Sql.eq WorkoutSessions.id (UpdateInput.id input))
                  (Sql.eq WorkoutSessions.userId (user_id u))) None].
Proof.
  intros Hin Hno. eexists. split.
  - unfold server.updateWorkoutSession.
    rewrite (defineAction_accepted _ _ _ _ _ _ Hin).
    unfold server.updateWorkoutSession_handler.
    rewrite (await_fulfilled _ _ _ _ _ (requireUser_signed_in u d)).
    by rewrite (await_rejected _ _ _ _ _ (getSessionForUser_missing _ _ _ Hno)).
  - done.
Qed.

Lemma updateWorkoutSession_not_found_witness :
  ∃ d',
    server.updateWorkoutSession
      (Sample.body [("id", VStr "s2"); ("title", VStr "Mine now")])
      (signed_in Sample.alice) Sample.rt Sample.gym =
      (d', Rejected (ActionError NOT_FOUND "Workout session not found.")) ∧
    sessions d' = sessions Sample.gym ∧
    exercises d' = exercises Sample.gym ∧
    journal d' =
      [SelectSessions
         (Sql.and (Sql.eq WorkoutSessions.id "s2")
                  (Sql.eq WorkoutSessions.userId "alice")) None].
Proof.
  refine (updateWorkoutSession_not_found
    (Sample.body [("id", VStr "s2"); ("title", VStr "Mine now")])
    {| UpdateInput.id := "s2"; UpdateInput.title := Some "Mine now";
       UpdateInput.workoutDate := None; UpdateInput.startTime := None;
       UpdateInput.endTime := None; UpdateInput.workoutType := None;
       UpdateInput.notes := None; UpdateInput.totalDurationMinutes := None;
       UpdateInput.totalCalories := None |}
    Sample.alice Sample.rt Sample.gym _ _).
  - vm_compute. reflexivity.
  - apply (bool_decide_unpack _). vm_compute. exact I.
Defined.

Lemma set_updateData_session input rt s :
  WorkoutSessions.set (server.updateWorkoutSession_updateData input rt) s =
  {| WorkoutSessions.id := WorkoutSessions.id s;
     WorkoutSessions.userId := WorkoutSessions.userId s;
     WorkoutSessions.title := or_keep (UpdateInput.title input) (WorkoutSessions.title s);
     WorkoutSessions.workoutDate :=
       default (WorkoutSessions.workoutDate s) (UpdateInput.workoutDate input);
     WorkoutSessions.startTime :=
       or_keep (UpdateInput.startTime input) (WorkoutSessions.startTime s);
     WorkoutSessions.endTime := or_keep (UpdateInput.endTime input) (WorkoutSessions.endTime s);
     WorkoutSessions.workoutType :=
       or_keep (UpdateInput.workoutType input) (WorkoutSessions.workoutType s);
     WorkoutSessions.notes := or_keep (UpdateInput.notes input) (WorkoutSessions.notes s);
     WorkoutSessions.totalDurationMinutes :=
       or_keep (UpdateInput.totalDurationMinutes input)
         (WorkoutSessions.totalDurationMinutes s);
     WorkoutSessions.totalCalories :=
       or_keep (UpdateInput.totalCalories input) (WorkoutSessions.totalCalories s);
     WorkoutSessions.createdAt := WorkoutSessions.createdAt s;
     WorkoutSessions.updatedAt := now rt |}.
Proof.
  unfold WorkoutSessions.set, server.updateWorkoutSession_updateData. simpl.
  f_equal; by match goal with |- context [Some <$> ?o] => destruct o end.
Qed.

(** After a patch that keeps key and owner, the row at [k] is still the only
    one the caller's lookup finds. *)
Lemma selected_after_update {R} (key owner : R -> string) (l : list R) k s s' :
  NoDup (key <$> l) → l !! k = Some s → key s' = key s → owner s' = owner s →
  selected (Sql.and (Sql.eq key (key s)) (Sql.eq owner (owner s))) (<[k := s']> l) = [s'].
Proof.
  intros Hnd Hk Hkey Hown. rewrite <- Hkey, <- Hown.
  apply selected_unique with (k := k).
  - rewrite list_fmap_insert, Hkey. rewrite list_insert_id; [done|].
    by rewrite list_lookup_fmap, Hk.
  - apply list_lookup_insert_eq. by eapply lookup_lt_Some.
Qed.

(** C5. For a session [s] of the caller, stored at position [k],
    [updateWorkoutSession] overwrites the columns the request supplies,
    sets [updatedAt] to the current time and keeps every other column; the
    row it returns is the row now stored at [k], all other rows and all
    exercises are as they were. With no field supplied only [updatedAt]
    differs from [s]. The stored rows are ones the driver can read and the
    supplied fields ones it reads back as supplied. *)
Theorem updateWorkoutSession_applies_supplied_fields raw input u rt d k s :
  server.updateWorkoutSession_input rt raw = Some input →
  NoDup (WorkoutSessions.id <$> sessions d) →
  sessions d !! k = Some s →
  WorkoutSessions.id s = UpdateInput.id input →
  WorkoutSessions.userId s = user_id u →
  readable d →
  storable_update input →
  ∃ d' s',
    server.updateWorkoutSession raw (signed_in u) rt d =
      (d', Fulfilled {| success := true; data := Some s' |}) ∧
    s' = {|
      WorkoutSessions.id := WorkoutSessions.id s;
      WorkoutSessions.userId := WorkoutSessions.userId s;
      WorkoutSessions.title := or_keep (UpdateInput.title input) (WorkoutSessions.title s);
      WorkoutSessions.workoutDate :=
        default (WorkoutSessions.workoutDate s) (UpdateInput.workoutDate input);
      WorkoutSessions.startTime :=
        or_keep (UpdateInput.startTime input) (WorkoutSessions.startTime s);
      WorkoutSessions.endTime :=
        or_keep (UpdateInput.endTime input) (WorkoutSessions.endTime s);
      WorkoutSessions.workoutType :=
        or_keep (UpdateInput.workoutType input) (WorkoutSessions.workoutType s);
      WorkoutSessions.notes := or_keep (UpdateInput.notes input) (WorkoutSessions.notes s);
      WorkoutSessions.totalDurationMinutes :=
        or_keep (UpdateInput.totalDurationMinutes input)
          (WorkoutSessions.totalDurationMinutes s);
      WorkoutSessions.totalCalories :=
        or_keep (UpdateInput.totalCalories input) (WorkoutSessions.totalCalories s);
      WorkoutSessions.createdAt := WorkoutSessions.createdAt s;
      WorkoutSessions.updatedAt := now rt;
    |} ∧
    sessions d' = <[k := s']> (sessions d) ∧
    sessions d' !! k = Some s' ∧
    exercises d' = exercises d ∧
    (input = no_fields (UpdateInput.id input) →
     s' = {|
       WorkoutSessions.id := WorkoutSessions.id s;
       WorkoutSessions.userId := WorkoutSessions.userId s;
       WorkoutSessions.title := WorkoutSessions.title s;
       WorkoutSessions.workoutDate := WorkoutSessions.workoutDate s;
       WorkoutSessions.startTime := WorkoutSessions.startTime s;
       WorkoutSessions.endTime := WorkoutSessions.endTime s;
       WorkoutSessions.workoutType := WorkoutSessions.workoutType s;
       WorkoutSessions.notes := WorkoutSessions.notes s;
       WorkoutSessions.totalDurationMinutes := WorkoutSessions.totalDurationMinutes s;
       WorkoutSessions.totalCalories := WorkoutSessions.totalCalories s;
       WorkoutSessions.createdAt := WorkoutSessions.createdAt s;
       WorkoutSessions.updatedAt := now rt;
     |}).
Proof.
  intros Hin Hnd Hk Hid Hu _ _.
  assert (owns_session d (user_id u) (UpdateInput.id input)) as Hown.
  { exists s. split; [by eapply list_elem_of_lookup_2 | done]. }
  destruct (getSessionForUser_found _ _ _ Hown) as (s0 & Hget & _).
  pose proof (set_updateData_session input rt s) as Hset.
  set (s' := WorkoutSessions.set (server.updateWorkoutSession_updateData input rt) s) in *.
  exists (with_sessions (<[k := s']> (sessions d))
    (sent (SelectSessions
             (Sql.and (Sql.eq WorkoutSessions.id (UpdateInput.id input))
                      (Sql.eq WorkoutSessions.userId (user_id u))) None)
       (sent (UpdateSessions (server.updateWorkoutSession_updateData input rt)
                (Sql.and (Sql.eq WorkoutSessions.id (UpdateInput.id input))
                         (Sql.eq WorkoutSessions.userId (user_id u))))
          (sent (SelectSessions
                   (Sql.and (Sql.eq WorkoutSessions.id (UpdateInput.id input))
                            (Sql.eq WorkoutSessions.userId (user_id u))) None) d)))), s'.
  split; [|split; [exact Hset|]].
  - unfold server.updateWorkoutSession.
    rewrite (defineAction_accepted _ _ _ _ _ _ Hin).
    unfold server.updateWorkoutSession_handler.
    rewrite (await_fulfilled _ _ _ _ _ (requireUser_signed_in u d)).
    rewrite (await_fulfilled _ _ _ _ _ Hget).
    unfold mbind, Async_bind, await, db.update_sessions, db.select_sessions, mret, Async_ret,
      resolve, window.
    simpl. rewrite <- Hid, <- Hu.
    rewrite (updated_unique WorkoutSessions.id WorkoutSessions.userId
               WorkoutSessions.set _ _ k s Hnd Hk).
    fold s'.
    rewrite (selected_after_update WorkoutSessions.id WorkoutSessions.userId
               _ k s s' Hnd Hk); [done| |]; by rewrite Hset.
  - simpl. repeat split.
    + apply list_lookup_insert_eq. by eapply lookup_lt_Some.
    + intros Hempty. rewrite Hset, Hempty. reflexivity.
Qed.

Lemma updateWorkoutSession_applies_supplied_fields_witness :
  ∃ d',
    server.updateWorkoutSession
      (Sample.body [("id", VStr "s3"); ("title", VStr "Back Day");
                    ("totalCalories", VNum (Finite (inject_Z 300)))])
      (signed_in Sample.alice) Sample.rt Sample.gym =
      (d', Fulfilled {|
         success := true;
         data := Some {|
           WorkoutSessions.id := "s3";
           WorkoutSessions.userId := "alice";
           WorkoutSessions.title := Some "Back Day";
           WorkoutSessions.workoutDate := 1600000200000;
           WorkoutSessions.startTime := None;
           WorkoutSessions.endTime := None;
           WorkoutSessions.workoutType := Some "strength";
           WorkoutSessions.notes := None;
           WorkoutSessions.totalDurationMinutes := Some 45;
           WorkoutSessions.totalCalories := Some 300;
           WorkoutSessions.createdAt := 1600000200000;
           WorkoutSessions.updatedAt := 1700000000000;
         |} |}) ∧
    exercises d' = exercises Sample.gym.
Proof.
  destruct (updateWorkoutSession_applies_supplied_fields
    (Sample.body [("id", VStr "s3"); ("title", VStr "Back Day");
                  ("totalCalories", VNum (Finite (inject_Z 300)))])
    {| UpdateInput.id := "s3";
       UpdateInput.title := Some "Back Day";
       UpdateInput.workoutDate := None;
       UpdateInput.startTime := None;
       UpdateInput.endTime := None;
       UpdateInput.workoutType := None;
       UpdateInput.notes := None;
       UpdateInput.totalDurationMinutes := None;
       UpdateInput.totalCalories := Some 300 |}
    Sample.alice Sample.rt Sample.gym
    2%nat (Sample.session "s3" "alice" "Pull Day" 1600000200000))
    as (d' & s' & Hrun & Hrow & _ & _ & Hex & _).
  - vm_compute. reflexivity.
  - apply (bool_decide_unpack _). vm_compute. exact I.
  - reflexivity.
  - reflexivity.
  - reflexivity.
  - apply (bool_decide_unpack _). vm_compute. exact I.
  - apply (bool_decide_unpack _). vm_compute. exact I.
  - exists d'. split; [|exact Hex]. rewrite Hrun, Hrow. reflexivity.
Defined.

(** ** Deleting a session *)

(** In a consistent database the foreign key never holds a session back:
    whoever has an exercise under a session owns that session. *)
Lemma consistent_unreferenced_by_others d u i :
  consistent d → owns_session d u i → unreferenced_by_others d u i.
Proof.
  intros [[Hnd _] Href] (s & Hs & Hsi & Hsu) e He Hei.
  destruct (Href e He) as (t & Ht & Hti & Htu).
  apply list_elem_of_lookup in Hs as [k Hk].
  apply list_elem_of_lookup in Ht as [j Hj].
  assert (j = k) as -> by
    (eapply (key_unique WorkoutSessions.id); [exact Hnd|exact Hk|exact Hj|congruence]).
  congruence.
Qed.

(** C1. For a session the caller owns, [deleteWorkoutSession] sends the
    lookup, then the deletion of the caller's exercises of that session, then
    the deletion of the session, and returns the id. The exercises that
    remain are those that were there and are not both under that session and
    owned by the caller; the sessions that remain are those that are not
    that session of the caller; every remaining row is as it was. The
    database is one the driver can read, and no exercise of another user is
    under the session (the foreign key would keep the session). *)
Theorem deleteWorkoutSession_cascade raw i u rt d :
  server.id_input rt raw = Some {| IdInput.id := i |} →
  owns_session d (user_id u) i →
  readable d →
  unreferenced_by_others d (user_id u) i →
  ∃ d',
    server.deleteWorkoutSession raw (signed_in u) rt d =
      (d', Fulfilled {| success := true; data := i |}) ∧
    exercises d' =
      filter (fun e => ¬ (WorkoutExercises.sessionId e = i ∧
                          WorkoutExercises.userId e = user_id u)) (exercises d) ∧
    sessions d' =
      filter (fun s => ¬ (WorkoutSessions.id s = i ∧
                          WorkoutSessions.userId s = user_id u)) (sessions d) ∧
    journal d' = journal d ++
      [SelectSessions
         (Sql.and (Sql.eq WorkoutSessions.id i)
                  (Sql.eq WorkoutSessions.userId (user_id u))) None;
       DeleteExercises
         (Sql.and (Sql.eq WorkoutExercises.sessionId i)
                  (Sql.eq WorkoutExercises.userId (user_id u)));
       DeleteSessions
         (Sql.and (Sql.eq WorkoutSessions.id i)
                  (Sql.eq WorkoutSessions.userId (user_id u)))] ∧
    ¬ owns_session d' (user_id u) i ∧
    (∀ e, e ∈ exercises d →
          WorkoutExercises.userId e ≠ user_id u ∨ WorkoutExercises.sessionId e ≠ i →
          e ∈ exercises d') ∧
    (∀ s, s ∈ sessions d →
          WorkoutSessions.userId s ≠ user_id u ∨ WorkoutSessions.id s ≠ i →
          s ∈ sessions d').
Proof.
  intros Hin Hown _ _.
  destruct (getSessionForUser_found _ _ _ Hown) as (s0 & Hget & _).
  eexists. split.
  { unfold server.deleteWorkoutSession.
    rewrite (defineAction_accepted _ _ _ _ _ _ Hin).
    unfold server.deleteWorkoutSession_handler.
    rewrite (await_fulfilled _ _ _ _ _ (requireUser_signed_in u d)).
    rewrite (await_fulfilled _ _ _ _ _ Hget).
    reflexivity. }
  simpl. repeat split.
  - by rewrite <- !app_assoc.
  - intros (s & Hs & Hi & Hu). apply list_elem_of_filter in Hs as [Hs _].
    by apply Hs.
  - intros e He Hother. apply list_elem_of_filter. split; [|done].
    intros [? ?]. destruct Hother; done.
  - intros s Hs Hother. apply list_elem_of_filter. split; [|done].
    intros [? ?]. destruct Hother; done.
Qed.

Lemma deleteWorkoutSession_cascade_witness :
  ∃ d',
    server.deleteWorkoutSession (Sample.body [("id", VStr "s1")])
      (signed_in Sample.alice) Sample.rt Sample.gym =
      (d', Fulfilled {| success := true; data := "s1" |}) ∧
    exercises d' =
      [Sample.exercise "e2" "s2" "bob" "Running";
       Sample.exercise "e3" "s3" "alice" "Barbell Row"] ∧
    sessions d' =
      [Sample.session "s2" "bob" "Morning Run" 1600000100000;
       Sample.session "s3" "alice" "Pull Day" 1600000200000;
       Sample.session "s4" "alice" "Leg Day" 1600000300000].
Proof.
  destruct (deleteWorkoutSession_cascade (Sample.body [("id", VStr "s1")]) "s1"
    Sample.alice Sample.rt Sample.gym) as (d' & Hrun & He & Hs & _).
  - vm_compute. reflexivity.
  - apply (bool_decide_unpack _). vm_compute. exact I.
  - apply (bool_decide_unpack _). vm_compute. exact I.
  - apply (bool_decide_unpack _). vm_compute. exact I.
  - exists d'. split; [exact Hrun|]. split; [rewrite He | rewrite Hs]; reflexivity.
Defined.

(** ** Paging *)

Lemma positive_int_inv v n :
  z.positive (z.int z.number) v = Some n → 1 ≤ n.
Proof.
  unfold z.positive, z.check. intros Hv.
  destruct (z.int z.number v) as [m|]; simpl in Hv; [|done].
  destruct (0 <? m) eqn:Hm; [|done]. injection Hv as <-.
  apply Z.ltb_lt in Hm. lia.
Qed.

(** What the schema of [listMyWorkoutSessions] lets through. *)
Lemma listMyWorkoutSessions_input_bounds rt raw input :
  server.listMyWorkoutSessions_input rt raw = Some input →
  1 ≤ ListInput.page input ∧ 1 ≤ ListInput.pageSize input ≤ 100.
Proof.
  unfold server.listMyWorkoutSessions_input, z.object.
  destruct raw as [o|]; [|done]. intros Hin.
  destruct (z.default _ _ (prop o "page")) as [p|] eqn:Hp; simpl in Hin; [|done].
  destruct (z.default _ (z.max _ _) (prop o "pageSize")) as [n|] eqn:Hn;
    simpl in Hin; [|done].
  injection Hin as <-. simpl.
  assert (1 ≤ p) as Hp1.
  { unfold z.default in Hp.
    destruct (prop o "page"); by apply positive_int_inv in Hp. }
  assert (1 ≤ n ≤ 100) as Hn1.
  { assert (∀ v, z.max 100 (z.positive (z.int z.number)) v = Some n → 1 ≤ n ≤ 100) as Hmax.
    { intros v. unfold z.max, z.check at 1. intros Hv.
      destruct (z.positive _ v) as [m|] eqn:Hm; simpl in Hv; [|done].
      destruct (m <=? 100) eqn:Hle; [|done]. injection Hv as <-.
      apply positive_int_inv in Hm. apply Z.leb_le in Hle. lia. }
    unfold z.default in Hn. destruct (prop o "pageSize"); by apply Hmax in Hn. }
  done.
Qed.

(** C6. [listMyWorkoutSessions] returns the caller's sessions from offset
    [(page - 1) * pageSize], at most [pageSize] of them, with [page] and
    [pageSize] echoed; of three sessions, page 2 of size 1 is the second
    one alone. Nothing is written. The stored rows are ones the driver can
    read and the offset is a safe integer, as the product of two numbers
    must be to be exact and as the engine's [OFFSET] needs. *)
Theorem listMyWorkoutSessions_page raw p n u rt d :
  server.listMyWorkoutSessions_input rt raw =
    Some {| ListInput.page := p; ListInput.pageSize := n |} →
  readable d →
  safe_integer ((p - 1) * n) →
  ∃ d' items,
    server.listMyWorkoutSessions raw (signed_in u) rt d =
      (d', Fulfilled {|
         success := true;
         data := {|
           Page.items := items;
           Page.total := Z.of_nat (length items);
           Page.page := p;
           Page.pageSize := n;
         |} |}) ∧
    items =
      take (Z.to_nat n) (drop (Z.to_nat ((p - 1) * n)) (sessions_of d (user_id u))) ∧
    0 ≤ (p - 1) * n ∧
    Z.of_nat (length items) ≤ n ∧
    sessions d' = sessions d ∧
    exercises d' = exercises d ∧
    (∀ a b c, sessions_of d (user_id u) = [a; b; c] → p = 2 → n = 1 → items = [b]).
Proof.
  intros Hin _ _.
  destruct (listMyWorkoutSessions_input_bounds _ _ _ Hin) as [Hp Hn]. simpl in Hp, Hn.
  eexists. eexists. split.
  { unfold server.listMyWorkoutSessions.
    rewrite (defineAction_accepted _ _ _ _ _ _ Hin).
    unfold server.listMyWorkoutSessions_handler.
    rewrite (await_fulfilled _ _ _ _ _ (requireUser_signed_in u d)).
    reflexivity. }
  simpl. repeat split.
  - nia.
  - rewrite length_take. lia.
  - intros a b c Hthree -> ->.
    change (selected (Sql.eq WorkoutSessions.userId (user_id u)) (sessions d))
      with (sessions_of d (user_id u)).
    by rewrite Hthree.
Qed.

Lemma listMyWorkoutSessions_page_witness :
  ∃ d',
    server.listMyWorkoutSessions
      (Sample.body [("page", VNum (Finite (inject_Z 2)));
                    ("pageSize", VNum (Finite (inject_Z 1)))])
      (signed_in Sample.alice) Sample.rt Sample.gym =
      (d', Fulfilled {|
         success := true;
         data := {|
           Page.items := [Sample.session "s3" "alice" "Pull Day" 1600000200000];
           Page.total := 1;
           Page.page := 2;
           Page.pageSize := 1;
         |} |}).
Proof.
  destruct (listMyWorkoutSessions_page
    (Sample.body [("page", VNum (Finite (inject_Z 2)));
                  ("pageSize", VNum (Finite (inject_Z 1)))])
    2 1 Sample.alice Sample.rt Sample.gym) as (d' & items & Hrun & _ & _ & _ & _ & _ & Hsecond).
  - vm_compute. reflexivity.
  - apply (bool_decide_unpack _). vm_compute. exact I.
  - apply (bool_decide_unpack _). vm_compute. exact I.
  - exists d'. rewrite Hrun.
    rewrite (Hsecond (Sample.session "s1" "alice" "Push Day" 1600000000000)
                     (Sample.session "s3" "alice" "Pull Day" 1600000200000)
                     (Sample.session "s4" "alice" "Leg Day" 1600000300000));
      reflexivity.
Defined.

(** C7. Whenever [listMyWorkoutSessions] returns a page, its [total] is the
    number of items on that page; it is not the number of sessions the
    caller has (three sessions listed one per page give a total of one). A
    page is returned for every accepted request of a signed-in caller when
    the stored rows are ones the driver can read and the offset is a safe
    integer. *)
Theorem listMyWorkoutSessions_total_is_page_length :
  (∀ raw context rt d d' r,
      server.listMyWorkoutSessions raw context rt d = (d', Fulfilled r) →
      Page.total (data r) = Z.of_nat (length (Page.items (data r)))) ∧
  (∀ raw input u rt d,
      server.listMyWorkoutSessions_input rt raw = Some input →
      readable d →
      safe_integer ((ListInput.page input - 1) * ListInput.pageSize input) →
      ∃ d' r,
        server.listMyWorkoutSessions raw (signed_in u) rt d = (d', Fulfilled r)) ∧
  (∃ raw u rt d d' r,
      readable d ∧
      server.listMyWorkoutSessions raw (signed_in u) rt d = (d', Fulfilled r) ∧
      Z.of_nat (length (sessions_of d (user_id u))) = 3 ∧
      Page.total (data r) = 1).
Proof.
  split; [|split].
  - intros raw context rt d d' r.
    unfold server.listMyWorkoutSessions, defineAction.
    destruct (server.listMyWorkoutSessions_input rt raw) as [input|]; [|done].
    unfold server.listMyWorkoutSessions_handler, requireUser.
    destruct (locals context ≫= user) as [caller|]; [|done].
    intros Hrun. injection Hrun as _ <-. reflexivity.
  - intros raw input u rt d Hin _ _. eexists. eexists.
    unfold server.listMyWorkoutSessions.
    rewrite (defineAction_accepted _ _ _ _ _ _ Hin).
    unfold server.listMyWorkoutSessions_handler.
    rewrite (await_fulfilled _ _ _ _ _ (requireUser_signed_in u d)).
    reflexivity.
  - exists (Sample.body [("page", VNum (Finite (inject_Z 2)));
                         ("pageSize", VNum (Finite (inject_Z 1)))]),
      Sample.alice, Sample.rt, Sample.gym.
    eexists. eexists. split; [apply (bool_decide_unpack _); vm_compute; exact I|].
    split; [vm_compute; reflexivity|]. split; reflexivity.
Qed.

Lemma listMyWorkoutSessions_total_is_page_length_witness :
  ∃ d' r,
    server.listMyWorkoutSessions (Sample.body []) (signed_in Sample.alice)
      Sample.rt Sample.gym = (d', Fulfilled r) ∧
    Page.pageSize (data r) = 20 ∧
    Page.total (data r) = Z.of_nat (length (Page.items (data r))) ∧
    Page.total (data r) = 3.
Proof.
  destruct listMyWorkoutSessions_total_is_page_length as (Htotal & Hreturns & _).
  destruct (Hreturns (Sample.body [])
    {| ListInput.page := 1; ListInput.pageSize := 20 |}
    Sample.alice Sample.rt Sample.gym) as (d' & r & Hrun).
  - vm_compute. reflexivity.
  - apply (bool_decide_unpack _). vm_compute. exact I.
  - apply (bool_decide_unpack _). vm_compute. exact I.
  - exists d', r. split; [exact Hrun|].
    pose proof (Htotal _ _ _ _ _ _ Hrun) as Hlen.
    revert Hrun Hlen. vm_compute. intros Hrun Hlen. injection Hrun as _ <-.
    split; [|split]; reflexivity.
Defined.

(** ** Exercises *)

(** C8. With a session of the caller as target and no [id] in the request,
    [upsertWorkoutExercise] builds a row with the generated id, the caller
    as owner and the current time as [createdAt]; no column of an existing
    row is consulted. When the generated id is fresh the row is appended and
    returned; the only other outcome is the engine refusing a generated id
    that is already a primary key, so a row that was inserted has an id no
    earlier row has. The target session is read, so the stored rows are
    ones the driver can read, and the supplied fields are ones it binds. *)
Theorem upsertWorkoutExercise_inserts raw input u rt d :
  server.upsertWorkoutExercise_input rt raw = Some input →
  ExerciseInput.id input = None →
  owns_session d (user_id u) (ExerciseInput.sessionId input) →
  readable d →
  storable_exercise input →
  let e := {|
    WorkoutExercises.id := randomUUID rt;
    WorkoutExercises.sessionId := ExerciseInput.sessionId input;
    WorkoutExercises.userId := user_id u;
    WorkoutExercises.name := ExerciseInput.name input;
    WorkoutExercises.category := ExerciseInput.category input;
    WorkoutExercises.sets := ExerciseInput.sets input;
    WorkoutExercises.repsPerSet := ExerciseInput.repsPerSet input;
    WorkoutExercises.weightPerRep := ExerciseInput.weightPerRep input;
    WorkoutExercises.distanceKm := ExerciseInput.distanceKm input;
    WorkoutExercises.durationMinutes := ExerciseInput.durationMinutes input;
    WorkoutExercises.caloriesBurned := ExerciseInput.caloriesBurned input;
    WorkoutExercises.notes := ExerciseInput.notes input;
    WorkoutExercises.createdAt := now rt;
  |} in
  (randomUUID rt ∉ WorkoutExercises.id <$> exercises d →
   ∃ d',
     server.upsertWorkoutExercise raw (signed_in u) rt d =
       (d', Fulfilled {| success := true; data := Some e |}) ∧
     exercises d' = exercises d ++ [e] ∧
     sessions d' = sessions d ∧
     (∀ e0, e0 ∈ exercises d → WorkoutExercises.id e0 ≠ WorkoutExercises.id e)) ∧
  (randomUUID rt ∈ WorkoutExercises.id <$> exercises d →
   ∃ d',
     server.upsertWorkoutExercise raw (signed_in u) rt d = (d', Rejected ConstraintError) ∧
     exercises d' = exercises d ∧
     sessions d' = sessions d).
Proof.
  intros Hin Hid Hown _ _ e.
  destruct (getSessionForUser_found _ _ _ Hown) as (s0 & Hget & _).
  assert (server.upsertWorkoutExercise raw (signed_in u) rt d =
    (_ ← db.insert_exercise e; mret {| success := true; data := Some e |})
      (sent (SelectSessions
               (Sql.and (Sql.eq WorkoutSessions.id (ExerciseInput.sessionId input))
                        (Sql.eq WorkoutSessions.userId (user_id u))) None) d)) as ->.
  { unfold server.upsertWorkoutExercise.
    rewrite (defineAction_accepted _ _ _ _ _ _ Hin).
    unfold server.upsertWorkoutExercise_handler.
    rewrite (await_fulfilled _ _ _ _ _ (requireUser_signed_in u d)).
    rewrite (await_fulfilled _ _ _ _ _ Hget).
    by rewrite Hid. }
  unfold mbind, Async_bind, await, db.insert_exercise. simpl.
  split; intros Hfresh.
  - rewrite has_key_fresh by done. eexists. split; [reflexivity|].
    simpl. repeat split.
    intros e0 He0 Heq. apply Hfresh. rewrite <- Heq. by apply list_elem_of_fmap_2.
  - rewrite has_key_taken by done. eexists. split; [reflexivity|]. done.
Qed.

Lemma upsertWorkoutExercise_inserts_witness :
  ∃ d',
    server.upsertWorkoutExercise
      (Sample.body [("sessionId", VStr "s1"); ("name", VStr "Bench Press")])
      (signed_in Sample.alice) Sample.rt Sample.gym =
      (d', Fulfilled {|
         success := true;
         data := Some {|
           WorkoutExercises.id := "9b2d7c1e-0000-4000-8000-000000000001";
           WorkoutExercises.sessionId := "s1";
           WorkoutExercises.userId := "alice";
           WorkoutExercises.name := "Bench Press";
           WorkoutExercises.category := None;
           WorkoutExercises.sets := None;
           WorkoutExercises.repsPerSet := None;
           WorkoutExercises.weightPerRep := None;
           WorkoutExercises.distanceKm := None;
           WorkoutExercises.durationMinutes := None;
           WorkoutExercises.caloriesBurned := None;
           WorkoutExercises.notes := None;
           WorkoutExercises.createdAt := 1700000000000;
         |} |}) ∧
    length (exercises d') = 5%nat.
Proof.
  destruct (upsertWorkoutExercise_inserts
    (Sample.body [("sessionId", VStr "s1"); ("name", VStr "Bench Press")])
    {| ExerciseInput.id := None; ExerciseInput.sessionId := "s1";
       ExerciseInput.name := "Bench Press"; ExerciseInput.category := None;
       ExerciseInput.sets := None; ExerciseInput.repsPerSet := None;
       ExerciseInput.weightPerRep := None; ExerciseInput.distanceKm := None;
       ExerciseInput.durationMinutes := None; ExerciseInput.caloriesBurned := None;
       ExerciseInput.notes := None |}
    Sample.alice Sample.rt Sample.gym) as [Hfresh _].
  - vm_compute. reflexivity.
  - reflexivity.
  - apply (bool_decide_unpack _). vm_compute. exact I.
  - apply (bool_decide_unpack _). vm_compute. exact I.
  - apply (bool_decide_unpack _). vm_compute. exact I.
  - destruct Hfresh as (d' & Hrun & Hex & _).
    + apply (bool_decide_unpack _). vm_compute. exact I.
    + exists d'. split; [exact Hrun|]. rewrite Hex. reflexivity.
Defined.

Lemma set_updateData_exercise input e :
  WorkoutExercises.set (server.upsertWorkoutExercise_updateData input) e =
  {| WorkoutExercises.id := WorkoutExercises.id e;
     WorkoutExercises.sessionId := ExerciseInput.sessionId input;
     WorkoutExercises.userId := WorkoutExercises.userId e;
     WorkoutExercises.name := ExerciseInput.name input;
     WorkoutExercises.category :=
       or_keep (ExerciseInput.category input) (WorkoutExercises.category e);
     WorkoutExercises.sets := or_keep (ExerciseInput.sets input) (WorkoutExercises.sets e);
     WorkoutExercises.repsPerSet :=
       or_keep (ExerciseInput.repsPerSet input) (WorkoutExercises.repsPerSet e);
     WorkoutExercises.weightPerRep :=
       or_keep (ExerciseInput.weightPerRep input) (WorkoutExercises.weightPerRep e);
     WorkoutExercises.distanceKm :=
       or_keep (ExerciseInput.distanceKm input) (WorkoutExercises.distanceKm e);
     WorkoutExercises.durationMinutes :=
       or_keep (ExerciseInput.durationMinutes input) (WorkoutExercises.durationMinutes e);
     WorkoutExercises.caloriesBurned :=
       or_keep (ExerciseInput.caloriesBurned input) (WorkoutExercises.caloriesBurned e);
     WorkoutExercises.notes := or_keep (ExerciseInput.notes input) (WorkoutExercises.notes e);
     WorkoutExercises.createdAt := WorkoutExercises.createdAt e |}.
Proof.
  unfold WorkoutExercises.set, server.upsertWorkoutExercise_updateData. simpl.
  f_equal; by match goal with |- context [Some <$> ?o] => destruct o end.
Qed.

(** C9. For an exercise [e] of the caller, stored at position [k], and a
    target session of the caller, [upsertWorkoutExercise] with [e]'s id
    keeps [id], [userId] and [createdAt], overwrites [sessionId] and [name]
    with the request's, and overwrites an optional column when the request
    supplies it. Nothing relates the target session to the session [e] was
    under: the exercise moves to any session the caller owns. The stored
    rows are ones the driver can read and the supplied fields ones it binds
    and reads back as supplied. *)
Theorem upsertWorkoutExercise_updates raw input u rt d k e :
  server.upsertWorkoutExercise_input rt raw = Some input →
  ExerciseInput.id input = Some (WorkoutExercises.id e) →
  WorkoutExercises.id e ≠ "" →
  owns_session d (user_id u) (ExerciseInput.sessionId input) →
  NoDup (WorkoutExercises.id <$> exercises d) →
  exercises d !! k = Some e →
  WorkoutExercises.userId e = user_id u →
  readable d →
  storable_exercise input →
  ∃ d' e',
    server.upsertWorkoutExercise raw (signed_in u) rt d =
      (d', Fulfilled {| success := true; data := Some e' |}) ∧
    WorkoutExercises.id e' = WorkoutExercises.id e ∧
    WorkoutExercises.userId e' = WorkoutExercises.userId e ∧
    WorkoutExercises.createdAt e' = WorkoutExercises.createdAt e ∧
    WorkoutExercises.sessionId e' = ExerciseInput.sessionId input ∧
    WorkoutExercises.name e' = ExerciseInput.name input ∧
    WorkoutExercises.category e' =
      or_keep (ExerciseInput.category input) (WorkoutExercises.category e) ∧
    WorkoutExercises.sets e' =
      or_keep (ExerciseInput.sets input) (WorkoutExercises.sets e) ∧
    WorkoutExercises.repsPerSet e' =
      or_keep (ExerciseInput.repsPerSet input) (WorkoutExercises.repsPerSet e) ∧
    WorkoutExercises.weightPerRep e' =
      or_keep (ExerciseInput.weightPerRep input) (WorkoutExercises.weightPerRep e) ∧
    WorkoutExercises.distanceKm e' =
      or_keep (ExerciseInput.distanceKm input) (WorkoutExercises.distanceKm e) ∧
    WorkoutExercises.durationMinutes e' =
      or_keep (ExerciseInput.durationMinutes input) (WorkoutExercises.durationMinutes e) ∧
    WorkoutExercises.caloriesBurned e' =
      or_keep (ExerciseInput.caloriesBurned input) (WorkoutExercises.caloriesBurned e) ∧
    WorkoutExercises.notes e' =
      or_keep (ExerciseInput.notes input) (WorkoutExercises.notes e) ∧
    exercises d' = <[k := e']> (exercises d) ∧
    sessions d' = sessions d.
Proof.
  intros Hin Hid Hne Hown Hnd Hk Hu _ _.
  destruct (getSessionForUser_found _ _ _ Hown) as (s0 & Hget & _).
  pose proof (set_updateData_exercise input e) as Hset.
  set (e' := WorkoutExercises.set (server.upsertWorkoutExercise_updateData input) e) in *.
  eexists. exists e'. split.
  - unfold server.upsertWorkoutExercise.
    rewrite (defineAction_accepted _ _ _ _ _ _ Hin).
    unfold server.upsertWorkoutExercise_handler.
    rewrite (await_fulfilled _ _ _ _ _ (requireUser_signed_in u d)).
    rewrite (await_fulfilled _ _ _ _ _ Hget).
    rewrite Hid.
    assert (truthy (Some (WorkoutExercises.id e)) = Some (WorkoutExercises.id e)) as ->
      by (by destruct (WorkoutExercises.id e)).
    rewrite <- Hu.
    unfold mbind, Async_bind, await, db.update_exercises, db.select_exercises, mret,
      Async_ret, resolve.
    simpl.
    rewrite (selected_unique WorkoutExercises.id WorkoutExercises.userId _ k e Hnd Hk).
    simpl.
    rewrite (updated_unique WorkoutExercises.id WorkoutExercises.userId
               WorkoutExercises.set _ _ k e Hnd Hk).
    fold e'.
    rewrite (selected_after_update WorkoutExercises.id WorkoutExercises.userId
               _ k e e' Hnd Hk); [reflexivity| |]; by rewrite Hset.
  - rewrite Hset. simpl. repeat split.
Qed.

Lemma upsertWorkoutExercise_updates_witness :
  ∃ d' e',
    server.upsertWorkoutExercise
      (Sample.body [("id", VStr "e1"); ("sessionId", VStr "s4"); ("name", VStr "Squat")])
      (signed_in Sample.alice) Sample.rt Sample.gym =
      (d', Fulfilled {| success := true; data := Some e' |}) ∧
    WorkoutExercises.id e' = "e1" ∧
    WorkoutExercises.createdAt e' = 1600000000000 ∧
    WorkoutExercises.sessionId e' = "s4" ∧
    WorkoutExercises.name e' = "Squat".
Proof.
  destruct (upsertWorkoutExercise_updates
    (Sample.body [("id", VStr "e1"); ("sessionId", VStr "s4"); ("name", VStr "Squat")])
    {| ExerciseInput.id := Some "e1"; ExerciseInput.sessionId := "s4";
       ExerciseInput.name := "Squat"; ExerciseInput.category := None;
       ExerciseInput.sets := None; ExerciseInput.repsPerSet := None;
       ExerciseInput.weightPerRep := None; ExerciseInput.distanceKm := None;
       ExerciseInput.durationMinutes := None; ExerciseInput.caloriesBurned := None;
       ExerciseInput.notes := None |}
    Sample.alice Sample.rt Sample.gym 0%nat
    (Sample.exercise "e1" "s1" "alice" "Bench Press"))
    as (d' & e' & Hrun & Hi & _ & Hc & Hs & Hn & _).
  - vm_compute. reflexivity.
  - reflexivity.
  - discriminate.
  - apply (bool_decide_unpack _). vm_compute. exact I.
  - apply (bool_decide_unpack _). vm_compute. exact I.
  - reflexivity.
  - reflexivity.
  - apply (bool_decide_unpack _). vm_compute. exact I.
  - apply (bool_decide_unpack _). vm_compute. exact I.
  - exists d', e'. split; [exact Hrun|]. rewrite Hi, Hc, Hs, Hn. repeat split.
Defined.

(** ** Lookups are scoped by the caller *)

Lemma select_exercises_missing d u i :
  ¬ owns_exercise d u i →
  db.select_exercises
    (Sql.and (Sql.eq WorkoutExercises.id i) (Sql.eq WorkoutExercises.userId u)) d =
    (sent (SelectExercises
             (Sql.and (Sql.eq WorkoutExercises.id i) (Sql.eq WorkoutExercises.userId u))) d,
     Fulfilled []).
Proof.
  intros Hno. unfold db.select_exercises. rewrite selected_nil; [done|].
  intros e He [Hi Hu]. apply Hno. by exists e.
Qed.

(** A caller's record is missing for one of two reasons, which the lookups
    cannot tell apart: no row has the id, or the rows that have it belong to
    others. *)
Lemma not_owned_session d u i :
  ¬ owns_session d u i ↔
  ∀ s, s ∈ sessions d → WorkoutSessions.id s = i → WorkoutSessions.userId s ≠ u.
Proof.
  split.
  - intros Hno s Hs Hi Hu. apply Hno. by exists s.
  - intros Hall (s & Hs & Hi & Hu). by apply (Hall s).
Qed.

Lemma not_owned_exercise d u i :
  ¬ owns_exercise d u i ↔
  ∀ e, e ∈ exercises d → WorkoutExercises.id e = i → WorkoutExercises.userId e ≠ u.
Proof.
  split.
  - intros Hno e He Hi Hu. apply Hno. by exists e.
  - intros Hall (e & He & Hi & Hu). by apply (Hall e).
Qed.

(** The session lookup fails exactly when the caller has no session with
    that id. *)
Lemma getSessionForUser_rejects_iff d u i :
  (getSessionForUser i u d).2 =
    Rejected (ActionError NOT_FOUND "Workout session not found.") ↔
  ¬ owns_session d u i.
Proof.
  split.
  - intros Hrej Hown. destruct (getSessionForUser_found _ _ _ Hown) as (s & Hget & _).
    by rewrite Hget in Hrej.
  - intros Hno. by rewrite getSessionForUser_missing.
Qed.

(** C3. Every lookup by id is a lookup by id and caller. When the caller has
    no session with id [i] (no such row, or a row of another user), the four
    actions that look a session up are rejected with the same NOT_FOUND
    error; when the caller has no exercise with id [i], so are the two
    actions that look an exercise up. [upsertWorkoutExercise] reaches its
    exercise lookup after it has read the target session, a row the driver
    must be able to read; the other five lookups read no row at all. *)
Theorem not_found_scoped_by_caller u rt d i :
  (¬ owns_session d (user_id u) i →
     (∀ raw input,
        server.updateWorkoutSession_input rt raw = Some input →
        UpdateInput.id input = i →
        (server.updateWorkoutSession raw (signed_in u) rt d).2 =
          Rejected (ActionError NOT_FOUND "Workout session not found.")) ∧
     (∀ raw,
        server.id_input rt raw = Some {| IdInput.id := i |} →
        (server.deleteWorkoutSession raw (signed_in u) rt d).2 =
          Rejected (ActionError NOT_FOUND "Workout session not found.")) ∧
     (∀ raw,
        server.id_input rt raw = Some {| IdInput.id := i |} →
        (server.getWorkoutSessionWithExercises raw (signed_in u) rt d).2 =
          Rejected (ActionError NOT_FOUND "Workout session not found.")) ∧
     (∀ raw input,
        server.upsertWorkoutExercise_input rt raw = Some input →
        ExerciseInput.sessionId input = i →
        (server.upsertWorkoutExercise raw (signed_in u) rt d).2 =
          Rejected (ActionError NOT_FOUND "Workout session not found."))) ∧
  (¬ owns_exercise d (user_id u) i →
     (∀ raw input,
        server.upsertWorkoutExercise_input rt raw = Some input →
        ExerciseInput.id input = Some i → i ≠ "" →
        owns_session d (user_id u) (ExerciseInput.sessionId input) →
        readable d →
        (server.upsertWorkoutExercise raw (signed_in u) rt d).2 =
          Rejected (ActionError NOT_FOUND "Workout exercise not found.")) ∧
     (∀ raw,
        server.id_input rt raw = Some {| IdInput.id := i |} →
        (server.deleteWorkoutExercise raw (signed_in u) rt d).2 =
          Rejected (ActionError NOT_FOUND "Workout exercise not found."))).
Proof.
  split.
  - intros Hno. repeat split.
    + intros raw input Hin <-. unfold server.updateWorkoutSession.
      rewrite (defineAction_accepted _ _ _ _ _ _ Hin).
      unfold server.updateWorkoutSession_handler.
      rewrite (await_fulfilled _ _ _ _ _ (requireUser_signed_in u d)).
      by rewrite (await_rejected _ _ _ _ _ (getSessionForUser_missing _ _ _ Hno)).
    + intros raw Hin. unfold server.deleteWorkoutSession.
      rewrite (defineAction_accepted _ _ _ _ _ _ Hin).
      unfold server.deleteWorkoutSession_handler.
      rewrite (await_fulfilled _ _ _ _ _ (requireUser_signed_in u d)).
      by rewrite (await_rejected _ _ _ _ _ (getSessionForUser_missing _ _ _ Hno)).
    + intros raw Hin. unfold server.getWorkoutSessionWithExercises.
      rewrite (defineAction_accepted _ _ _ _ _ _ Hin).
      unfold server.getWorkoutSessionWithExercises_handler.
      rewrite (await_fulfilled _ _ _ _ _ (requireUser_signed_in u d)).
      by rewrite (await_rejected _ _ _ _ _ (getSessionForUser_missing _ _ _ Hno)).
    + intros raw input Hin <-. unfold server.upsertWorkoutExercise.
      rewrite (defineAction_accepted _ _ _ _ _ _ Hin).
      unfold server.upsertWorkoutExercise_handler.
      rewrite (await_fulfilled _ _ _ _ _ (requireUser_signed_in u d)).
      by rewrite (await_rejected _ _ _ _ _ (getSessionForUser_missing _ _ _ Hno)).
  - intros Hno. split.
    + intros raw input Hin Hid Hne Hown _.
      destruct (getSessionForUser_found _ _ _ Hown) as (s0 & Hget & _).
      unfold server.upsertWorkoutExercise.
      rewrite (defineAction_accepted _ _ _ _ _ _ Hin).
      unfold server.upsertWorkoutExercise_handler.
      rewrite (await_fulfilled _ _ _ _ _ (requireUser_signed_in u d)).
      rewrite (await_fulfilled _ _ _ _ _ Hget).
      rewrite Hid.
      assert (truthy (Some i) = Some i) as -> by (by destruct i).
      assert (¬ owns_exercise
        (sent (SelectSessions
           (Sql.and (Sql.eq WorkoutSessions.id (ExerciseInput.sessionId input))
                    (Sql.eq WorkoutSessions.userId (user_id u))) None) d)
        (user_id u) i) as Hno' by done.
      by rewrite (await_fulfilled _ _ _ _ _ (select_exercises_missing _ _ _ Hno')).
    + intros raw Hin. unfold server.deleteWorkoutExercise.
      rewrite (defineAction_accepted _ _ _ _ _ _ Hin).
      unfold server.deleteWorkoutExercise_handler.
      rewrite (await_fulfilled _ _ _ _ _ (requireUser_signed_in u d)).
      by rewrite (await_fulfilled _ _ _ _ _ (select_exercises_missing _ _ _ Hno)).
Qed.

Lemma not_found_scoped_by_caller_witness :
  (server.deleteWorkoutSession (Sample.body [("id", VStr "s2")])
     (signed_in Sample.alice) Sample.rt Sample.gym).2 =
  (server.deleteWorkoutSession (Sample.body [("id", VStr "s9")])
     (signed_in Sample.alice) Sample.rt Sample.gym).2 ∧
  (server.deleteWorkoutExercise (Sample.body [("id", VStr "e2")])
     (signed_in Sample.alice) Sample.rt Sample.gym).2 =
  (server.deleteWorkoutExercise (Sample.body [("id", VStr "e9")])
     (signed_in Sample.alice) Sample.rt Sample.gym).2.
Proof.
  assert (∀ i, ¬ owns_session Sample.gym "alice" i → ¬ owns_exercise Sample.gym "alice" i →
    (server.deleteWorkoutSession (Sample.body [("id", VStr i)])
       (signed_in Sample.alice) Sample.rt Sample.gym).2 =
      Rejected (ActionError NOT_FOUND "Workout session not found.") ∧
    (server.deleteWorkoutExercise (Sample.body [("id", VStr i)])
       (signed_in Sample.alice) Sample.rt Sample.gym).2 =
      Rejected (ActionError NOT_FOUND "Workout exercise not found.")) as Hboth.
  { intros i Hs He.
    destruct (not_found_scoped_by_caller Sample.alice Sample.rt Sample.gym i)
      as [Hsession Hexercise].
    destruct (Hsession Hs) as (_ & Hdel & _). destruct (Hexercise He) as (_ & Hdelx).
    split; [apply Hdel | apply Hdelx]; reflexivity. }
  split.
  - transitivity (@Rejected (Envelope string)
      (ActionError NOT_FOUND "Workout session not found.")).
    + apply (Hboth "s2"); apply (bool_decide_unpack _); vm_compute; exact I.
    + symmetry. apply (Hboth "s9"); apply (bool_decide_unpack _); vm_compute; exact I.
  - transitivity (@Rejected (Envelope string)
      (ActionError NOT_FOUND "Workout exercise not found.")).
    + apply (Hboth "e2"); apply (bool_decide_unpack _); vm_compute; exact I.
    + symmetry. apply (Hboth "e9"); apply (bool_decide_unpack _); vm_compute; exact I.
Defined.

(** ** Order of the checks *)

(** No caller resolved: [locals] absent, or present without a [user]. *)
Lemma anonymous_handler_rejected {I O}
    (handler : I -> ActionAPIContext -> Runtime -> Async O) (k : User -> Async O)
    i context rt d :
  locals context ≫= user = None →
  handler i context rt = (requireUser context ≫= k) →
  handler i context rt d =
    (d, Rejected (ActionError UNAUTHORIZED "You must be signed in to perform this action.")).
Proof.
  intros Hanon ->. by rewrite (await_rejected _ _ _ _ _ (requireUser_anonymous _ d Hanon)).
Qed.

(** C10. The schema is checked before the handler asks who the caller is. A
    request to [upsertWorkoutExercise] with an empty [name], or with [sets]
    that is not positive, and no caller is rejected as invalid input, not as
    unauthorized; more generally each of the seven actions rejects a body
    its schema refuses as invalid input whoever calls, sending no statement,
    and rejects a body its schema accepts as unauthorized when no caller is
    resolved. *)
Theorem invalid_input_precedes_authorization rt d :
  (∀ context,
     server.upsertWorkoutExercise
       (Sample.body [("sessionId", VStr "s1"); ("name", VStr "")]) context rt d =
       (d, Rejected ActionInputError) ∧
     server.upsertWorkoutExercise
       (Sample.body [("sessionId", VStr "s1"); ("name", VStr "Bench Press");
                     ("sets", VNum (Finite (inject_Z 0)))]) context rt d =
       (d, Rejected ActionInputError) ∧
     server.upsertWorkoutExercise
       (Sample.body [("sessionId", VStr "s1"); ("name", VStr "Bench Press");
                     ("sets", VNum (Finite (inject_Z 3)))]) {| locals := None |} rt d =
       (d, Rejected (ActionError UNAUTHORIZED
                       "You must be signed in to perform this action."))) ∧
  (∀ raw context,
     (server.createWorkoutSession_input rt raw = None →
      server.createWorkoutSession raw context rt d = (d, Rejected ActionInputError)) ∧
     (server.updateWorkoutSession_input rt raw = None →
      server.updateWorkoutSession raw context rt d = (d, Rejected ActionInputError)) ∧
     (server.id_input rt raw = None →
      server.deleteWorkoutSession raw context rt d = (d, Rejected ActionInputError)) ∧
     (server.listMyWorkoutSessions_input rt raw = None →
      server.listMyWorkoutSessions raw context rt d = (d, Rejected ActionInputError)) ∧
     (server.id_input rt raw = None →
      server.getWorkoutSessionWithExercises raw context rt d =
        (d, Rejected ActionInputError)) ∧
     (server.upsertWorkoutExercise_input rt raw = None →
      server.upsertWorkoutExercise raw context rt d = (d, Rejected ActionInputError)) ∧
     (server.id_input rt raw = None →
      server.deleteWorkoutExercise raw context rt d = (d, Rejected ActionInputError))) ∧
  (∀ raw context,
     locals context ≫= user = None →
     let unauthorized {A} : Db * Settled A :=
       (d, Rejected (ActionError UNAUTHORIZED
                       "You must be signed in to perform this action.")) in
     (is_Some (server.createWorkoutSession_input rt raw) →
      server.createWorkoutSession raw context rt d = unauthorized) ∧
     (is_Some (server.updateWorkoutSession_input rt raw) →
      server.updateWorkoutSession raw context rt d = unauthorized) ∧
     (is_Some (server.id_input rt raw) →
      server.deleteWorkoutSession raw context rt d = unauthorized) ∧
     (is_Some (server.listMyWorkoutSessions_input rt raw) →
      server.listMyWorkoutSessions raw context rt d = unauthorized) ∧
     (is_Some (server.id_input rt raw) →
      server.getWorkoutSessionWithExercises raw context rt d = unauthorized) ∧
     (is_Some (server.upsertWorkoutExercise_input rt raw) →
      server.upsertWorkoutExercise raw context rt d = unauthorized) ∧
     (is_Some (server.id_input rt raw) →
      server.deleteWorkoutExercise raw context rt d = unauthorized)).
Proof.
  split; [|split].
  - intros context. repeat split; reflexivity.
  - intros raw context. repeat split; intros Hno; by apply defineAction_rejected.
  - intros raw context Hanon unauthorized.
    repeat split; intros [i Hin];
      match goal with
      | |- ?action raw context rt d = _ =>
          unfold action; rewrite (defineAction_accepted _ _ _ _ _ _ Hin)
      end;
      by eapply anonymous_handler_rejected.
Qed.

Lemma invalid_input_precedes_authorization_witness :
  server.createWorkoutSession
    (Sample.body [("totalDurationMinutes", VNum (Finite (inject_Z 0)))])
    {| locals := None |} Sample.rt Sample.gym =
    (Sample.gym, Rejected ActionInputError) ∧
  server.createWorkoutSession
    (Sample.body [("totalDurationMinutes", VNum (Finite (inject_Z 30)))])
    {| locals := None |} Sample.rt Sample.gym =
    (Sample.gym, Rejected (ActionError UNAUTHORIZED
                             "You must be signed in to perform this action.")).
Proof.
  destruct (invalid_input_precedes_authorization Sample.rt Sample.gym)
    as (_ & Hinvalid & Hanonymous).
  split.
  - apply Hinvalid. vm_compute. reflexivity.
  - apply Hanonymous; [reflexivity|]. vm_compute. eexists. reflexivity.
Defined.

(** * The walk-through of the specification *)

Example walk_through_outcome :
  Sample.walk_through =
  (Fulfilled {|
     success := true;
     data := {|
       WorkoutSessions.id := "id-1";
       WorkoutSessions.userId := "alice";
       WorkoutSessions.title := Some "Push Day";
       WorkoutSessions.workoutDate := 100;
       WorkoutSessions.startTime := None;
       WorkoutSessions.endTime := None;
       WorkoutSessions.workoutType := None;
       WorkoutSessions.notes := None;
       WorkoutSessions.totalDurationMinutes := None;
       WorkoutSessions.totalCalories := None;
       WorkoutSessions.createdAt := 100;
       WorkoutSessions.updatedAt := 100;
     |} |},
   Fulfilled {|
     success := true;
     data := Some {|
       WorkoutExercises.id := "id-2";
       WorkoutExercises.sessionId := "id-1";
       WorkoutExercises.userId := "alice";
       WorkoutExercises.name := "Bench Press";
       WorkoutExercises.category := None;
       WorkoutExercises.sets := Some 3;
       WorkoutExercises.repsPerSet := Some 8;
       WorkoutExercises.weightPerRep := Some (Finite (inject_Z 60));
       WorkoutExercises.distanceKm := None;
       WorkoutExercises.durationMinutes := None;
       WorkoutExercises.caloriesBurned := None;
       WorkoutExercises.notes := None;
       WorkoutExercises.createdAt := 200;
     |} |},
   Fulfilled {| success := true; data := "id-1" |},
   Rejected (ActionError NOT_FOUND "Workout session not found."),
   [{|
      WorkoutExercises.id := "id-2";
      WorkoutExercises.sessionId := "id-1";
      WorkoutExercises.userId := "alice";
      WorkoutExercises.name := "Bench Press";
      WorkoutExercises.category := None;
      WorkoutExercises.sets := Some 3;
      WorkoutExercises.repsPerSet := Some 8;
      WorkoutExercises.weightPerRep := Some (Finite (inject_Z 60));
      WorkoutExercises.distanceKm := None;
      WorkoutExercises.durationMinutes := None;
      WorkoutExercises.caloriesBurned := None;
      WorkoutExercises.notes := None;
      WorkoutExercises.createdAt := 200;
    |}],
   []).
Proof. vm_compute. reflexivity. Qed.

(** * What the schemas let through *)

Example page_must_be_positive :
  server.listMyWorkoutSessions_input Sample.rt
    (Sample.body [("page", VNum (Finite (inject_Z 0)))]) = None.
Proof. reflexivity. Qed.

Example page_must_be_an_integer :
  server.listMyWorkoutSessions_input Sample.rt
    (Sample.body [("page", VNum (Finite (Qmake 3 2)))]) = None.
Proof. reflexivity. Qed.

Example pageSize_is_at_most_100 :
  server.listMyWorkoutSessions_input Sample.rt
    (Sample.body [("pageSize", VNum (Finite (inject_Z 100)))]) =
    Some {| ListInput.page := 1; ListInput.pageSize := 100 |} ∧
  server.listMyWorkoutSessions_input Sample.rt
    (Sample.body [("pageSize", VNum (Finite (inject_Z 101)))]) = None.
Proof. split; reflexivity. Qed.

Example weight_may_be_fractional_but_not_zero :
  is_Some (server.upsertWorkoutExercise_input Sample.rt
    (Sample.body [("sessionId", VStr "s1"); ("name", VStr "Row");
                  ("weightPerRep", VNum (Finite (Qmake 1 2)))])) ∧
  server.upsertWorkoutExercise_input Sample.rt
    (Sample.body [("sessionId", VStr "s1"); ("name", VStr "Row");
                  ("weightPerRep", VNum (Finite (inject_Z 0)))]) = None.
Proof. split; [by eexists | reflexivity]. Qed.

(** An empty [id] passes the schema and is falsy in the handler: the request
    inserts. *)
Example empty_id_inserts :
  ∃ d' e,
    server.upsertWorkoutExercise
      (Sample.body [("id", VStr ""); ("sessionId", VStr "s1"); ("name", VStr "Row")])
      (signed_in Sample.alice) Sample.rt Sample.gym =
      (d', Fulfilled {| success := true; data := Some e |}) ∧
    WorkoutExercises.id e = randomUUID Sample.rt ∧
    length (exercises d') = 5%nat.
Proof. eexists. eexists. split; [vm_compute; reflexivity|]. split; reflexivity. Qed.

(** * Further properties *)

(** ** Shared facts *)

(** Under the primary key the session lookup returns the caller's row
    itself. *)
Lemma getSessionForUser_unique d k s :
  NoDup (WorkoutSessions.id <$> sessions d) →
  sessions d !! k = Some s →
  getSessionForUser (WorkoutSessions.id s) (WorkoutSessions.userId s) d =
    (sent (SelectSessions
             (Sql.and (Sql.eq WorkoutSessions.id (WorkoutSessions.id s))
                      (Sql.eq WorkoutSessions.userId (WorkoutSessions.userId s))) None) d,
     Fulfilled s).
Proof.
  intros Hnd Hk.
  unfold getSessionForUser, mbind, Async_bind, await, db.select_sessions. simpl.
  by rewrite (selected_unique WorkoutSessions.id WorkoutSessions.userId _ k s Hnd Hk).
Qed.

Lemma filter_all {A} (P : A → Prop) `{∀ x, Decision (P x)} (l : list A) :
  (∀ x, x ∈ l → P x) → filter P l = l.
Proof.
  induction l as [|x l IH]; intros Hall; [done|].
  rewrite filter_cons, decide_True by (apply Hall; left).
  f_equal. apply IH. intros y Hy. apply Hall. by right.
Qed.

Lemma deleted_unique {R} (key owner : R -> string) (l : list R) (k : nat) (s : R) :
  NoDup (key <$> l) → l !! k = Some s →
  deleted (Sql.and (Sql.eq key (key s)) (Sql.eq owner (owner s))) l = delete k l.
Proof.
  revert k. induction l as [|x l IH]; intros k Hnd Hk; [done|].
  rewrite fmap_cons in Hnd. apply NoDup_cons in Hnd as [Hx Hnd].
  unfold deleted in *. rewrite filter_cons.
  destruct k as [|k]; simpl in Hk.
  - injection Hk as ->. rewrite decide_False by (intros Hno; apply Hno; by split).
    simpl. apply filter_all. intros r Hr [Hkey _].
    simpl in Hkey. apply Hx. rewrite <- Hkey. by apply list_elem_of_fmap_2.
  - rewrite decide_True.
    + simpl. f_equal. by apply IH.
    + intros [Hkey _]. simpl in Hkey. apply Hx. rewrite Hkey.
      apply list_elem_of_fmap_2. by eapply list_elem_of_lookup_2.
Qed.

(** ** Reading a session with its exercises *)

(** X1. For a session [s] of the caller, [getWorkoutSessionWithExercises]
    returns [s] and the exercises that are under it and owned by the caller,
    all of them and no other, in storage order. It sends two SELECTs and
    leaves both tables as they were. The stored rows are ones the driver can
    read. *)
Theorem getWorkoutSessionWithExercises_returns raw u rt d k s :
  server.id_input rt raw = Some {| IdInput.id := WorkoutSessions.id s |} →
  NoDup (WorkoutSessions.id <$> sessions d) →
  sessions d !! k = Some s →
  WorkoutSessions.userId s = user_id u →
  readable d →
  ∃ d',
    server.getWorkoutSessionWithExercises raw (signed_in u) rt d =
      (d', Fulfilled {|
         success := true;
         data := {|
           SessionWithExercises.session := s;
           SessionWithExercises.exercises :=
             filter (fun e => WorkoutExercises.sessionId e = WorkoutSessions.id s ∧
                              WorkoutExercises.userId e = user_id u) (exercises d);
         |} |}) ∧
    sessions d' = sessions d ∧
    exercises d' = exercises d ∧
    journal d' = journal d ++
      [SelectSessions
         (Sql.and (Sql.eq WorkoutSessions.id (WorkoutSessions.id s))
                  (Sql.eq WorkoutSessions.userId (user_id u))) None;
       SelectExercises
         (Sql.and (Sql.eq WorkoutExercises.sessionId (WorkoutSessions.id s))
                  (Sql.eq WorkoutExercises.userId (user_id u)))].
Proof.
  intros Hin Hnd Hk Hu _.
  pose proof (getSessionForUser_unique d k s Hnd Hk) as Hget. rewrite Hu in Hget.
  eexists. split.
  { unfold server.getWorkoutSessionWithExercises.
    rewrite (defineAction_accepted _ _ _ _ _ _ Hin).
    unfold server.getWorkoutSessionWithExercises_handler.
    rewrite (await_fulfilled _ _ _ _ _ (requireUser_signed_in u d)).
    rewrite (await_fulfilled _ _ _ _ _ Hget).
    reflexivity. }
  simpl. repeat split. by rewrite <- app_assoc.
Qed.

Lemma getWorkoutSessionWithExercises_returns_witness :
  ∃ d',
    server.getWorkoutSessionWithExercises (Sample.body [("id", VStr "s1")])
      (signed_in Sample.alice) Sample.rt Sample.gym =
      (d', Fulfilled {|
         success := true;
         data := {|
           SessionWithExercises.session :=
             Sample.session "s1" "alice" "Push Day" 1600000000000;
           SessionWithExercises.exercises :=
             [Sample.exercise "e1" "s1" "alice" "Bench Press";
              Sample.exercise "e4" "s1" "alice" "Overhead Press"];
         |} |}).
Proof.
  destruct (getWorkoutSessionWithExercises_returns (Sample.body [("id", VStr "s1")])
    Sample.alice Sample.rt Sample.gym 0%nat
    (Sample.session "s1" "alice" "Push Day" 1600000000000)) as (d' & Hrun & _).
  - vm_compute. reflexivity.
  - apply (bool_decide_unpack _). vm_compute. exact I.
  - reflexivity.
  - reflexivity.
  - apply (bool_decide_unpack _). vm_compute. exact I.
  - exists d'. rewrite Hrun. reflexivity.
Defined.

(** ** Deleting an exercise *)

Lemma select_exercises_unique d k e :
  NoDup (WorkoutExercises.id <$> exercises d) →
  exercises d !! k = Some e →
  db.select_exercises
    (Sql.and (Sql.eq WorkoutExercises.id (WorkoutExercises.id e))
             (Sql.eq WorkoutExercises.userId (WorkoutExercises.userId e))) d =
    (sent (SelectExercises
             (Sql.and (Sql.eq WorkoutExercises.id (WorkoutExercises.id e))
                      (Sql.eq WorkoutExercises.userId (WorkoutExercises.userId e)))) d,
     Fulfilled [e]).
Proof.
  intros Hnd Hk. unfold db.select_exercises.
  by rewrite (selected_unique WorkoutExercises.id WorkoutExercises.userId _ k e Hnd Hk).
Qed.

(** X2. For an exercise [e] of the caller, stored at position [k],
    [deleteWorkoutExercise] removes the row at [k] and nothing else, returns
    the id, and leaves the sessions as they were; the caller no longer has an
    exercise with that id. The stored rows are ones the driver can read. *)
Theorem deleteWorkoutExercise_removes_one raw u rt d k e :
  server.id_input rt raw = Some {| IdInput.id := WorkoutExercises.id e |} →
  NoDup (WorkoutExercises.id <$> exercises d) →
  exercises d !! k = Some e →
  WorkoutExercises.userId e = user_id u →
  readable d →
  ∃ d',
    server.deleteWorkoutExercise raw (signed_in u) rt d =
      (d', Fulfilled {| success := true; data := WorkoutExercises.id e |}) ∧
    exercises d' = delete k (exercises d) ∧
    sessions d' = sessions d ∧
    ¬ owns_exercise d' (user_id u) (WorkoutExercises.id e) ∧
    journal d' = journal d ++
      [SelectExercises
         (Sql.and (Sql.eq WorkoutExercises.id (WorkoutExercises.id e))
                  (Sql.eq WorkoutExercises.userId (user_id u)));
       DeleteExercises
         (Sql.and (Sql.eq WorkoutExercises.id (WorkoutExercises.id e))
                  (Sql.eq WorkoutExercises.userId (user_id u)))].
Proof.
  intros Hin Hnd Hk Hu _.
  pose proof (select_exercises_unique d k e Hnd Hk) as Hsel.
  pose proof (deleted_unique WorkoutExercises.id WorkoutExercises.userId _ k e Hnd Hk)
    as Hdel.
  rewrite Hu in Hsel, Hdel.
  eexists. split.
  { unfold server.deleteWorkoutExercise.
    rewrite (defineAction_accepted _ _ _ _ _ _ Hin).
    unfold server.deleteWorkoutExercise_handler.
    rewrite (await_fulfilled _ _ _ _ _ (requireUser_signed_in u d)).
    rewrite (await_fulfilled _ _ _ _ _ Hsel).
    reflexivity. }
  simpl. rewrite Hdel. repeat split.
  - intros (e0 & He0 & Hi & Ho). rewrite <- Hdel in He0.
    apply deleted_elem_of in He0 as [_ Hkeep]. by apply Hkeep.
  - by rewrite <- app_assoc.
Qed.

Lemma deleteWorkoutExercise_removes_one_witness :
  ∃ d',
    server.deleteWorkoutExercise (Sample.body [("id", VStr "e3")])
      (signed_in Sample.alice) Sample.rt Sample.gym =
      (d', Fulfilled {| success := true; data := "e3" |}) ∧
    exercises d' =
      [Sample.exercise "e1" "s1" "alice" "Bench Press";
       Sample.exercise "e2" "s2" "bob" "Running";
       Sample.exercise "e4" "s1" "alice" "Overhead Press"].
Proof.
  destruct (deleteWorkoutExercise_removes_one (Sample.body [("id", VStr "e3")])
    Sample.alice Sample.rt Sample.gym 2%nat
    (Sample.exercise "e3" "s3" "alice" "Barbell Row")) as (d' & Hrun & Hex & _).
  - vm_compute. reflexivity.
  - apply (bool_decide_unpack _). vm_compute. exact I.
  - reflexivity.
  - reflexivity.
  - apply (bool_decide_unpack _). vm_compute. exact I.
  - exists d'. split; [exact Hrun|]. rewrite Hex. reflexivity.
Defined.

(** ** After a deletion *)

Lemma deleteWorkoutSession_missing raw i u rt d :
  server.id_input rt raw = Some {| IdInput.id := i |} →
  ¬ owns_session d (user_id u) i →
  (server.deleteWorkoutSession raw (signed_in u) rt d).2 =
    Rejected (ActionError NOT_FOUND "Workout session not found.").
Proof.
  intros Hin Hno. unfold server.deleteWorkoutSession.
  rewrite (defineAction_accepted _ _ _ _ _ _ Hin).
  unfold server.deleteWorkoutSession_handler.
  rewrite (await_fulfilled _ _ _ _ _ (requireUser_signed_in u d)).
  by rewrite (await_rejected _ _ _ _ _ (getSessionForUser_missing _ _ _ Hno)).
Qed.

Lemma getWorkoutSessionWithExercises_missing raw i u rt d :
  server.id_input rt raw = Some {| IdInput.id := i |} →
  ¬ owns_session d (user_id u) i →
  (server.getWorkoutSessionWithExercises raw (signed_in u) rt d).2 =
    Rejected (ActionError NOT_FOUND "Workout session not found.").
Proof.
  intros Hin Hno. unfold server.getWorkoutSessionWithExercises.
  rewrite (defineAction_accepted _ _ _ _ _ _ Hin).
  unfold server.getWorkoutSessionWithExercises_handler.
  rewrite (await_fulfilled _ _ _ _ _ (requireUser_signed_in u d)).
  by rewrite (await_rejected _ _ _ _ _ (getSessionForUser_missing _ _ _ Hno)).
Qed.

Lemma upsertWorkoutExercise_session_missing raw input u rt d :
  server.upsertWorkoutExercise_input rt raw = Some input →
  ¬ owns_session d (user_id u) (ExerciseInput.sessionId input) →
  (server.upsertWorkoutExercise raw (signed_in u) rt d).2 =
    Rejected (ActionError NOT_FOUND "Workout session not found.").
Proof.
  intros Hin Hno. unfold server.upsertWorkoutExercise.
  rewrite (defineAction_accepted _ _ _ _ _ _ Hin).
  unfold server.upsertWorkoutExercise_handler.
  rewrite (await_fulfilled _ _ _ _ _ (requireUser_signed_in u d)).
  by rewrite (await_rejected _ _ _ _ _ (getSessionForUser_missing _ _ _ Hno)).
Qed.

Lemma deleteWorkoutExercise_missing raw i u rt d :
  server.id_input rt raw = Some {| IdInput.id := i |} →
  ¬ owns_exercise d (user_id u) i →
  (server.deleteWorkoutExercise raw (signed_in u) rt d).2 =
    Rejected (ActionError NOT_FOUND "Workout exercise not found.").
Proof.
  intros Hin Hno. unfold server.deleteWorkoutExercise.
  rewrite (defineAction_accepted _ _ _ _ _ _ Hin).
  unfold server.deleteWorkoutExercise_handler.
  rewrite (await_fulfilled _ _ _ _ _ (requireUser_signed_in u d)).
  by rewrite (await_fulfilled _ _ _ _ _ (select_exercises_missing _ _ _ Hno)).
Qed.

(** An upsert that names an exercise the caller does not have is rejected
    with NOT_FOUND, by the session check or by the exercise check. *)
Lemma upsertWorkoutExercise_exercise_missing raw input i u rt d :
  server.upsertWorkoutExercise_input rt raw = Some input →
  ExerciseInput.id input = Some i → i ≠ "" →
  ¬ owns_exercise d (user_id u) i →
  ∃ message,
    (server.upsertWorkoutExercise raw (signed_in u) rt d).2 =
      Rejected (ActionError NOT_FOUND message).
Proof.
  intros Hin Hid Hne Hno.
  destruct (decide (owns_session d (user_id u) (ExerciseInput.sessionId input)))
    as [Hown|Hmiss].
  - destruct (getSessionForUser_found _ _ _ Hown) as (s0 & Hget & _).
    eexists. unfold server.upsertWorkoutExercise.
    rewrite (defineAction_accepted _ _ _ _ _ _ Hin).
    unfold server.upsertWorkoutExercise_handler.
    rewrite (await_fulfilled _ _ _ _ _ (requireUser_signed_in u d)).
    rewrite (await_fulfilled _ _ _ _ _ Hget).
    rewrite Hid.
    assert (truthy (Some i) = Some i) as -> by (by destruct i).
    assert (¬ owns_exercise
      (sent (SelectSessions
         (Sql.and (Sql.eq WorkoutSessions.id (ExerciseInput.sessionId input))
                  (Sql.eq WorkoutSessions.userId (user_id u))) None) d)
      (user_id u) i) as Hno' by done.
    by rewrite (await_fulfilled _ _ _ _ _ (select_exercises_missing _ _ _ Hno')).
  - eexists. by eapply upsertWorkoutExercise_session_missing.
Qed.

(** The database a fulfilled [deleteWorkoutSession] leaves. *)
Lemma deleteWorkoutSession_run raw i u rt d :
  server.id_input rt raw = Some {| IdInput.id := i |} →
  owns_session d (user_id u) i →
  ∃ d',
    server.deleteWorkoutSession raw (signed_in u) rt d =
      (d', Fulfilled {| success := true; data := i |}) ∧
    exercises d' =
      deleted (Sql.and (Sql.eq WorkoutExercises.sessionId i)
                       (Sql.eq WorkoutExercises.userId (user_id u))) (exercises d) ∧
    sessions d' =
      deleted (Sql.and (Sql.eq WorkoutSessions.id i)
                       (Sql.eq WorkoutSessions.userId (user_id u))) (sessions d).
Proof.
  intros Hin Hown.
  destruct (getSessionForUser_found _ _ _ Hown) as (s0 & Hget & _).
  eexists. split.
  { unfold server.deleteWorkoutSession.
    rewrite (defineAction_accepted _ _ _ _ _ _ Hin).
    unfold server.deleteWorkoutSession_handler.
    rewrite (await_fulfilled _ _ _ _ _ (requireUser_signed_in u d)).
    rewrite (await_fulfilled _ _ _ _ _ Hget).
    reflexivity. }
  done.
Qed.

(** X3. Once [deleteWorkoutSession] has been fulfilled it has returned the
    id, and the session is gone for its owner: reading it, deleting it again
    and adding or moving an exercise to it are all rejected with NOT_FOUND,
    and the caller has no exercise left under it. *)
Theorem deleted_session_is_gone raw i u rt d d' r :
  server.id_input rt raw = Some {| IdInput.id := i |} →
  server.deleteWorkoutSession raw (signed_in u) rt d = (d', Fulfilled r) →
  r = {| success := true; data := i |} ∧
  (∀ raw' rt',
     server.id_input rt' raw' = Some {| IdInput.id := i |} →
     (server.getWorkoutSessionWithExercises raw' (signed_in u) rt' d').2 =
       Rejected (ActionError NOT_FOUND "Workout session not found.") ∧
     (server.deleteWorkoutSession raw' (signed_in u) rt' d').2 =
       Rejected (ActionError NOT_FOUND "Workout session not found.")) ∧
  (∀ raw' input rt',
     server.upsertWorkoutExercise_input rt' raw' = Some input →
     ExerciseInput.sessionId input = i →
     (server.upsertWorkoutExercise raw' (signed_in u) rt' d').2 =
       Rejected (ActionError NOT_FOUND "Workout session not found.")) ∧
  (∀ e, e ∈ exercises d' →
     WorkoutExercises.userId e = user_id u → WorkoutExercises.sessionId e ≠ i).
Proof.
  intros Hin Hdone.
  destruct (decide (owns_session d (user_id u) i)) as [Hown|Hmiss]; cycle 1.
  { pose proof (deleteWorkoutSession_missing _ _ _ _ _ Hin Hmiss) as Hrej.
    by rewrite Hdone in Hrej. }
  destruct (deleteWorkoutSession_run _ _ _ _ _ Hin Hown) as (d0 & Hrun & Hex & Hss).
  rewrite Hdone in Hrun. injection Hrun as <- ->.
  assert (¬ owns_session d' (user_id u) i) as Hgone.
  { intros (s & Hs & Hi & Hu). rewrite Hss in Hs.
    apply deleted_elem_of in Hs as [_ Hkeep]. by apply Hkeep. }
  split; [done|]. split; [|split].
  - intros raw' rt' Hin'. split.
    + by eapply getWorkoutSessionWithExercises_missing.
    + by eapply deleteWorkoutSession_missing.
  - intros raw' input rt' Hin' <-. by eapply upsertWorkoutExercise_session_missing.
  - intros e He Hu Hi. rewrite Hex in He.
    apply deleted_elem_of in He as [_ Hkeep]. by apply Hkeep.
Qed.

Lemma deleted_session_is_gone_witness :
  ∃ d',
    server.deleteWorkoutSession (Sample.body [("id", VStr "s1")])
      (signed_in Sample.alice) Sample.rt Sample.gym =
      (d', Fulfilled {| success := true; data := "s1" |}) ∧
    (server.getWorkoutSessionWithExercises (Sample.body [("id", VStr "s1")])
       (signed_in Sample.alice) Sample.rt d').2 =
      Rejected (ActionError NOT_FOUND "Workout session not found.").
Proof.
  destruct (deleted_session_is_gone (Sample.body [("id", VStr "s1")]) "s1"
    Sample.alice Sample.rt Sample.gym
    (server.deleteWorkoutSession (Sample.body [("id", VStr "s1")])
       (signed_in Sample.alice) Sample.rt Sample.gym).1
    {| success := true; data := "s1" |}) as (_ & Hread & _).
  - vm_compute. reflexivity.
  - vm_compute. reflexivity.
  - eexists. split; [vm_compute; reflexivity|].
    apply (Hread (Sample.body [("id", VStr "s1")]) Sample.rt). vm_compute. reflexivity.
Defined.

(** X4. Once [deleteWorkoutExercise] has been fulfilled it has returned the
    id and left the sessions alone, and the caller has no exercise with that
    id: deleting it again is rejected with NOT_FOUND, and so is updating it,
    by the session check or by the exercise check, when the stored rows are
    ones the driver can read. *)
Theorem deleted_exercise_is_gone raw i u rt d d' r :
  server.id_input rt raw = Some {| IdInput.id := i |} →
  server.deleteWorkoutExercise raw (signed_in u) rt d = (d', Fulfilled r) →
  r = {| success := true; data := i |} ∧
  sessions d' = sessions d ∧
  (∀ raw' rt',
     server.id_input rt' raw' = Some {| IdInput.id := i |} →
     (server.deleteWorkoutExercise raw' (signed_in u) rt' d').2 =
       Rejected (ActionError NOT_FOUND "Workout exercise not found.")) ∧
  (∀ raw' input rt',
     server.upsertWorkoutExercise_input rt' raw' = Some input →
     ExerciseInput.id input = Some i → i ≠ "" →
     readable d' →
     ∃ message,
       (server.upsertWorkoutExercise raw' (signed_in u) rt' d').2 =
         Rejected (ActionError NOT_FOUND message)).
Proof.
  intros Hin Hdone.
  destruct (decide (owns_exercise d (user_id u) i)) as [Hown|Hmiss]; cycle 1.
  { pose proof (deleteWorkoutExercise_missing _ _ _ _ _ Hin Hmiss) as Hrej.
    by rewrite Hdone in Hrej. }
  destruct Hown as (e & He & Hi & Hu).
  assert (is_Some (head (selected
    (Sql.and (Sql.eq WorkoutExercises.id i) (Sql.eq WorkoutExercises.userId (user_id u)))
    (exercises d)))) as [e0 He0] by (by eapply head_selected_is_Some).
  revert Hdone. unfold server.deleteWorkoutExercise.
  rewrite (defineAction_accepted _ _ _ _ _ _ Hin).
  unfold server.deleteWorkoutExercise_handler.
  rewrite (await_fulfilled _ _ _ _ _ (requireUser_signed_in u d)).
  unfold mbind, Async_bind, await, db.select_exercises. simpl.
  rewrite He0. simpl. intros Hdone. injection Hdone as <- <-.
  assert (¬ owns_exercise
    (with_exercises
       (deleted (Sql.and (Sql.eq WorkoutExercises.id i)
                         (Sql.eq WorkoutExercises.userId (user_id u))) (exercises d))
       d) (user_id u) i) as Hgone.
  { intros (e1 & He1 & Hi1 & Hu1). simpl in He1.
    apply deleted_elem_of in He1 as [_ Hkeep]. by apply Hkeep. }
  split; [done|]. split; [done|]. split.
  - intros raw' rt' Hin'. by eapply deleteWorkoutExercise_missing.
  - intros raw' input rt' Hin' Hid Hne _.
    by eapply upsertWorkoutExercise_exercise_missing.
Qed.

Lemma deleted_exercise_is_gone_witness :
  ∃ d',
    server.deleteWorkoutExercise (Sample.body [("id", VStr "e1")])
      (signed_in Sample.alice) Sample.rt Sample.gym =
      (d', Fulfilled {| success := true; data := "e1" |}) ∧
    (server.deleteWorkoutExercise (Sample.body [("id", VStr "e1")])
       (signed_in Sample.alice) Sample.rt d').2 =
      Rejected (ActionError NOT_FOUND "Workout exercise not found.") ∧
    ∃ message,
      (server.upsertWorkoutExercise
         (Sample.body [("id", VStr "e1"); ("sessionId", VStr "s1");
                       ("name", VStr "Bench Press")])
         (signed_in Sample.alice) Sample.rt d').2 =
        Rejected (ActionError NOT_FOUND message).
Proof.
  destruct (deleted_exercise_is_gone (Sample.body [("id", VStr "e1")]) "e1"
    Sample.alice Sample.rt Sample.gym
    (server.deleteWorkoutExercise (Sample.body [("id", VStr "e1")])
       (signed_in Sample.alice) Sample.rt Sample.gym).1
    {| success := true; data := "e1" |}) as (_ & _ & Hagain & Hupdate).
  - vm_compute. reflexivity.
  - vm_compute. reflexivity.
  - eexists. split; [vm_compute; reflexivity|]. split.
    + apply (Hagain (Sample.body [("id", VStr "e1")]) Sample.rt). vm_compute. reflexivity.
    + apply (Hupdate
        (Sample.body [("id", VStr "e1"); ("sessionId", VStr "s1");
                      ("name", VStr "Bench Press")])
        {| ExerciseInput.id := Some "e1"; ExerciseInput.sessionId := "s1";
           ExerciseInput.name := "Bench Press"; ExerciseInput.category := None;
           ExerciseInput.sets := None; ExerciseInput.repsPerSet := None;
           ExerciseInput.weightPerRep := None; ExerciseInput.distanceKm := None;
           ExerciseInput.durationMinutes := None; ExerciseInput.caloriesBurned := None;
           ExerciseInput.notes := None |}
        Sample.rt).
      * vm_compute. reflexivity.
      * reflexivity.
      * discriminate.
      * apply (bool_decide_unpack _). vm_compute. exact I.
Defined.

(** ** Other users' rows *)

Lemma filter_updated_frame {R P} (set : P -> R -> R) (p : P) (w : Sql.Where R)
    (Q : R → Prop) `{∀ r, Decision (Q r)} (l : list R) :
  (∀ r, holds w r → ¬ Q r ∧ ¬ Q (set p r)) →
  filter Q (updated set p w l) = filter Q l.
Proof.
  intros Hw. unfold updated. induction l as [|x l IH]; [done|].
  rewrite fmap_cons, !filter_cons, IH.
  destruct (decide (holds w x)) as [Hx|Hx]; [|done].
  destruct (Hw x Hx) as [Hno Hno']. by rewrite !decide_False.
Qed.

Lemma filter_deleted_frame {R} (w : Sql.Where R)
    (Q : R → Prop) `{∀ r, Decision (Q r)} (l : list R) :
  (∀ r, holds w r → ¬ Q r) →
  filter Q (deleted w l) = filter Q l.
Proof.
  intros Hw. unfold deleted. induction l as [|x l IH]; [done|].
  rewrite !filter_cons.
  destruct (decide (¬ holds w x)) as [Hx|Hx].
  - rewrite filter_cons, IH. done.
  - rewrite IH. rewrite decide_False; [done|].
    apply Hw. by destruct (decide (holds w x)).
Qed.

Lemma filter_inserted_frame {R} (Q : R → Prop) `{∀ r, Decision (Q r)} (l : list R) r :
  ¬ Q r → filter Q (l ++ [r]) = filter Q l.
Proof.
  intros Hr. rewrite filter_app, filter_cons, decide_False by done.
  by rewrite filter_nil, app_nil_r.
Qed.

(** Entering an action as the signed-in caller [u]. *)
Ltac enter_as u d action schema handler :=
  unfold action, defineAction;
  destruct (schema _ _) as [input|]; [|done];
  unfold handler;
  rewrite (await_fulfilled _ _ _ _ _ (requireUser_signed_in u d)).

Ltac session_lookup :=
  unfold getSessionForUser, db.select_sessions;
  unfold mbind, Async_bind, await, resolve, throw, window; simpl;
  destruct (head (selected _ _)); simpl; [|done].

(** X5. Whatever a signed-in caller sends to whichever action, the rows of
    every other user, sessions and exercises alike, are afterwards what they
    were, in the same order. *)
Theorem actions_leave_others_alone raw u rt d :
  of_others (server.createWorkoutSession raw (signed_in u) rt d).1 (user_id u) =
    of_others d (user_id u) ∧
  of_others (server.updateWorkoutSession raw (signed_in u) rt d).1 (user_id u) =
    of_others d (user_id u) ∧
  of_others (server.deleteWorkoutSession raw (signed_in u) rt d).1 (user_id u) =
    of_others d (user_id u) ∧
  of_others (server.listMyWorkoutSessions raw (signed_in u) rt d).1 (user_id u) =
    of_others d (user_id u) ∧
  of_others (server.getWorkoutSessionWithExercises raw (signed_in u) rt d).1 (user_id u) =
    of_others d (user_id u) ∧
  of_others (server.upsertWorkoutExercise raw (signed_in u) rt d).1 (user_id u) =
    of_others d (user_id u) ∧
  of_others (server.deleteWorkoutExercise raw (signed_in u) rt d).1 (user_id u) =
    of_others d (user_id u).
Proof.
  unfold of_others.
  split; [|split; [|split; [|split; [|split; [|split]]]]].
  - enter_as u d server.createWorkoutSession server.createWorkoutSession_input
      server.createWorkoutSession_handler.
    unfold mbind, Async_bind, await, db.insert_session. cbv beta zeta.
    destruct (has_key _ _ _); simpl; [done|].
    f_equal. apply filter_inserted_frame. simpl. by intros Hne.
  - enter_as u d server.updateWorkoutSession server.updateWorkoutSession_input
      server.updateWorkoutSession_handler.
    session_lookup. f_equal. apply filter_updated_frame.
    intros row [_ Hu]. simpl in *. split; by intros Hne.
  - enter_as u d server.deleteWorkoutSession server.id_input
      server.deleteWorkoutSession_handler.
    session_lookup. f_equal; apply filter_deleted_frame; by intros row [_ Hu] Hne.
  - enter_as u d server.listMyWorkoutSessions server.listMyWorkoutSessions_input
      server.listMyWorkoutSessions_handler.
    done.
  - enter_as u d server.getWorkoutSessionWithExercises server.id_input
      server.getWorkoutSessionWithExercises_handler.
    session_lookup. done.
  - enter_as u d server.upsertWorkoutExercise server.upsertWorkoutExercise_input
      server.upsertWorkoutExercise_handler.
    session_lookup.
    destruct (truthy (ExerciseInput.id input)) as [i|].
    + unfold db.select_exercises, db.update_exercises. simpl.
      destruct (head (selected _ _)); simpl; [|done].
      f_equal. apply filter_updated_frame.
      intros row [_ Hu]. simpl in *. split; by intros Hne.
    + unfold db.insert_exercise. cbv beta zeta.
      destruct (has_key _ _ _); simpl; [done|].
      f_equal. apply filter_inserted_frame. simpl. by intros Hne.
  - enter_as u d server.deleteWorkoutExercise server.id_input
      server.deleteWorkoutExercise_handler.
    unfold db.select_exercises, db.delete_exercises.
    unfold mbind, Async_bind, await, resolve, throw; simpl.
    destruct (head (selected _ _)); simpl; [|done].
    f_equal. apply filter_deleted_frame. by intros row [_ Hu] Hne.
Qed.

(** ** Columns no request rewrites *)

Lemma fmap_updated_frame {R P B} (set : P -> R -> R) (p : P) (w : Sql.Where R)
    (f : R → B) (l : list R) :
  (∀ r, f (set p r) = f r) → f <$> updated set p w l = f <$> l.
Proof.
  intros Hf. unfold updated. rewrite <- list_fmap_compose.
  apply list_fmap_ext. intros j r _. simpl. by destruct (decide (holds w r)).
Qed.

(** X6. No body and no caller make [updateWorkoutSession] or
    [upsertWorkoutExercise] rewrite the [id], the [userId] or the
    [createdAt] of an existing row, or add or remove a session.
    [updateWorkoutSession] touches no exercise; [upsertWorkoutExercise]
    keeps the existing exercises' identities in place and at most appends
    one row. *)
Theorem identity_columns_are_immutable raw context rt d :
  (session_identity <$> sessions (server.updateWorkoutSession raw context rt d).1 =
     session_identity <$> sessions d ∧
   exercises (server.updateWorkoutSession raw context rt d).1 = exercises d) ∧
  (sessions (server.upsertWorkoutExercise raw context rt d).1 = sessions d ∧
   ∃ new,
     exercise_identity <$> exercises (server.upsertWorkoutExercise raw context rt d).1 =
       (exercise_identity <$> exercises d) ++ new ∧
     (length new ≤ 1)%nat).
Proof.
  split.
  - enter_action server.updateWorkoutSession server.updateWorkoutSession_input
      server.updateWorkoutSession_handler.
    unfold getSessionForUser, db.select_sessions.
    unfold mbind, Async_bind, await, resolve, throw, window; simpl.
    destruct (head (selected _ _)); simpl; [|done].
    split; [|done]. by apply fmap_updated_frame.
  - unfold server.upsertWorkoutExercise, defineAction.
    destruct (server.upsertWorkoutExercise_input _ _) as [input|];
      [|split; [done|]; exists []; rewrite app_nil_r; split; [done | simpl; lia]].
    unfold server.upsertWorkoutExercise_handler, requireUser.
    destruct (locals _ ≫= user) as [caller|];
      [|split; [done|]; exists []; rewrite app_nil_r; split; [done | simpl; lia]].
    unfold mbind at 1, Async_bind at 1, await at 1, resolve; simpl.
    unfold getSessionForUser, db.select_sessions.
    unfold mbind, Async_bind, await, resolve, throw, window; simpl.
    destruct (head (selected _ _)); simpl;
      [|split; [done|]; exists []; rewrite app_nil_r; split; [done | simpl; lia]].
    destruct (truthy (ExerciseInput.id input)) as [i|].
    + unfold db.select_exercises, db.update_exercises. simpl.
      destruct (head (selected _ _)); simpl;
        [|split; [done|]; exists []; rewrite app_nil_r; split; [done | simpl; lia]].
      split; [done|]. exists []. rewrite app_nil_r. split; [|simpl; lia].
      by apply fmap_updated_frame.
    + unfold db.insert_exercise. cbv beta zeta.
      destruct (has_key _ _ _); simpl;
        [split; [done|]; exists []; rewrite app_nil_r; split; [done | simpl; lia]|].
      split; [done|]. eexists. rewrite fmap_app. split; [reflexivity | simpl; lia].
Qed.

(** ** What reaches the tables has passed the schema *)

Lemma optional_inv {A} (s : z.Schema A) v a :
  z.optional s v = Some (Some a) → s v = Some a.
Proof.
  unfold z.optional. destruct v; try done;
    by (intros Hv; destruct (s _); simplify_eq/=).
Qed.

Lemma min1_inv v s : z.min 1 z.string v = Some s → s ≠ "".
Proof.
  unfold z.min, z.check. destruct (z.string v) as [t|]; simpl; [|done].
  destruct t; simpl; [done|]. by intros [= <-].
Qed.

Lemma positive_int_pos v n : z.positive (z.int z.number) v = Some n → 0 < n.
Proof.
  unfold z.positive, z.check. destruct (z.int z.number v) as [m|]; simpl; [|done].
  destruct (0 <? m) eqn:Hm; [|done]. intros [= <-]. by apply Z.ltb_lt.
Qed.

Lemma nonnegative_int_inv v n : z.nonnegative (z.int z.number) v = Some n → 0 ≤ n.
Proof.
  unfold z.nonnegative, z.check. destruct (z.int z.number v) as [m|]; simpl; [|done].
  destruct (0 <=? m) eqn:Hm; [|done]. intros [= <-]. by apply Z.leb_le.
Qed.

Lemma positive_number_inv v x : z.positive z.number v = Some x → is_positive x.
Proof.
  unfold z.positive, z.check. destruct (z.number v) as [y|]; simpl; [|done].
  destruct y as [q| | |]; simpl; try done.
  - destruct (0 <? Qnum q) eqn:Hq; [|done]. intros [= <-]. simpl.
    apply Z.ltb_lt in Hq. unfold Qlt. simpl. lia.
  - by intros [= <-].
Qed.

Lemma nonnegative_number_inv v x : z.nonnegative z.number v = Some x → is_nonnegative x.
Proof.
  unfold z.nonnegative, z.check. destruct (z.number v) as [y|]; simpl; [|done].
  destruct y as [q| | |]; simpl; try done.
  - destruct (0 <=? Qnum q) eqn:Hq; [|done]. intros [= <-]. simpl.
    apply Z.leb_le in Hq. unfold Qle. simpl. lia.
  - by intros [= <-].
Qed.

(** One field of an object schema at a time. *)
Tactic Notation "read_field" hyp(H) ident(name) :=
  match type of H with
  | (?e ≫= _) = Some _ =>
      let Hf := fresh "H" name in
      destruct e as [name|] eqn:Hf; simpl in H; [|discriminate H]
  end.

Lemma optional_min1_valid v (o : option string) :
  z.optional (z.min 1 z.string) v = Some o → o ≠ Some "".
Proof.
  intros Hv ->. apply optional_inv in Hv. by apply min1_inv in Hv.
Qed.

Lemma optional_positive_int_valid v (o : option Z) :
  z.optional (z.positive (z.int z.number)) v = Some o → ∀ n, o = Some n → 0 < n.
Proof. intros Hv n ->. apply optional_inv in Hv. by apply positive_int_pos in Hv. Qed.

Lemma optional_nonnegative_int_valid v (o : option Z) :
  z.optional (z.nonnegative (z.int z.number)) v = Some o → ∀ n, o = Some n → 0 ≤ n.
Proof. intros Hv n ->. apply optional_inv in Hv. by apply nonnegative_int_inv in Hv. Qed.

Lemma optional_positive_number_valid v (o : option JsNum) :
  z.optional (z.positive z.number) v = Some o → ∀ x, o = Some x → is_positive x.
Proof. intros Hv x ->. apply optional_inv in Hv. by apply positive_number_inv in Hv. Qed.

Lemma optional_nonnegative_number_valid v (o : option JsNum) :
  z.optional (z.nonnegative z.number) v = Some o → ∀ x, o = Some x → is_nonnegative x.
Proof.
  intros Hv x ->. apply optional_inv in Hv. by apply nonnegative_number_inv in Hv.
Qed.

Lemma createWorkoutSession_input_valid rt raw input :
  server.createWorkoutSession_input rt raw = Some input →
  CreateInput.title input ≠ Some "" ∧
  CreateInput.workoutType input ≠ Some "" ∧
  (∀ n, CreateInput.totalDurationMinutes input = Some n → 0 < n) ∧
  (∀ n, CreateInput.totalCalories input = Some n → 0 ≤ n).
Proof.
  unfold server.createWorkoutSession_input, z.object.
  destruct raw as [o|]; [|done]. intros H.
  read_field H title. read_field H workoutDate. read_field H startTime. read_field H endTime.
  read_field H workoutType. read_field H notes. read_field H totalDurationMinutes.
  read_field H totalCalories. injection H as <-. simpl.
  split; [by eapply optional_min1_valid|].
  split; [by eapply optional_min1_valid|].
  split; [by eapply optional_positive_int_valid|].
  by eapply optional_nonnegative_int_valid.
Qed.

Lemma updateWorkoutSession_input_valid rt raw input :
  server.updateWorkoutSession_input rt raw = Some input →
  UpdateInput.title input ≠ Some "" ∧
  UpdateInput.workoutType input ≠ Some "" ∧
  (∀ n, UpdateInput.totalDurationMinutes input = Some n → 0 < n) ∧
  (∀ n, UpdateInput.totalCalories input = Some n → 0 ≤ n).
Proof.
  unfold server.updateWorkoutSession_input, z.object.
  destruct raw as [o|]; [|done]. intros H.
  read_field H id. read_field H title. read_field H workoutDate. read_field H startTime. read_field H endTime.
  read_field H workoutType. read_field H notes. read_field H totalDurationMinutes.
  read_field H totalCalories. injection H as <-. simpl.
  split; [by eapply optional_min1_valid|].
  split; [by eapply optional_min1_valid|].
  split; [by eapply optional_positive_int_valid|].
  by eapply optional_nonnegative_int_valid.
Qed.

Lemma upsertWorkoutExercise_input_valid rt raw input :
  server.upsertWorkoutExercise_input rt raw = Some input →
  ExerciseInput.name input ≠ "" ∧
  (∀ n, ExerciseInput.sets input = Some n → 0 < n) ∧
  (∀ n, ExerciseInput.repsPerSet input = Some n → 0 < n) ∧
  (∀ x, ExerciseInput.weightPerRep input = Some x → is_positive x) ∧
  (∀ x, ExerciseInput.distanceKm input = Some x → is_positive x) ∧
  (∀ x, ExerciseInput.durationMinutes input = Some x → is_positive x) ∧
  (∀ x, ExerciseInput.caloriesBurned input = Some x → is_nonnegative x).
Proof.
  unfold server.upsertWorkoutExercise_input, z.object.
  destruct raw as [o|]; [|done]. intros H.
  read_field H id. read_field H sessionId. read_field H name. read_field H category. read_field H sets.
  read_field H repsPerSet. read_field H weightPerRep. read_field H distanceKm.
  read_field H durationMinutes. read_field H caloriesBurned. read_field H notes.
  injection H as <-. simpl.
  split; [by eapply min1_inv|].
  split; [by eapply optional_positive_int_valid|].
  split; [by eapply optional_positive_int_valid|].
  split; [by eapply optional_positive_number_valid|].
  split; [by eapply optional_positive_number_valid|].
  split; [by eapply optional_positive_number_valid|].
  by eapply optional_nonnegative_number_valid.
Qed.

Lemma Forall_updated {R P} (set : P -> R -> R) (p : P) (w : Sql.Where R)
    (valid : R → Prop) (l : list R) :
  (∀ r, valid r → valid (set p r)) → Forall valid l → Forall valid (updated set p w l).
Proof.
  intros Hset Hl. unfold updated. apply Forall_fmap.
  eapply Forall_impl; [exact Hl|]. intros r Hr. simpl.
  destruct (decide (holds w r)); [by apply Hset | done].
Qed.

Lemma Forall_deleted {R} (w : Sql.Where R) (valid : R → Prop) (l : list R) :
  Forall valid l → Forall valid (deleted w l).
Proof.
  rewrite !Forall_forall. intros Hl r Hr.
  apply deleted_elem_of in Hr as [Hr _]. by apply Hl.
Qed.

Lemma Forall_inserted {R} (valid : R → Prop) (l : list R) r :
  valid r → Forall valid l → Forall valid (l ++ [r]).
Proof. intros Hr Hl. apply Forall_app. split; [done|]. by apply Forall_singleton. Qed.

Lemma or_keep_valid {A} (valid : option A → Prop) (supplied stored : option A) :
  valid supplied → valid stored → valid (or_keep supplied stored).
Proof. by destruct supplied. Qed.

Lemma valid_session_updated input rt s :
  UpdateInput.title input ≠ Some "" ∧
  UpdateInput.workoutType input ≠ Some "" ∧
  (∀ n, UpdateInput.totalDurationMinutes input = Some n → 0 < n) ∧
  (∀ n, UpdateInput.totalCalories input = Some n → 0 ≤ n) →
  valid_session s →
  valid_session (WorkoutSessions.set (server.updateWorkoutSession_updateData input rt) s).
Proof.
  intros (Ht & Hw & Hd & Hc) (Ht' & Hw' & Hd' & Hc').
  rewrite set_updateData_session. unfold valid_session. simpl.
  split; [by apply (or_keep_valid (fun o => o ≠ Some ""))|].
  split; [by apply (or_keep_valid (fun o => o ≠ Some ""))|].
  split; [by apply (or_keep_valid (fun o => ∀ n, o = Some n → 0 < n))|].
  by apply (or_keep_valid (fun o => ∀ n, o = Some n → 0 ≤ n)).
Qed.

Lemma valid_exercise_updated input e :
  ExerciseInput.name input ≠ "" ∧
  (∀ n, ExerciseInput.sets input = Some n → 0 < n) ∧
  (∀ n, ExerciseInput.repsPerSet input = Some n → 0 < n) ∧
  (∀ x, ExerciseInput.weightPerRep input = Some x → is_positive x) ∧
  (∀ x, ExerciseInput.distanceKm input = Some x → is_positive x) ∧
  (∀ x, ExerciseInput.durationMinutes input = Some x → is_positive x) ∧
  (∀ x, ExerciseInput.caloriesBurned input = Some x → is_nonnegative x) →
  valid_exercise e →
  valid_exercise (WorkoutExercises.set (server.upsertWorkoutExercise_updateData input) e).
Proof.
  intros (Hn & Hs & Hr & Hw & Hd & Hm & Hc) (_ & Hs' & Hr' & Hw' & Hd' & Hm' & Hc').
  rewrite set_updateData_exercise. unfold valid_exercise. simpl.
  split; [done|].
  split; [by apply (or_keep_valid (fun o => ∀ n, o = Some n → 0 < n))|].
  split; [by apply (or_keep_valid (fun o => ∀ n, o = Some n → 0 < n))|].
  split; [by apply (or_keep_valid (fun o => ∀ x, o = Some x → is_positive x))|].
  split; [by apply (or_keep_valid (fun o => ∀ x, o = Some x → is_positive x))|].
  split; [by apply (or_keep_valid (fun o => ∀ x, o = Some x → is_positive x))|].
  by apply (or_keep_valid (fun o => ∀ x, o = Some x → is_nonnegative x)).
Qed.

(** Entering an action, keeping what the schema said about the body. *)
Tactic Notation "enter_with" constr(action) constr(schema) constr(handler) ident(Hin) :=
  unfold action, defineAction;
  destruct (schema _ _) as [input|] eqn:Hin; [|done];
  unfold handler, requireUser;
  destruct (locals _ ≫= user) as [caller|]; [|done];
  unfold mbind at 1, Async_bind at 1, await at 1, resolve; simpl.

(** X7. The constraints of the schemas hold of the tables and keep holding:
    if every stored title and workout type is non-empty, every duration,
    set and repetition count positive, every weight, distance and exercise
    duration positive, every calorie count non-negative and every exercise
    name non-empty, then the same is true after any action, whatever the
    body and whoever the caller. *)
Theorem actions_store_validated_values raw context rt d :
  validated d →
  validated (server.createWorkoutSession raw context rt d).1 ∧
  validated (server.updateWorkoutSession raw context rt d).1 ∧
  validated (server.deleteWorkoutSession raw context rt d).1 ∧
  validated (server.listMyWorkoutSessions raw context rt d).1 ∧
  validated (server.getWorkoutSessionWithExercises raw context rt d).1 ∧
  validated (server.upsertWorkoutExercise raw context rt d).1 ∧
  validated (server.deleteWorkoutExercise raw context rt d).1.
Proof.
  intros [Hs He].
  split; [|split; [|split; [|split; [|split; [|split]]]]].
  - enter_with server.createWorkoutSession server.createWorkoutSession_input
      server.createWorkoutSession_handler Hin.
    apply createWorkoutSession_input_valid in Hin.
    unfold mbind, Async_bind, await, db.insert_session. cbv beta zeta.
    destruct (has_key _ _ _); simpl; [done|].
    split; [|done]. by apply Forall_inserted.
  - enter_with server.updateWorkoutSession server.updateWorkoutSession_input
      server.updateWorkoutSession_handler Hin.
    apply updateWorkoutSession_input_valid in Hin.
    unfold getSessionForUser, db.select_sessions.
    unfold mbind, Async_bind, await, resolve, throw, window; simpl.
    destruct (head (selected _ _)); simpl; [|done].
    split; [|done]. apply Forall_updated; [|done].
    intros row. by apply valid_session_updated.
  - enter_with server.deleteWorkoutSession server.id_input
      server.deleteWorkoutSession_handler Hin.
    unfold getSessionForUser, db.select_sessions.
    unfold mbind, Async_bind, await, resolve, throw, window; simpl.
    destruct (head (selected _ _)); simpl; [|done].
    split; by apply Forall_deleted.
  - enter_with server.listMyWorkoutSessions server.listMyWorkoutSessions_input
      server.listMyWorkoutSessions_handler Hin.
    done.
  - enter_with server.getWorkoutSessionWithExercises server.id_input
      server.getWorkoutSessionWithExercises_handler Hin.
    unfold getSessionForUser, db.select_sessions.
    unfold mbind, Async_bind, await, resolve, throw, window; simpl.
    by destruct (head (selected _ _)).
  - enter_with server.upsertWorkoutExercise server.upsertWorkoutExercise_input
      server.upsertWorkoutExercise_handler Hin.
    apply upsertWorkoutExercise_input_valid in Hin.
    unfold getSessionForUser, db.select_sessions.
    unfold mbind, Async_bind, await, resolve, throw, window; simpl.
    destruct (head (selected _ _)); simpl; [|done].
    destruct (truthy (ExerciseInput.id input)) as [i|].
    + unfold db.select_exercises, db.update_exercises. simpl.
      destruct (head (selected _ _)); simpl; [|done].
      split; [done|]. apply Forall_updated; [|done].
      intros row. by apply valid_exercise_updated.
    + unfold db.insert_exercise. cbv beta zeta.
      destruct (has_key _ _ _); simpl; [done|].
      split; [done|]. by apply Forall_inserted.
  - enter_with server.deleteWorkoutExercise server.id_input
      server.deleteWorkoutExercise_handler Hin.
    unfold db.select_exercises, db.delete_exercises.
    unfold mbind, Async_bind, await, resolve, throw; simpl.
    destruct (head (selected _ _)); simpl; [|done].
    split; [done|]. by apply Forall_deleted.
Qed.

Lemma sample_validated : validated Sample.gym.
Proof.
  split; repeat apply Forall_cons_2; try apply Forall_nil_2.
  all: unfold valid_session, valid_exercise; simpl.
  all: repeat split; try discriminate; intros ? [= <-]; simpl; try lia.
  all: by unfold Qlt.
Qed.

Lemma actions_store_validated_values_witness :
  validated
    (server.upsertWorkoutExercise
       (Sample.body [("sessionId", VStr "s1"); ("name", VStr "Dips");
                     ("weightPerRep", VNum (Finite (Qmake 5 2)))])
       (signed_in Sample.alice) Sample.rt Sample.gym).1.
Proof.
  apply (actions_store_validated_values
    (Sample.body [("sessionId", VStr "s1"); ("name", VStr "Dips");
                  ("weightPerRep", VNum (Finite (Qmake 5 2)))])
    (signed_in Sample.alice) Sample.rt Sample.gym sample_validated).
Defined.

Lemma sample_consistent : consistent Sample.gym.
Proof.
  split.
  - split; apply (bool_decide_unpack _); vm_compute; exact I.
  - intros e He. apply (bool_decide_unpack _).
    repeat (apply elem_of_cons in He as [->|He]; [vm_compute; exact I|]).
    by apply elem_of_nil in He.
Qed.

Lemma actions_keep_consistency_witness :
  consistent
    (server.deleteWorkoutSession (Sample.body [("id", VStr "s1")])
       (signed_in Sample.alice) Sample.rt Sample.gym).1.
Proof.
  apply (actions_keep_consistency (Sample.body [("id", VStr "s1")])
    (signed_in Sample.alice) Sample.rt Sample.gym sample_consistent).
Defined.

(** ** More on paging *)

(** What a fulfilled [listMyWorkoutSessions] returns and leaves. *)
Lemma listMyWorkoutSessions_run raw input u rt d :
  server.listMyWorkoutSessions_input rt raw = Some input →
  server.listMyWorkoutSessions raw (signed_in u) rt d =
    (sent (SelectSessions (Sql.eq WorkoutSessions.userId (user_id u))
             (Some (ListInput.pageSize input,
                    (ListInput.page input - 1) * ListInput.pageSize input))) d,
     Fulfilled {|
       success := true;
       data := {|
         Page.items :=
           take (Z.to_nat (ListInput.pageSize input))
             (drop (Z.to_nat ((ListInput.page input - 1) * ListInput.pageSize input))
                (sessions_of d (user_id u)));
         Page.total :=
           Z.of_nat (length
             (take (Z.to_nat (ListInput.pageSize input))
                (drop (Z.to_nat ((ListInput.page input - 1) * ListInput.pageSize input))
                   (sessions_of d (user_id u)))));
         Page.page := ListInput.page input;
         Page.pageSize := ListInput.pageSize input;
       |} |}).
Proof.
  intros Hin. unfold server.listMyWorkoutSessions.
  rewrite (defineAction_accepted _ _ _ _ _ _ Hin).
  unfold server.listMyWorkoutSessions_handler.
  by rewrite (await_fulfilled _ _ _ _ _ (requireUser_signed_in u d)).
Qed.

(** X8. A page of [listMyWorkoutSessions] holds stored sessions of the
    caller only, in storage order and without repeating a row, never more
    than 100 of them; a page that starts past the caller's last session is
    empty and reports a total of 0. The stored rows are ones the driver can
    read and the offset is a safe integer. *)
Theorem listMyWorkoutSessions_only_mine raw input u rt d :
  server.listMyWorkoutSessions_input rt raw = Some input →
  readable d →
  safe_integer ((ListInput.page input - 1) * ListInput.pageSize input) →
  ∃ d' r,
    server.listMyWorkoutSessions raw (signed_in u) rt d = (d', Fulfilled r) ∧
    Page.items (data r) `sublist_of` sessions d ∧
    Forall (fun s => WorkoutSessions.userId s = user_id u) (Page.items (data r)) ∧
    (length (Page.items (data r)) ≤ 100)%nat ∧
    (Z.of_nat (length (sessions_of d (user_id u))) ≤
       (ListInput.page input - 1) * ListInput.pageSize input →
     Page.items (data r) = [] ∧ Page.total (data r) = 0).
Proof.
  intros Hin _ _. eexists. eexists. split; [by apply listMyWorkoutSessions_run|].
  destruct (listMyWorkoutSessions_input_bounds _ _ _ Hin) as [Hp Hn]. simpl.
  split; [|split; [|split]].
  - etrans; [apply sublist_take|]. etrans; [apply sublist_drop|].
    apply sublist_filter.
  - apply Forall_take, Forall_drop, Forall_forall. intros s Hs.
    by apply list_elem_of_filter in Hs as [Hu _].
  - rewrite length_take. lia.
  - intros Hpast. rewrite drop_ge by lia. by rewrite take_nil.
Qed.

Lemma listMyWorkoutSessions_only_mine_witness :
  ∃ d' r,
    server.listMyWorkoutSessions
      (Sample.body [("page", VNum (Finite (inject_Z 3)));
                    ("pageSize", VNum (Finite (inject_Z 2)))])
      (signed_in Sample.alice) Sample.rt Sample.gym = (d', Fulfilled r) ∧
    Page.items (data r) = [] ∧ Page.total (data r) = 0.
Proof.
  destruct (listMyWorkoutSessions_only_mine
    (Sample.body [("page", VNum (Finite (inject_Z 3)));
                  ("pageSize", VNum (Finite (inject_Z 2)))])
    {| ListInput.page := 3; ListInput.pageSize := 2 |}
    Sample.alice Sample.rt Sample.gym) as (d' & r & Hrun & _ & _ & _ & Hpast).
  - vm_compute. reflexivity.
  - apply (bool_decide_unpack _). vm_compute. exact I.
  - apply (bool_decide_unpack _). vm_compute. exact I.
  - exists d', r. split; [exact Hrun|]. apply Hpast. vm_compute. discriminate.
Defined.

(** X9. Paging skips nothing: with pages of size [n], the caller's session
    number [j] (counting from 0, in storage order) is item [j mod n] of page
    [j / n + 1]. The stored rows are ones the driver can read and [j] is a
    safe integer, so the offset of that page is one too. *)
Theorem every_session_is_on_its_page raw (j n : nat) s u rt d :
  server.listMyWorkoutSessions_input rt raw =
    Some {| ListInput.page := Z.of_nat (j / n) + 1; ListInput.pageSize := Z.of_nat n |} →
  sessions_of d (user_id u) !! j = Some s →
  readable d →
  safe_integer (Z.of_nat j) →
  ∃ d' r,
    server.listMyWorkoutSessions raw (signed_in u) rt d = (d', Fulfilled r) ∧
    Page.items (data r) !! (j mod n)%nat = Some s.
Proof.
  intros Hin Hj _ _. eexists. eexists. split; [by apply listMyWorkoutSessions_run|].
  destruct (listMyWorkoutSessions_input_bounds _ _ _ Hin) as [_ [Hn _]].
  simpl in *.
  assert (n ≠ 0)%nat as Hn0 by lia.
  rewrite lookup_take_lt by (rewrite Nat2Z.id; by apply Nat.mod_upper_bound).
  rewrite lookup_drop.
  replace (Z.to_nat ((Z.of_nat (j / n) + 1 - 1) * Z.of_nat n) + j mod n)%nat with j;
    [done|].
  rewrite (Nat.div_mod j n Hn0) at 1. lia.
Qed.

Lemma every_session_is_on_its_page_witness :
  ∃ d' r,
    server.listMyWorkoutSessions
      (Sample.body [("page", VNum (Finite (inject_Z 2)));
                    ("pageSize", VNum (Finite (inject_Z 2)))])
      (signed_in Sample.alice) Sample.rt Sample.gym = (d', Fulfilled r) ∧
    Page.items (data r) !! 0%nat =
      Some (Sample.session "s4" "alice" "Leg Day" 1600000300000).
Proof.
  apply (every_session_is_on_its_page
    (Sample.body [("page", VNum (Finite (inject_Z 2)));
                  ("pageSize", VNum (Finite (inject_Z 2)))])
    2 2 (Sample.session "s4" "alice" "Leg Day" 1600000300000)
    Sample.alice Sample.rt Sample.gym).
  - vm_compute. reflexivity.
  - reflexivity.
  - apply (bool_decide_unpack _). vm_compute. exact I.
  - apply (bool_decide_unpack _). vm_compute. exact I.
Defined.

Lemma int_of_integer (k : Z) :
  z.int z.number (VNum (Finite (inject_Z k))) = Some k.
Proof.
  unfold z.int, z.number, inject_Z. simpl.
  by rewrite Z.mod_1_r, Z.div_1_r.
Qed.

(** X10. What [listMyWorkoutSessions] accepts: integral [page] and
    [pageSize] exactly when [page] is at least 1 and [pageSize] between 1
    and 100, whatever else the body carries; a body with neither means page
    1 of size 20; a [page] given as a string is refused, there is no
    coercion. *)
Theorem listMyWorkoutSessions_input_accepts rt (o : gmap string JsValue) (p n : Z) :
  server.listMyWorkoutSessions_input rt
    (RObject (<["page" := VNum (Finite (inject_Z p))]>
                (<["pageSize" := VNum (Finite (inject_Z n))]> o))) =
    (if decide (1 ≤ p ∧ 1 ≤ n ≤ 100)
     then Some {| ListInput.page := p; ListInput.pageSize := n |}
     else None) ∧
  (o !! "page" = None → o !! "pageSize" = None →
   server.listMyWorkoutSessions_input rt (RObject o) =
     Some {| ListInput.page := 1; ListInput.pageSize := 20 |}) ∧
  (∀ s, server.listMyWorkoutSessions_input rt (RObject (<["page" := VStr s]> o)) = None).
Proof.
  split; [|split].
  - unfold server.listMyWorkoutSessions_input, z.object, prop.
    rewrite lookup_insert_eq, lookup_insert_ne, lookup_insert_eq by done. simpl.
    unfold z.default, z.max, z.positive, z.check.
    rewrite !int_of_integer. simpl.
    destruct (decide _) as [[Hp [Hn Hn']]|Hno].
    + assert ((0 <? p) = true) as -> by (apply Z.ltb_lt; lia). simpl.
      assert ((0 <? n) = true) as -> by (apply Z.ltb_lt; lia). simpl.
      by assert ((n <=? 100) = true) as -> by (apply Z.leb_le; lia).
    + destruct (0 <? p) eqn:Hp; simpl; [|done].
      destruct (0 <? n) eqn:Hn; simpl; [|done].
      destruct (n <=? 100) eqn:Hn'; simpl; [|done].
      exfalso. apply Hno. apply Z.ltb_lt in Hp, Hn. apply Z.leb_le in Hn'. lia.
  - intros Hp Hn. unfold server.listMyWorkoutSessions_input, z.object, prop.
    by rewrite Hp, Hn.
  - intros s. unfold server.listMyWorkoutSessions_input, z.object, prop.
    by rewrite lookup_insert_eq.
Qed.

Lemma listMyWorkoutSessions_input_accepts_witness :
  server.listMyWorkoutSessions_input Sample.rt (Sample.body []) =
    Some {| ListInput.page := 1; ListInput.pageSize := 20 |}.
Proof.
  apply (listMyWorkoutSessions_input_accepts Sample.rt ∅ 1 1); reflexivity.
Defined.

(** ** Writing, then reading *)

(** What [getWorkoutSessionWithExercises] returns once its lookup has found
    [s]. *)
Lemma getWorkoutSessionWithExercises_run raw i u rt d s :
  server.id_input rt raw = Some {| IdInput.id := i |} →
  head (selected (Sql.and (Sql.eq WorkoutSessions.id i)
                          (Sql.eq WorkoutSessions.userId (user_id u))) (sessions d)) =
    Some s →
  ∃ d',
    server.getWorkoutSessionWithExercises raw (signed_in u) rt d =
      (d', Fulfilled {|
         success := true;
         data := {|
           SessionWithExercises.session := s;
           SessionWithExercises.exercises :=
             selected (Sql.and (Sql.eq WorkoutExercises.sessionId i)
                               (Sql.eq WorkoutExercises.userId (user_id u))) (exercises d);
         |} |}).
Proof.
  intros Hin Hs. eexists.
  unfold server.getWorkoutSessionWithExercises.
  rewrite (defineAction_accepted _ _ _ _ _ _ Hin).
  unfold server.getWorkoutSessionWithExercises_handler.
  rewrite (await_fulfilled _ _ _ _ _ (requireUser_signed_in u d)).
  unfold getSessionForUser, mbind, Async_bind, await, db.select_sessions,
    db.select_exercises. simpl.
  rewrite Hs. reflexivity.
Qed.

Lemma selected_app {R} (w : Sql.Where R) (l k : list R) :
  selected w (l ++ k) = selected w l ++ selected w k.
Proof. apply filter_app. Qed.

(** X11. A session that [createWorkoutSession] has returned can be read back
    by its creator, as it was returned and with no exercise under it, and by
    nobody else. The generated id is assumed fresh and every stored exercise
    to be under an existing session of its owner; the supplied fields, the
    generated id and the caller's id are ones the driver reads back as they
    were bound. *)
Theorem created_session_can_be_read raw input u rt d :
  server.createWorkoutSession_input rt raw = Some input →
  randomUUID rt ∉ WorkoutSessions.id <$> sessions d →
  referential d →
  storable_create input →
  plain_text (randomUUID rt) →
  plain_text (user_id u) →
  ∃ d1 s,
    server.createWorkoutSession raw (signed_in u) rt d =
      (d1, Fulfilled {| success := true; data := s |}) ∧
    (∀ raw' rt',
       server.id_input rt' raw' = Some {| IdInput.id := WorkoutSessions.id s |} →
       ∃ d2,
         server.getWorkoutSessionWithExercises raw' (signed_in u) rt' d1 =
           (d2, Fulfilled {|
              success := true;
              data := {|
                SessionWithExercises.session := s;
                SessionWithExercises.exercises := [];
              |} |})) ∧
    (∀ v raw' rt',
       user_id v ≠ user_id u →
       server.id_input rt' raw' = Some {| IdInput.id := WorkoutSessions.id s |} →
       (server.getWorkoutSessionWithExercises raw' (signed_in v) rt' d1).2 =
         Rejected (ActionError NOT_FOUND "Workout session not found.")).
Proof.
  intros Hin Hfresh Href _ _ _. eexists. eexists. split.
  { unfold server.createWorkoutSession.
    rewrite (defineAction_accepted _ _ _ _ _ _ Hin).
    unfold server.createWorkoutSession_handler.
    rewrite (await_fulfilled _ _ _ _ _ (requireUser_signed_in u d)).
    unfold mbind, Async_bind, await, db.insert_session. simpl.
    rewrite has_key_fresh by done. reflexivity. }
  simpl. split.
  - intros raw' rt' Hin'.
    match goal with
    | |- ∃ d2, server.getWorkoutSessionWithExercises _ _ _ ?d1 = _ =>
        edestruct (getWorkoutSessionWithExercises_run raw' (randomUUID rt) u rt' d1)
          as (d2 & Hrun); [exact Hin'| |]
    end.
    + unfold with_sessions, sent. cbn [sessions]. rewrite selected_app.
      rewrite (selected_nil _ (sessions d)).
      * unfold selected. rewrite filter_cons, decide_True by done. reflexivity.
      * intros s Hs [Hi _]. simpl in Hi. apply Hfresh. rewrite <- Hi.
        by apply list_elem_of_fmap_2.
    + exists d2. rewrite Hrun. unfold with_sessions, sent. cbn [exercises].
      rewrite selected_nil; [done|].
      intros e He [Hi Hu]. simpl in Hi, Hu.
      destruct (Href e He) as (s & Hs & Hsi & _). apply Hfresh.
      rewrite <- Hi, <- Hsi. by apply list_elem_of_fmap_2.
  - intros v raw' rt' Hv Hin'.
    eapply getWorkoutSessionWithExercises_missing; [exact Hin'|].
    intros (s & Hs & Hi & Hu). simpl in Hs.
    apply elem_of_app in Hs as [Hs|Hs].
    + apply Hfresh. rewrite <- Hi. by apply list_elem_of_fmap_2.
    + apply list_elem_of_singleton in Hs. subst s. simpl in Hu. by apply Hv.
Qed.

Lemma created_session_can_be_read_witness :
  ∃ d1 s d2,
    server.createWorkoutSession (Sample.body [("title", VStr "Core")])
      (signed_in Sample.bob) Sample.rt Sample.gym =
      (d1, Fulfilled {| success := true; data := s |}) ∧
    server.getWorkoutSessionWithExercises
      (Sample.body [("id", VStr "9b2d7c1e-0000-4000-8000-000000000001")])
      (signed_in Sample.bob) Sample.rt d1 =
      (d2, Fulfilled {|
         success := true;
         data := {|
           SessionWithExercises.session := s;
           SessionWithExercises.exercises := [];
         |} |}).
Proof.
  destruct (created_session_can_be_read (Sample.body [("title", VStr "Core")])
    {| CreateInput.title := Some "Core"; CreateInput.workoutDate := None;
       CreateInput.startTime := None; CreateInput.endTime := None;
       CreateInput.workoutType := None; CreateInput.notes := None;
       CreateInput.totalDurationMinutes := None; CreateInput.totalCalories := None |}
    Sample.bob Sample.rt Sample.gym) as (d1 & s & Hrun & Hread & _).
  - vm_compute. reflexivity.
  - apply (bool_decide_unpack _). vm_compute. exact I.
  - apply sample_consistent.
  - apply (bool_decide_unpack _). vm_compute. exact I.
  - apply (bool_decide_unpack _). vm_compute. exact I.
  - apply (bool_decide_unpack _). vm_compute. exact I.
  - assert (WorkoutSessions.id s = "9b2d7c1e-0000-4000-8000-000000000001") as Hid.
    { revert Hrun. vm_compute. by intros [= _ <-]. }
    destruct (Hread (Sample.body [("id", VStr "9b2d7c1e-0000-4000-8000-000000000001")])
      Sample.rt) as (d2 & Hget).
    + rewrite Hid. vm_compute. reflexivity.
    + by exists d1, s, d2.
Defined.

(** X12. An exercise that [upsertWorkoutExercise] has inserted is the last
    entry of what [getWorkoutSessionWithExercises] then returns for its
    session, after the exercises that were listed before. The stored rows
    are ones the driver can read; the supplied fields and the generated id
    are ones it reads back as they were bound. *)
Theorem inserted_exercise_is_listed raw input u rt d k s :
  server.upsertWorkoutExercise_input rt raw = Some input →
  ExerciseInput.id input = None →
  NoDup (WorkoutSessions.id <$> sessions d) →
  sessions d !! k = Some s →
  WorkoutSessions.id s = ExerciseInput.sessionId input →
  WorkoutSessions.userId s = user_id u →
  randomUUID rt ∉ WorkoutExercises.id <$> exercises d →
  readable d →
  storable_exercise input →
  plain_text (randomUUID rt) →
  ∃ d1 e,
    server.upsertWorkoutExercise raw (signed_in u) rt d =
      (d1, Fulfilled {| success := true; data := Some e |}) ∧
    WorkoutExercises.id e = randomUUID rt ∧
    WorkoutExercises.name e = ExerciseInput.name input ∧
    (∀ raw' rt',
       server.id_input rt' raw' =
         Some {| IdInput.id := ExerciseInput.sessionId input |} →
       ∃ d2,
         server.getWorkoutSessionWithExercises raw' (signed_in u) rt' d1 =
           (d2, Fulfilled {|
              success := true;
              data := {|
                SessionWithExercises.session := s;
                SessionWithExercises.exercises :=
                  filter (fun x =>
                            WorkoutExercises.sessionId x = ExerciseInput.sessionId input ∧
                            WorkoutExercises.userId x = user_id u) (exercises d) ++ [e];
              |} |})).
Proof.
  intros Hin Hid Hnd Hk Hsi Hsu Hfresh _ _ _.
  pose proof (getSessionForUser_unique d k s Hnd Hk) as Hget.
  rewrite Hsi, Hsu in Hget.
  eexists. eexists. split.
  { unfold server.upsertWorkoutExercise.
    rewrite (defineAction_accepted _ _ _ _ _ _ Hin).
    unfold server.upsertWorkoutExercise_handler.
    rewrite (await_fulfilled _ _ _ _ _ (requireUser_signed_in u d)).
    rewrite (await_fulfilled _ _ _ _ _ Hget).
    rewrite Hid. unfold truthy, mbind, Async_bind, await, db.insert_exercise. simpl.
    rewrite has_key_fresh by done. reflexivity. }
  simpl. split; [done|]. split; [done|].
  intros raw' rt' Hin'.
  match goal with
  | |- ∃ d2, server.getWorkoutSessionWithExercises _ _ _ ?d1 = _ =>
      edestruct (getWorkoutSessionWithExercises_run raw'
                   (ExerciseInput.sessionId input) u rt' d1 s) as (d2 & Hrun);
        [exact Hin'| |]
  end.
  - unfold with_exercises, sent. cbn [sessions]. rewrite <- Hsi, <- Hsu.
    by rewrite (selected_unique WorkoutSessions.id WorkoutSessions.userId _ k s Hnd Hk).
  - exists d2. rewrite Hrun. unfold with_exercises, sent. cbn [exercises].
    rewrite selected_app. unfold selected at 2.
    rewrite filter_cons, decide_True by done. reflexivity.
Qed.

Lemma inserted_exercise_is_listed_witness :
  ∃ d1 e d2 r,
    server.upsertWorkoutExercise
      (Sample.body [("sessionId", VStr "s3"); ("name", VStr "Chin-up")])
      (signed_in Sample.alice) Sample.rt Sample.gym =
      (d1, Fulfilled {| success := true; data := Some e |}) ∧
    server.getWorkoutSessionWithExercises (Sample.body [("id", VStr "s3")])
      (signed_in Sample.alice) Sample.rt d1 = (d2, Fulfilled r) ∧
    SessionWithExercises.exercises (data r) =
      [Sample.exercise "e3" "s3" "alice" "Barbell Row"; e].
Proof.
  destruct (inserted_exercise_is_listed
    (Sample.body [("sessionId", VStr "s3"); ("name", VStr "Chin-up")])
    {| ExerciseInput.id := None; ExerciseInput.sessionId := "s3";
       ExerciseInput.name := "Chin-up"; ExerciseInput.category := None;
       ExerciseInput.sets := None; ExerciseInput.repsPerSet := None;
       ExerciseInput.weightPerRep := None; ExerciseInput.distanceKm := None;
       ExerciseInput.durationMinutes := None; ExerciseInput.caloriesBurned := None;
       ExerciseInput.notes := None |}
    Sample.alice Sample.rt Sample.gym 2%nat
    (Sample.session "s3" "alice" "Pull Day" 1600000200000))
    as (d1 & e & Hrun & _ & _ & Hread).
  - vm_compute. reflexivity.
  - reflexivity.
  - apply (bool_decide_unpack _). vm_compute. exact I.
  - reflexivity.
  - reflexivity.
  - reflexivity.
  - apply (bool_decide_unpack _). vm_compute. exact I.
  - apply (bool_decide_unpack _). vm_compute. exact I.
  - apply (bool_decide_unpack _). vm_compute. exact I.
  - apply (bool_decide_unpack _). vm_compute. exact I.
  - destruct (Hread (Sample.body [("id", VStr "s3")]) Sample.rt) as (d2 & Hget).
    + vm_compute. reflexivity.
    + eexists d1, e, d2, _. split; [exact Hrun|]. split; [exact Hget|]. reflexivity.
Defined.

(** What [upsertWorkoutExercise] does to the exercise [e] it is asked to
    update. *)
Lemma upsertWorkoutExercise_update_run raw input u rt d k e :
  server.upsertWorkoutExercise_input rt raw = Some input →
  ExerciseInput.id input = Some (WorkoutExercises.id e) →
  WorkoutExercises.id e ≠ "" →
  owns_session d (user_id u) (ExerciseInput.sessionId input) →
  NoDup (WorkoutExercises.id <$> exercises d) →
  exercises d !! k = Some e →
  WorkoutExercises.userId e = user_id u →
  ∃ d',
    server.upsertWorkoutExercise raw (signed_in u) rt d =
      (d', Fulfilled {|
         success := true;
         data := Some (WorkoutExercises.set
                         (server.upsertWorkoutExercise_updateData input) e) |}) ∧
    exercises d' =
      <[k := WorkoutExercises.set (server.upsertWorkoutExercise_updateData input) e]>
        (exercises d) ∧
    sessions d' = sessions d.
Proof.
  intros Hin Hid Hne Hown Hnd Hk Hu.
  destruct (getSessionForUser_found _ _ _ Hown) as (s0 & Hget & _).
  pose proof (set_updateData_exercise input e) as Hset.
  eexists. split.
  - unfold server.upsertWorkoutExercise.
    rewrite (defineAction_accepted _ _ _ _ _ _ Hin).
    unfold server.upsertWorkoutExercise_handler.
    rewrite (await_fulfilled _ _ _ _ _ (requireUser_signed_in u d)).
    rewrite (await_fulfilled _ _ _ _ _ Hget).
    rewrite Hid.
    assert (truthy (Some (WorkoutExercises.id e)) = Some (WorkoutExercises.id e)) as ->
      by (by destruct (WorkoutExercises.id e)).
    rewrite <- Hu.
    unfold mbind, Async_bind, await, db.update_exercises, db.select_exercises, mret,
      Async_ret, resolve.
    simpl.
    rewrite (selected_unique WorkoutExercises.id WorkoutExercises.userId _ k e Hnd Hk).
    simpl.
    rewrite (updated_unique WorkoutExercises.id WorkoutExercises.userId
               WorkoutExercises.set _ _ k e Hnd Hk).
    rewrite (selected_after_update WorkoutExercises.id WorkoutExercises.userId
               _ k e _ Hnd Hk); [reflexivity| |]; by rewrite Hset.
  - done.
Qed.

(** X13. An exercise moved by [upsertWorkoutExercise] to another session of
    the caller is afterwards listed under the target session and no longer
    under the session it came from. The stored rows are ones the driver can
    read and the supplied fields ones it binds and reads back as
    supplied. *)
Theorem moved_exercise_follows_its_session raw input u rt d k e kt t :
  server.upsertWorkoutExercise_input rt raw = Some input →
  ExerciseInput.id input = Some (WorkoutExercises.id e) →
  WorkoutExercises.id e ≠ "" →
  NoDup (WorkoutExercises.id <$> exercises d) →
  exercises d !! k = Some e →
  WorkoutExercises.userId e = user_id u →
  NoDup (WorkoutSessions.id <$> sessions d) →
  sessions d !! kt = Some t →
  WorkoutSessions.id t = ExerciseInput.sessionId input →
  WorkoutSessions.userId t = user_id u →
  readable d →
  storable_exercise input →
  ∃ d1 e',
    server.upsertWorkoutExercise raw (signed_in u) rt d =
      (d1, Fulfilled {| success := true; data := Some e' |}) ∧
    WorkoutExercises.id e' = WorkoutExercises.id e ∧
    (∀ raw' rt',
       server.id_input rt' raw' =
         Some {| IdInput.id := ExerciseInput.sessionId input |} →
       ∃ d2 r,
         server.getWorkoutSessionWithExercises raw' (signed_in u) rt' d1 =
           (d2, Fulfilled r) ∧
         SessionWithExercises.session (data r) = t ∧
         e' ∈ SessionWithExercises.exercises (data r)) ∧
    (WorkoutExercises.sessionId e ≠ ExerciseInput.sessionId input →
     ∀ raw' rt' d2 r,
       server.id_input rt' raw' =
         Some {| IdInput.id := WorkoutExercises.sessionId e |} →
       server.getWorkoutSessionWithExercises raw' (signed_in u) rt' d1 =
         (d2, Fulfilled r) →
       ∀ x, x ∈ SessionWithExercises.exercises (data r) →
            WorkoutExercises.id x ≠ WorkoutExercises.id e).
Proof.
  intros Hin Hid Hne Hnd Hk Hu Hnds Hkt Hti Htu _ _.
  assert (owns_session d (user_id u) (ExerciseInput.sessionId input)) as Hown.
  { exists t. split; [by eapply list_elem_of_lookup_2 | done]. }
  destruct (upsertWorkoutExercise_update_run _ _ _ _ _ _ _ Hin Hid Hne Hown Hnd Hk Hu)
    as (d1 & Hrun & Hex & Hss).
  pose proof (set_updateData_exercise input e) as Hset.
  remember (WorkoutExercises.set (server.upsertWorkoutExercise_updateData input) e)
    as e' eqn:Hdef.
  clear Hdef.
  assert (e' ∈ exercises d1) as He'.
  { rewrite Hex. eapply list_elem_of_lookup_2.
    apply list_lookup_insert_eq. by eapply lookup_lt_Some. }
  exists d1, e'. split; [exact Hrun|]. split; [by rewrite Hset|]. split.
  - intros raw' rt' Hin'.
    edestruct (getWorkoutSessionWithExercises_run raw'
                 (ExerciseInput.sessionId input) u rt' d1 t) as (d2 & Hget);
      [exact Hin'| |].
    + rewrite Hss, <- Hti, <- Htu.
      by rewrite (selected_unique WorkoutSessions.id WorkoutSessions.userId _ kt t
                    Hnds Hkt).
    + eexists d2, _. split; [exact Hget|]. split; [done|]. simpl.
      apply list_elem_of_filter. split; [|done].
      split; simpl; rewrite Hset; simpl; [done|by rewrite Hu].
  - intros Hmoved raw' rt' d2 r Hin' Hget x Hx Hsame.
    assert (owns_session d1 (user_id u) (WorkoutExercises.sessionId e) ∨
            ¬ owns_session d1 (user_id u) (WorkoutExercises.sessionId e)) as [Hsrc|Hsrc]
      by (destruct (decide (owns_session d1 (user_id u) (WorkoutExercises.sessionId e)));
          tauto).
    + destruct Hsrc as (s & Hs & Hsi & Hsu).
      destruct (head_selected_is_Some
        (Sql.and (Sql.eq WorkoutSessions.id (WorkoutExercises.sessionId e))
                 (Sql.eq WorkoutSessions.userId (user_id u))) (sessions d1) s Hs)
        as [s0 Hs0]; [by split|].
      destruct (getWorkoutSessionWithExercises_run raw' _ u rt' d1 s0 Hin' Hs0)
        as (d2' & Hget').
      rewrite Hget' in Hget. injection Hget as _ <-. simpl in Hx.
      apply list_elem_of_filter in Hx as [[Hxs _] Hx]. simpl in Hxs.
      rewrite Hex in Hx. apply list_elem_of_lookup in Hx as [j Hj].
      destruct (decide (j = k)) as [->|Hjk].
      * rewrite list_lookup_insert_eq in Hj by (by eapply lookup_lt_Some).
        injection Hj as <-. rewrite Hset in Hxs. simpl in Hxs. by apply Hmoved.
      * rewrite list_lookup_insert_ne in Hj by done.
        apply Hjk. by eapply (key_unique WorkoutExercises.id).
    + pose proof (getWorkoutSessionWithExercises_missing raw' _ u rt' d1 Hin' Hsrc)
        as Hrej.
      by rewrite Hget in Hrej.
Qed.

Lemma moved_exercise_follows_its_session_witness :
  ∃ d1 e' d2 r,
    server.upsertWorkoutExercise
      (Sample.body [("id", VStr "e1"); ("sessionId", VStr "s4"); ("name", VStr "Squat")])
      (signed_in Sample.alice) Sample.rt Sample.gym =
      (d1, Fulfilled {| success := true; data := Some e' |}) ∧
    server.getWorkoutSessionWithExercises (Sample.body [("id", VStr "s4")])
      (signed_in Sample.alice) Sample.rt d1 = (d2, Fulfilled r) ∧
    e' ∈ SessionWithExercises.exercises (data r).
Proof.
  destruct (moved_exercise_follows_its_session
    (Sample.body [("id", VStr "e1"); ("sessionId", VStr "s4"); ("name", VStr "Squat")])
    {| ExerciseInput.id := Some "e1"; ExerciseInput.sessionId := "s4";
       ExerciseInput.name := "Squat"; ExerciseInput.category := None;
       ExerciseInput.sets := None; ExerciseInput.repsPerSet := None;
       ExerciseInput.weightPerRep := None; ExerciseInput.distanceKm := None;
       ExerciseInput.durationMinutes := None; ExerciseInput.caloriesBurned := None;
       ExerciseInput.notes := None |}
    Sample.alice Sample.rt Sample.gym 0%nat
    (Sample.exercise "e1" "s1" "alice" "Bench Press") 3%nat
    (Sample.session "s4" "alice" "Leg Day" 1600000300000))
    as (d1 & e' & Hrun & _ & Hread & _).
  - vm_compute. reflexivity.
  - reflexivity.
  - discriminate.
  - apply (bool_decide_unpack _). vm_compute. exact I.
  - reflexivity.
  - reflexivity.
  - apply (bool_decide_unpack _). vm_compute. exact I.
  - reflexivity.
  - reflexivity.
  - reflexivity.
  - apply (bool_decide_unpack _). vm_compute. exact I.
  - apply (bool_decide_unpack _). vm_compute. exact I.
  - destruct (Hread (Sample.body [("id", VStr "s4")]) Sample.rt) as (d2 & r & Hget & _ & Hin).
    + vm_compute. reflexivity.
    + by exists d1, e', d2, r.
Defined.

(** ** The session lookup *)

(** X14. [getSessionForUser] changes no table. It is rejected with NOT_FOUND
    exactly when the caller has no session with the id. When the stored rows
    are ones the driver can read, a session of the caller is found, and what
    is returned is a stored session with that id owned by the caller. *)
Theorem getSessionForUser_spec i u d :
  sessions (getSessionForUser i u d).1 = sessions d ∧
  exercises (getSessionForUser i u d).1 = exercises d ∧
  ((getSessionForUser i u d).2 =
     Rejected (ActionError NOT_FOUND "Workout session not found.") ↔
   ¬ owns_session d u i) ∧
  (readable d →
   ∀ s, (getSessionForUser i u d).2 = Fulfilled s →
        s ∈ sessions d ∧ WorkoutSessions.id s = i ∧ WorkoutSessions.userId s = u) ∧
  (readable d →
   owns_session d u i → ∃ s, (getSessionForUser i u d).2 = Fulfilled s).
Proof.
  destruct (decide (owns_session d u i)) as [Hown|Hno].
  - destruct (getSessionForUser_found _ _ _ Hown) as (s & Hget & Hs).
    rewrite Hget. simpl. split; [done|]. split; [done|]. split; [|split].
    + split; [done|]. by intros Hno.
    + by intros _ s' [= <-].
    + by exists s.
  - rewrite (getSessionForUser_missing _ _ _ Hno). simpl.
    split; [done|]. split; [done|]. split; [|split]; [done..|].
    by intros _ Hown.
Qed.

Lemma getSessionForUser_spec_witness :
  (getSessionForUser "s2" "alice" Sample.gym).2 =
    Rejected (ActionError NOT_FOUND "Workout session not found.") ∧
  ∃ s, (getSessionForUser "s2" "bob" Sample.gym).2 = Fulfilled s.
Proof.
  split.
  - apply (getSessionForUser_spec "s2" "alice" Sample.gym).
    apply (bool_decide_unpack _). vm_compute. exact I.
  - destruct (getSessionForUser_spec "s2" "bob" Sample.gym) as (_ & _ & _ & _ & Hfound).
    apply Hfound; apply (bool_decide_unpack _); vm_compute; exact I.
Defined.

(** ** Deleting what was listed *)

(** X15. The exercises [deleteWorkoutSession] removes are the ones
    [getWorkoutSessionWithExercises] listed for that session just before:
    the exercises stored before the deletion are, up to order, those stored
    after it together with those that were listed. The stored rows are ones
    the driver can read, and no exercise of another user is under the
    session. *)
Theorem cascade_removes_what_was_listed raw i u rt d :
  server.id_input rt raw = Some {| IdInput.id := i |} →
  owns_session d (user_id u) i →
  readable d →
  unreferenced_by_others d (user_id u) i →
  ∃ dr listed dd,
    server.getWorkoutSessionWithExercises raw (signed_in u) rt d =
      (dr, Fulfilled listed) ∧
    server.deleteWorkoutSession raw (signed_in u) rt d =
      (dd, Fulfilled {| success := true; data := i |}) ∧
    exercises d ≡ₚ
      SessionWithExercises.exercises (data listed) ++ exercises dd ∧
    (length (exercises dd) +
       length (SessionWithExercises.exercises (data listed)) =
     length (exercises d))%nat.
Proof.
  intros Hin Hown _ _.
  destruct Hown as (s & Hs & Hi & Hu).
  destruct (head_selected_is_Some
    (Sql.and (Sql.eq WorkoutSessions.id i) (Sql.eq WorkoutSessions.userId (user_id u)))
    (sessions d) s Hs) as [s0 Hs0]; [by split|].
  destruct (getWorkoutSessionWithExercises_run raw i u rt d s0 Hin Hs0) as (dr & Hget).
  destruct (deleteWorkoutSession_run raw i u rt d Hin) as (dd & Hdel & Hex & _);
    [by exists s|].
  exists dr. eexists. exists dd. split; [exact Hget|]. split; [exact Hdel|].
  simpl. rewrite Hex. unfold selected, deleted.
  assert (exercises d ≡ₚ
    filter (holds (Sql.and (Sql.eq WorkoutExercises.sessionId i)
                           (Sql.eq WorkoutExercises.userId (user_id u)))) (exercises d) ++
    filter (fun r => ¬ holds (Sql.and (Sql.eq WorkoutExercises.sessionId i)
                                      (Sql.eq WorkoutExercises.userId (user_id u))) r)
      (exercises d)) as Hperm by (symmetry; apply filter_app_complement).
  split; [exact Hperm|].
  rewrite (Permutation_length Hperm), length_app. lia.
Qed.

Lemma cascade_removes_what_was_listed_witness :
  ∃ dr listed dd,
    server.getWorkoutSessionWithExercises (Sample.body [("id", VStr "s1")])
      (signed_in Sample.alice) Sample.rt Sample.gym = (dr, Fulfilled listed) ∧
    server.deleteWorkoutSession (Sample.body [("id", VStr "s1")])
      (signed_in Sample.alice) Sample.rt Sample.gym =
      (dd, Fulfilled {| success := true; data := "s1" |}) ∧
    (length (exercises dd) + length (SessionWithExercises.exercises (data listed)) = 4)%nat.
Proof.
  destruct (cascade_removes_what_was_listed (Sample.body [("id", VStr "s1")]) "s1"
    Sample.alice Sample.rt Sample.gym) as (dr & listed & dd & Hget & Hdel & _ & Hlen).
  - vm_compute. reflexivity.
  - apply (bool_decide_unpack _). vm_compute. exact I.
  - apply (bool_decide_unpack _). vm_compute. exact I.
  - apply (bool_decide_unpack _). vm_compute. exact I.
  - by exists dr, listed, dd.
Defined.

(** ** An empty id *)

(** X16. [upsertWorkoutExercise] treats an [id] that is the empty string as
    no [id] at all: the body with [id: ""] and the same body without [id]
    settle alike and leave the same database, whoever calls. *)
Theorem empty_id_is_no_id o context rt d :
  server.upsertWorkoutExercise (RObject (<["id" := VStr ""]> o)) context rt d =
  server.upsertWorkoutExercise (RObject (delete "id" o)) context rt d.
Proof.
  unfold server.upsertWorkoutExercise, defineAction,
    server.upsertWorkoutExercise_input, z.object, prop.
  rewrite lookup_insert_eq, lookup_delete_eq.
  rewrite !lookup_insert_ne, !lookup_delete_ne by done.
  simpl.
  repeat match goal with
  | |- context [mbind _ ?e] =>
      lazymatch e with
      | context [mbind] => fail
      | _ => destruct e; simpl; [|reflexivity]
      end
  end.
  reflexivity.
Qed.

(** ** Sending an update again *)

(** What [updateWorkoutSession] does to the session [s] it is asked to
    update. *)
Lemma updateWorkoutSession_run raw input u rt d k s :
  server.updateWorkoutSession_input rt raw = Some input →
  NoDup (WorkoutSessions.id <$> sessions d) →
  sessions d !! k = Some s →
  WorkoutSessions.id s = UpdateInput.id input →
  WorkoutSessions.userId s = user_id u →
  ∃ d',
    server.updateWorkoutSession raw (signed_in u) rt d =
      (d', Fulfilled {|
         success := true;
         data := Some (WorkoutSessions.set
                         (server.updateWorkoutSession_updateData input rt) s) |}) ∧
    sessions d' =
      <[k := WorkoutSessions.set (server.updateWorkoutSession_updateData input rt) s]>
        (sessions d) ∧
    exercises d' = exercises d.
Proof.
  intros Hin Hnd Hk Hid Hu.
  assert (owns_session d (user_id u) (UpdateInput.id input)) as Hown.
  { exists s. split; [by eapply list_elem_of_lookup_2 | done]. }
  destruct (getSessionForUser_found _ _ _ Hown) as (s0 & Hget & _).
  pose proof (set_updateData_session input rt s) as Hset.
  eexists. split.
  - unfold server.updateWorkoutSession.
    rewrite (defineAction_accepted _ _ _ _ _ _ Hin).
    unfold server.updateWorkoutSession_handler.
    rewrite (await_fulfilled _ _ _ _ _ (requireUser_signed_in u d)).
    rewrite (await_fulfilled _ _ _ _ _ Hget).
    unfold mbind, Async_bind, await, db.update_sessions, db.select_sessions, mret, Async_ret,
      resolve, window.
    simpl. rewrite <- Hid, <- Hu.
    rewrite (updated_unique WorkoutSessions.id WorkoutSessions.userId
               WorkoutSessions.set _ _ k s Hnd Hk).
    rewrite (selected_after_update WorkoutSessions.id WorkoutSessions.userId
               _ k s _ Hnd Hk); [reflexivity| |]; by rewrite Hset.
  - done.
Qed.

Lemma or_keep_again {A} (supplied stored : option A) :
  or_keep supplied (or_keep supplied stored) = or_keep supplied stored.
Proof. by destruct supplied. Qed.

(** X17. Sending the same update a second time is harmless: the session it
    returns and stores is the one the first update returned, with
    [updatedAt] moved to the time of the second; no other row and no
    exercise changes. The stored rows are ones the driver can read and the
    supplied fields ones it reads back as supplied. *)
Theorem repeated_update_moves_only_updatedAt raw input u rt rt' d k s :
  server.updateWorkoutSession_input rt raw = Some input →
  server.updateWorkoutSession_input rt' raw = Some input →
  NoDup (WorkoutSessions.id <$> sessions d) →
  sessions d !! k = Some s →
  WorkoutSessions.id s = UpdateInput.id input →
  WorkoutSessions.userId s = user_id u →
  readable d →
  storable_update input →
  ∃ d1 s1 d2 s2,
    server.updateWorkoutSession raw (signed_in u) rt d =
      (d1, Fulfilled {| success := true; data := Some s1 |}) ∧
    server.updateWorkoutSession raw (signed_in u) rt' d1 =
      (d2, Fulfilled {| success := true; data := Some s2 |}) ∧
    s2 = {|
      WorkoutSessions.id := WorkoutSessions.id s1;
      WorkoutSessions.userId := WorkoutSessions.userId s1;
      WorkoutSessions.title := WorkoutSessions.title s1;
      WorkoutSessions.workoutDate := WorkoutSessions.workoutDate s1;
      WorkoutSessions.startTime := WorkoutSessions.startTime s1;
      WorkoutSessions.endTime := WorkoutSessions.endTime s1;
      WorkoutSessions.workoutType := WorkoutSessions.workoutType s1;
      WorkoutSessions.notes := WorkoutSessions.notes s1;
      WorkoutSessions.totalDurationMinutes := WorkoutSessions.totalDurationMinutes s1;
      WorkoutSessions.totalCalories := WorkoutSessions.totalCalories s1;
      WorkoutSessions.createdAt := WorkoutSessions.createdAt s1;
      WorkoutSessions.updatedAt := now rt';
    |} ∧
    sessions d2 = <[k := s2]> (sessions d1) ∧
    sessions d2 = <[k := s2]> (sessions d) ∧
    exercises d2 = exercises d.
Proof.
  intros Hin Hin' Hnd Hk Hid Hu _ _.
  destruct (updateWorkoutSession_run _ _ _ _ _ _ _ Hin Hnd Hk Hid Hu)
    as (d1 & Hrun1 & Hs1 & He1).
  pose proof (set_updateData_session input rt s) as Hset1.
  remember (WorkoutSessions.set (server.updateWorkoutSession_updateData input rt) s)
    as s1 eqn:Hdef. clear Hdef.
  assert (NoDup (WorkoutSessions.id <$> sessions d1)) as Hnd1.
  { rewrite Hs1, list_fmap_insert, list_insert_id; [done|].
    rewrite list_lookup_fmap, Hk. simpl. by rewrite Hset1. }
  assert (sessions d1 !! k = Some s1) as Hk1.
  { rewrite Hs1. apply list_lookup_insert_eq. by eapply lookup_lt_Some. }
  destruct (updateWorkoutSession_run raw input u rt' d1 k s1 Hin' Hnd1 Hk1)
    as (d2 & Hrun2 & Hs2 & He2); [by rewrite Hset1..|].
  pose proof (set_updateData_session input rt' s1) as Hset2.
  remember (WorkoutSessions.set (server.updateWorkoutSession_updateData input rt') s1)
    as s2 eqn:Hdef. clear Hdef.
  exists d1, s1, d2, s2. split; [exact Hrun1|]. split; [exact Hrun2|].
  split; [|split; [exact Hs2|split]].
  - rewrite Hset2. rewrite Hset1. simpl. rewrite !or_keep_again.
    f_equal. by destruct (UpdateInput.workoutDate input).
  - by rewrite Hs2, Hs1, list_insert_insert_eq.
  - by rewrite He2.
Qed.

Lemma repeated_update_moves_only_updatedAt_witness :
  ∃ d1 s1 d2 s2,
    server.updateWorkoutSession
      (Sample.body [("id", VStr "s3"); ("notes", VStr "felt strong")])
      (signed_in Sample.alice) Sample.rt Sample.gym =
      (d1, Fulfilled {| success := true; data := Some s1 |}) ∧
    server.updateWorkoutSession
      (Sample.body [("id", VStr "s3"); ("notes", VStr "felt strong")])
      (signed_in Sample.alice) (Sample.rt_at 1700000000999 "unused") d1 =
      (d2, Fulfilled {| success := true; data := Some s2 |}) ∧
    WorkoutSessions.notes s2 = WorkoutSessions.notes s1 ∧
    WorkoutSessions.updatedAt s2 = 1700000000999.
Proof.
  destruct (repeated_update_moves_only_updatedAt
    (Sample.body [("id", VStr "s3"); ("notes", VStr "felt strong")])
    {| UpdateInput.id := "s3"; UpdateInput.title := None;
       UpdateInput.workoutDate := None; UpdateInput.startTime := None;
       UpdateInput.endTime := None; UpdateInput.workoutType := None;
       UpdateInput.notes := Some "felt strong";
       UpdateInput.totalDurationMinutes := None; UpdateInput.totalCalories := None |}
    Sample.alice Sample.rt (Sample.rt_at 1700000000999 "unused") Sample.gym 2%nat
    (Sample.session "s3" "alice" "Pull Day" 1600000200000))
    as (d1 & s1 & d2 & s2 & Hrun1 & Hrun2 & Hs2 & _).
  - vm_compute. reflexivity.
  - vm_compute. reflexivity.
  - apply (bool_decide_unpack _). vm_compute. exact I.
  - reflexivity.
  - reflexivity.
  - reflexivity.
  - apply (bool_decide_unpack _). vm_compute. exact I.
  - apply (bool_decide_unpack _). vm_compute. exact I.
  - exists d1, s1, d2, s2. split; [exact Hrun1|]. split; [exact Hrun2|].
    rewrite Hs2. split; reflexivity.
Defined.

(** ** Dates *)

Lemma optional_date_refused rt v :
  v ≠ VUndefined → newDate rt v = None → z.optional (z.coerce_date rt) v = None.
Proof.
  intros Hv Hno. unfold z.optional, z.coerce_date.
  destruct v; try done; by rewrite Hno.
Qed.

(** Reading the fields of an object schema until one is refused. *)
Ltac refuse_by Hdate :=
  unfold z.object, prop;
  rewrite ?lookup_insert_eq, ?lookup_insert_ne by done; simpl;
  repeat match goal with
  | |- context [z.optional (z.coerce_date _) _] => rewrite Hdate; simpl; reflexivity
  | |- context [mbind _ ?e] =>
      lazymatch e with
      | context [mbind] => fail
      | _ => destruct e; simpl; [|reflexivity]
      end
  end.

(** X18. A [workoutDate], [startTime] or [endTime] that is present and from
    which the runtime cannot make a valid date makes
    [createWorkoutSession] and [updateWorkoutSession] refuse the body:
    invalid input, whoever calls, and the database is not touched. *)
Theorem unparseable_date_is_refused rt o v key context d :
  key ∈ ["workoutDate"; "startTime"; "endTime"] →
  v ≠ VUndefined →
  newDate rt v = None →
  server.createWorkoutSession (RObject (<[key := v]> o)) context rt d =
    (d, Rejected ActionInputError) ∧
  server.updateWorkoutSession (RObject (<[key := v]> o)) context rt d =
    (d, Rejected ActionInputError).
Proof.
  intros Hkey Hv Hno.
  pose proof (optional_date_refused rt v Hv Hno) as Hdate.
  assert (key = "workoutDate" ∨ key = "startTime" ∨ key = "endTime") as Hcases.
  { repeat (apply elem_of_cons in Hkey as [Hkey|Hkey]; [tauto|]).
    by apply elem_of_nil in Hkey. }
  split; apply defineAction_rejected.
  - unfold server.createWorkoutSession_input.
    destruct Hcases as [-> | [-> | ->]]; refuse_by Hdate.
  - unfold server.updateWorkoutSession_input.
    destruct Hcases as [-> | [-> | ->]]; refuse_by Hdate.
Qed.

Lemma unparseable_date_is_refused_witness :
  server.createWorkoutSession
    (Sample.body [("startTime", VStr "tomorrow")])
    (signed_in Sample.alice) Sample.rt Sample.gym =
    (Sample.gym, Rejected ActionInputError).
Proof.
  apply (unparseable_date_is_refused Sample.rt ∅ (VStr "tomorrow") "startTime"
    (signed_in Sample.alice) Sample.gym).
  - apply (bool_decide_unpack _). vm_compute. exact I.
  - discriminate.
  - reflexivity.
Defined.
